(** * score-predic: temporal features of a match ledger

    A shallow embedding of the feature engineering of
    [laliga_feature_builder.py] and [laliga_dataset_builder.py] and of the
    match table of [efficient_data_storage.py], with the properties the
    specification states about them.

    Conventions of the embedding.
    - A pandas [DataFrame] of matches is the list of its rows, in frame
      order; [df[mask]] is [filter]; [len] is [length]; [.empty] is [[]].
    - [iterrows] over a frame that mixes text and integer columns hands the
      loop body plain Python integers, so goals and counters live in [Z].
    - A [Timestamp] is its number of nanoseconds since 1970-01-01, a
      [Timedelta] likewise; [.days] is the floor of the division by one day.
    - [/] between Python integers raises [ZeroDivisionError] on a zero
      divisor and otherwise gives the float nearest to the quotient; the
      quotient is kept exact, in [Q], and the exception is [None].
    - [np.mean] adds in float64, so its result is that float only while the
      additions are exact; see [F64].
    - The integers of a frame are those of an integer column, 64 bits wide.
    - A frame may come without the columns [match_id] and [matchday];
      [Columns] says which of them it has, and a cell of either may be
      empty.
    - A statement that SQLite or Python refuses is the [except] branch of
      its caller: [add_match] and [add_matches_batch] return their failure
      value and leave the storage as it was.
    - What the libraries leave open (the order of equal dates after
      [sort_values], the iteration order of a [set]) is a field of
      [Runtime]; theorems hold for every runtime. *)

From Stdlib Require Import ZArith String Bool Lia QArith.
From Stdlib Require Import List.
From Stdlib Require Import Permutation Sorted.
Import ListNotations.

Local Open Scope Z_scope.
Local Open Scope list_scope.

(** ** Exceptions as [option] *)

Definition bind {A B : Type} (x : option A) (k : A -> option B) : option B :=
  match x with
  | Some a => k a
  | None => None
  end.

Definition ret {A : Type} (a : A) : option A := Some a.

Notation "x <- e ;; k" := (bind e (fun x => k))
  (at level 61, e at next level, right associativity).

Fixpoint mapM {A B : Type} (f : A -> option B) (l : list A) : option (list B) :=
  match l with
  | [] => ret []
  | a :: l' => b <- f a ;; bs <- mapM f l' ;; ret (b :: bs)
  end.

(** [a / b] on Python integers. *)
Definition py_truediv (a b : Z) : option Q :=
  if b =? 0 then None else Some (inject_Z a / inject_Z b)%Q.

(** ** Floats of [np.mean]

    [np.mean] converts its operands to float64, adds them up and divides
    the sum by their number; it raises for no list.  While the absolute
    values add up to less than 2^53 every operand and every partial sum, in
    whatever order they are added, is an integer a float holds exactly: the
    only rounding is that of the division, and the mean is the float nearest
    to the quotient, [exact].  Beyond that bound conversions and additions
    may round as well; the mean is then kept as the operation it is,
    [rounded_mean].  The mean of no number is [nan].  [minus_from a x] is
    the float subtraction [a - x]. *)
Inductive F64 : Type :=
| exact (q : Q)
| rounded_mean (l : list Z)
| minus_from (a : Z) (x : F64)
| nan.

Definition float_exact (l : list Z) : bool :=
  fold_left Z.add (map Z.abs l) 0 <? 9007199254740992.

Definition np_mean (l : list Z) : F64 :=
  match l with
  | [] => nan
  | _ :: _ =>
      let total := fold_left Z.add l 0 in
      let count := Z.of_nat (length l) in
      if float_exact l then exact (inject_Z total / inject_Z count)%Q
      else rounded_mean l
  end.

(** ** Calendar and timestamps *)

Module Calendar.

Definition Timestamp := Z.

Definition ns_per_day : Z := 86400000000000.

(** [Timedelta.days] *)
Definition days (delta : Z) : Z := delta / ns_per_day.

(** Days since 1970-01-01 of a proleptic Gregorian date. *)
Definition days_from_civil (y m d : Z) : Z :=
  let y' := if m <=? 2 then y - 1 else y in
  let era := y' / 400 in
  let yoe := y' - era * 400 in
  let mp := if 2 <? m then m - 3 else m + 9 in
  let doy := (153 * mp + 2) / 5 + d - 1 in
  let doe := yoe * 365 + yoe / 4 - yoe / 100 + doy in
  era * 146097 + doe - 719468.

(** The proleptic Gregorian (year, month, day) of a day number. *)
Definition civil_from_days (z : Z) : Z * Z * Z :=
  let z' := z + 719468 in
  let era := z' / 146097 in
  let doe := z' - era * 146097 in
  let yoe := (doe - doe / 1460 + doe / 36524 - doe / 146096) / 365 in
  let y := yoe + era * 400 in
  let doy := doe - (365 * yoe + yoe / 4 - yoe / 100) in
  let mp := (5 * doy + 2) / 153 in
  let d := doy - (153 * mp + 2) / 5 + 1 in
  let m := if mp <? 10 then mp + 3 else mp - 9 in
  (if m <=? 2 then y + 1 else y, m, d).

Definition day_number (t : Timestamp) : Z := t / ns_per_day.

Definition year (t : Timestamp) : Z :=
  let '(y, _, _) := civil_from_days (day_number t) in y.

Definition month (t : Timestamp) : Z :=
  let '(_, m, _) := civil_from_days (day_number t) in m.

(** [weekday()]: Monday is 0; 1970-01-01 was a Thursday. *)
Definition weekday (t : Timestamp) : Z := (day_number t + 3) mod 7.

(** Midnight of a calendar date. *)
Definition midnight (y m d : Z) : Timestamp := days_from_civil y m d * ns_per_day.

End Calendar.

Import Calendar.

(** ** Matches and frames *)

(** One row of the match frame.  [match_id] and [matchday] are the cells of
    two columns a frame may come without; [None] is a missing value, and is
    what the cell holds when the frame has no such column. *)
Record Match := {
  match_id : option Z;
  date : Timestamp;
  season : Z;
  matchday : option Z;
  home_team : string;
  away_team : string;
  home_goals : Z;
  away_goals : Z;
  result : string
}.

Definition DataFrame := list Match.

(** Which of the two columns the frame has. *)
Record Columns := {
  has_match_id : bool;
  has_matchday : bool
}.

(** [row[c]]: the cell, or [None] for the [KeyError] when the frame has no
    column [c]. *)
Definition getitem {A : Type} (present : bool) (cell : A) : option A :=
  if present then Some cell else None.

(** [row.get(c, default)]: the cell, or [default] when the frame has no
    column [c]. *)
Definition get {A : Type} (present : bool) (cell default : A) : A :=
  if present then cell else default.

(** [.head(n)]: the first [n] rows, or all but the last [-n] when [n < 0]. *)
Definition head {A : Type} (n : Z) (l : list A) : list A :=
  if 0 <=? n then firstn (Z.to_nat n) l
  else firstn (length l - Z.to_nat (- n)) l.

(** [.unique()]: the distinct values, in order of first appearance. *)
Fixpoint unique (l : list string) : list string :=
  match l with
  | [] => []
  | x :: l' => x :: filter (fun y => negb (String.eqb y x)) (unique l')
  end.

(** [iterrows] on a frame with the default index. *)
Definition iterrows (df : DataFrame) : list (Z * Match) :=
  combine (map Z.of_nat (seq 0 (length df))) df.

(** Descending by date. *)
Definition date_ge (a b : Match) : Prop := date b <= date a.

(** What pandas and Python leave to the implementation:
    - [sort_values('date', ascending=False)] returns the rows by decreasing
      date; the default sorting kind fixes no order among equal dates;
    - iterating over the [set] built from a sequence of names visits each
      name once, in an order that depends on the hash seed of the run. *)
Record Runtime := {
  sort_values_date_desc : list Match -> list Match;
  sort_values_perm : forall l, Permutation (sort_values_date_desc l) l;
  sort_values_sorted : forall l, StronglySorted date_ge (sort_values_date_desc l);
  set_iter : list string -> list string;
  set_iter_NoDup : forall l, NoDup (set_iter l);
  set_iter_In : forall l x, In x (set_iter l) <-> In x l
}.

(** The team plays in the match. *)
Definition plays (team : string) (m : Match) : bool :=
  String.eqb (home_team m) team || String.eqb (away_team m) team.

(** The rows dated strictly before [d]. *)
Definition before (d : Timestamp) (df : DataFrame) : DataFrame :=
  filter (fun m => date m <? d) df.

(** ** The loop of the form computations *)

(** The counters the form loops update. *)
Record Tally := {
  t_points : Z;
  t_goals_scored : Z;
  t_goals_conceded : Z;
  t_wins : Z;
  t_draws : Z;
  t_losses : Z
}.

Definition tally0 : Tally := Build_Tally 0 0 0 0 0 0.

(** One match seen from the side that scored [gs] and conceded [gc]. *)
Definition tally_side (a : Tally) (gs gc : Z) : Tally :=
  let s := t_goals_scored a + gs in
  let c := t_goals_conceded a + gc in
  if gs >? gc then
    Build_Tally (t_points a + 3) s c (t_wins a + 1) (t_draws a) (t_losses a)
  else if gs =? gc then
    Build_Tally (t_points a + 1) s c (t_wins a) (t_draws a + 1) (t_losses a)
  else
    Build_Tally (t_points a) s c (t_wins a) (t_draws a) (t_losses a + 1).

(** Loop body of [calculate_team_form]. *)
Definition form_row (team : string) (a : Tally) (m : Match) : Tally :=
  if String.eqb (home_team m) team
  then tally_side a (home_goals m) (away_goals m)
  else tally_side a (away_goals m) (home_goals m).

(** Loop body of [calculate_home_away_form]. *)
Definition venue_row (venue : string) (a : Tally) (m : Match) : Tally :=
  if String.eqb venue "home"
  then tally_side a (home_goals m) (away_goals m)
  else tally_side a (away_goals m) (home_goals m).

(** The rows [calculate_team_form], [calculate_rest_days],
    [calculate_momentum], [calculate_scoring_patterns] and
    [calculate_strength_of_schedule] select. *)
Definition last_matches (o : Runtime) (df : DataFrame) (team : string)
    (d : Timestamp) (n : Z) : list Match :=
  head n (sort_values_date_desc o
            (filter (fun m => plays team m && (date m <? d)) df)).

(** The rows [calculate_home_away_form] selects. *)
Definition venue_matches (o : Runtime) (df : DataFrame) (team : string)
    (d : Timestamp) (venue : string) (n : Z) : list Match :=
  if String.eqb venue "home" then
    head n (sort_values_date_desc o
              (filter (fun m => String.eqb (home_team m) team && (date m <? d)) df))
  else
    head n (sort_values_date_desc o
              (filter (fun m => String.eqb (away_team m) team && (date m <? d)) df)).

(** The rows [calculate_head_to_head] selects. *)
Definition h2h_matches (o : Runtime) (df : DataFrame) (team1 team2 : string)
    (d : Timestamp) (n : Z) : list Match :=
  head n (sort_values_date_desc o
            (filter (fun m =>
                       ((String.eqb (home_team m) team1 && String.eqb (away_team m) team2)
                        || (String.eqb (home_team m) team2 && String.eqb (away_team m) team1))
                       && (date m <? d)) df)).

(** The counters of the head-to-head loop. *)
Record H2HTally := {
  h_team1_wins : Z;
  h_team2_wins : Z;
  h_draws : Z;
  h_team1_goals : Z;
  h_team2_goals : Z
}.

Definition h2h0 : H2HTally := Build_H2HTally 0 0 0 0 0.

Definition h2h_side (a : H2HTally) (g1 g2 : Z) : H2HTally :=
  let t1 := h_team1_goals a + g1 in
  let t2 := h_team2_goals a + g2 in
  if g1 >? g2 then
    Build_H2HTally (h_team1_wins a + 1) (h_team2_wins a) (h_draws a) t1 t2
  else if g1 =? g2 then
    Build_H2HTally (h_team1_wins a) (h_team2_wins a) (h_draws a + 1) t1 t2
  else
    Build_H2HTally (h_team1_wins a) (h_team2_wins a + 1) (h_draws a) t1 t2.

(** Loop body of [calculate_head_to_head]. *)
Definition h2h_row (team1 : string) (a : H2HTally) (m : Match) : H2HTally :=
  if String.eqb (home_team m) team1
  then h2h_side a (home_goals m) (away_goals m)
  else h2h_side a (away_goals m) (home_goals m).

(** ** League tables *)

(** One entry of a league table. *)
Module Entry.
Record t := {
  team : string;
  points : Z;
  goal_difference : Z;
  goals_scored : Z;
  matches_played : Z
}.

(** The sort key [(points, goal_difference, goals_scored)]. *)
Definition key (e : t) : Z * Z * Z := (points e, goal_difference e, goals_scored e).
End Entry.

(** Python's order on tuples of integers: [a < b]. *)
Definition key_ltb (a b : Z * Z * Z) : bool :=
  let '(a1, a2, a3) := a in
  let '(b1, b2, b3) := b in
  (a1 <? b1) || ((a1 =? b1) && ((a2 <? b2) || ((a2 =? b2) && (a3 <? b3)))).

Definition key_eqb (a b : Z * Z * Z) : bool :=
  let '(a1, a2, a3) := a in
  let '(b1, b2, b3) := b in
  (a1 =? b1) && (a2 =? b2) && (a3 =? b3).

(** [x] enters a table sorted by decreasing key behind the entries whose key
    is strictly larger and in front of all others. *)
Fixpoint insert_desc (x : Entry.t) (l : list Entry.t) : list Entry.t :=
  match l with
  | [] => [x]
  | y :: l' =>
      if key_ltb (Entry.key x) (Entry.key y) then y :: insert_desc x l'
      else x :: y :: l'
  end.

(** [list.sort(key=..., reverse=True)]: by decreasing key, entries with equal
    keys in the order they had (Python's sort is stable, also reversed). *)
Fixpoint sort_table (l : list Entry.t) : list Entry.t :=
  match l with
  | [] => []
  | x :: l' => insert_desc x (sort_table l')
  end.

(** The scan [for i, team_data in enumerate(league_table)]: the index and
    entry of the first entry of [team], counting from [i]. *)
Fixpoint find_team (team : string) (i : Z) (l : list Entry.t) : option (Z * Entry.t) :=
  match l with
  | [] => None
  | e :: l' =>
      if String.eqb (Entry.team e) team then Some (i, e)
      else find_team team (i + 1) l'
  end.

(** [set(season_matches['home_team'].unique()) | set(season_matches['away_team'].unique())],
    as the loop over it visits it. *)
Definition teams_of (o : Runtime) (season_matches : list Match) : list string :=
  set_iter o (unique (map home_team season_matches)
              ++ unique (map away_team season_matches)).

(** ** [LaLigaFeatureBuilder] *)

Module FeatureBuilder.

Module Form.
Record t := {
  points : Z;
  goals_scored : Z;
  goals_conceded : Z;
  goal_difference : Z;
  wins : Z;
  draws : Z;
  losses : Z;
  matches_played : Z;
  points_per_match : Q;
  goals_per_match : Q;
  goals_conceded_per_match : Q
}.
End Form.

Module VenueForm.
Record t := {
  points : Z;
  goals_scored : Z;
  goals_conceded : Z;
  goal_difference : Z;
  wins : Z;
  draws : Z;
  losses : Z;
  matches_played : Z;
  points_per_match : Q;
  win_rate : Q
}.
End VenueForm.

Module H2H.
Record t := {
  team1_wins : Z;
  team2_wins : Z;
  draws : Z;
  team1_goals : Z;
  team2_goals : Z;
  matches_played : Z;
  team1_win_rate : Q;
  team2_win_rate : Q;
  draw_rate : Q;
  goals_per_match : Q
}.
End H2H.

Module League.
Record t := {
  position : Z;
  points : Z;
  goal_difference : Z;
  matches_played : Z
}.
End League.

(** [momentum_per_match] is [None] when the dictionary has no such key. *)
Module Momentum.
Record t := {
  momentum_score : Z;
  recent_wins : Z;
  recent_form : string;
  momentum_per_match : option Q
}.
End Momentum.

(** The two rates are [None] when the dictionary has no such key. *)
Module Scoring.
Record t := {
  avg_goals_scored : F64;
  avg_goals_conceded : F64;
  clean_sheets : Z;
  failed_to_score : Z;
  high_scoring_games : Z;
  clean_sheet_rate : option Q;
  btts_rate : option Q
}.
End Scoring.

Module SoS.
Record t := {
  avg_opponent_position : F64;
  avg_opponent_points : F64;
  strength_of_schedule : option F64
}.
End SoS.

Definition calculate_team_form (o : Runtime) (df : DataFrame) (team : string)
    (d : Timestamp) (n : Z) : option Form.t :=
  let team_matches := last_matches o df team d n in
  let a := fold_left (form_row team) team_matches tally0 in
  let len := Z.of_nat (length team_matches) in
  ppm <- py_truediv (t_points a) (Z.max len 1) ;;
  gpm <- py_truediv (t_goals_scored a) (Z.max len 1) ;;
  cpm <- py_truediv (t_goals_conceded a) (Z.max len 1) ;;
  ret {| Form.points := t_points a;
         Form.goals_scored := t_goals_scored a;
         Form.goals_conceded := t_goals_conceded a;
         Form.goal_difference := t_goals_scored a - t_goals_conceded a;
         Form.wins := t_wins a;
         Form.draws := t_draws a;
         Form.losses := t_losses a;
         Form.matches_played := len;
         Form.points_per_match := ppm;
         Form.goals_per_match := gpm;
         Form.goals_conceded_per_match := cpm |}.

Definition calculate_home_away_form (o : Runtime) (df : DataFrame) (team : string)
    (d : Timestamp) (venue : string) (n : Z) : option VenueForm.t :=
  let team_matches := venue_matches o df team d venue n in
  let a := fold_left (venue_row venue) team_matches tally0 in
  let len := Z.of_nat (length team_matches) in
  ppm <- py_truediv (t_points a) (Z.max len 1) ;;
  wr <- py_truediv (t_wins a) (Z.max len 1) ;;
  ret {| VenueForm.points := t_points a;
         VenueForm.goals_scored := t_goals_scored a;
         VenueForm.goals_conceded := t_goals_conceded a;
         VenueForm.goal_difference := t_goals_scored a - t_goals_conceded a;
         VenueForm.wins := t_wins a;
         VenueForm.draws := t_draws a;
         VenueForm.losses := t_losses a;
         VenueForm.matches_played := len;
         VenueForm.points_per_match := ppm;
         VenueForm.win_rate := wr |}.

Definition calculate_head_to_head (o : Runtime) (df : DataFrame)
    (team1 team2 : string) (d : Timestamp) (n : Z) : option H2H.t :=
  let matches := h2h_matches o df team1 team2 d n in
  let a := fold_left (h2h_row team1) matches h2h0 in
  let total_matches := Z.of_nat (length matches) in
  r1 <- py_truediv (h_team1_wins a) (Z.max total_matches 1) ;;
  r2 <- py_truediv (h_team2_wins a) (Z.max total_matches 1) ;;
  rd <- py_truediv (h_draws a) (Z.max total_matches 1) ;;
  gpm <- py_truediv (h_team1_goals a + h_team2_goals a) (Z.max total_matches 1) ;;
  ret {| H2H.team1_wins := h_team1_wins a;
         H2H.team2_wins := h_team2_wins a;
         H2H.draws := h_draws a;
         H2H.team1_goals := h_team1_goals a;
         H2H.team2_goals := h_team2_goals a;
         H2H.matches_played := total_matches;
         H2H.team1_win_rate := r1;
         H2H.team2_win_rate := r2;
         H2H.draw_rate := rd;
         H2H.goals_per_match := gpm |}.

(** The season a date falls in: it starts in August. *)
Definition season_year (d : Timestamp) : Z :=
  if month d >=? 8 then year d else year d - 1.

Definition season_matches (df : DataFrame) (d : Timestamp) : list Match :=
  filter (fun m => (date m <? d) && (season m =? season_year d)) df.

(** The entry of one team: its form over its last 100 matches. *)
Definition table_entry (o : Runtime) (df : DataFrame) (d : Timestamp)
    (team_name : string) : option Entry.t :=
  team_stats <- calculate_team_form o df team_name d 100 ;;
  ret {| Entry.team := team_name;
         Entry.points := Form.points team_stats;
         Entry.goal_difference := Form.goal_difference team_stats;
         Entry.goals_scored := Form.goals_scored team_stats;
         Entry.matches_played := Form.matches_played team_stats |}.

(** The sorted league table of [calculate_league_position]. *)
Definition league_table (o : Runtime) (df : DataFrame) (d : Timestamp)
    : option (list Entry.t) :=
  table <- mapM (table_entry o df d) (teams_of o (season_matches df d)) ;;
  ret (sort_table table).

Definition unranked : League.t :=
  {| League.position := 20; League.points := 0;
     League.goal_difference := 0; League.matches_played := 0 |}.

Definition calculate_league_position (o : Runtime) (df : DataFrame)
    (team : string) (d : Timestamp) : option League.t :=
  match season_matches df d with
  | [] => ret unranked
  | _ :: _ =>
      table <- league_table o df d ;;
      match find_team team 0 table with
      | Some (i, team_data) =>
          ret {| League.position := i + 1;
                 League.points := Entry.points team_data;
                 League.goal_difference := Entry.goal_difference team_data;
                 League.matches_played := Entry.matches_played team_data |}
      | None => ret unranked
      end
  end.

Definition calculate_rest_days (o : Runtime) (df : DataFrame) (team : string)
    (d : Timestamp) : Z :=
  match last_matches o df team d 1 with
  | last_match :: _ => days (d - date last_match)
  | [] => 0
  end.

(** Loop body of [calculate_momentum]: score and wins. *)
Definition momentum_row (team : string) (a : Z * Z) (m : Match) : Z * Z :=
  let '(momentum_score, wins) := a in
  if String.eqb (home_team m) team then
    if home_goals m >? away_goals m then (momentum_score + 3, wins + 1)
    else if home_goals m =? away_goals m then (momentum_score + 1, wins)
    else (momentum_score, wins)
  else
    if away_goals m >? home_goals m then (momentum_score + 3, wins + 1)
    else if away_goals m =? home_goals m then (momentum_score + 1, wins)
    else (momentum_score, wins).

Definition calculate_momentum (o : Runtime) (df : DataFrame) (team : string)
    (d : Timestamp) (n : Z) : option Momentum.t :=
  match last_matches o df team d n with
  | [] => ret {| Momentum.momentum_score := 0; Momentum.recent_wins := 0;
                 Momentum.recent_form := "Unknown";
                 Momentum.momentum_per_match := None |}
  | recent_matches =>
      let '(momentum_score, wins) := fold_left (momentum_row team) recent_matches (0, 0) in
      let form :=
        if momentum_score >=? 7 then "Excellent"
        else if momentum_score >=? 5 then "Good"
        else if momentum_score >=? 3 then "Average"
        else "Poor" in
      mpm <- py_truediv momentum_score (Z.of_nat (length recent_matches)) ;;
      ret {| Momentum.momentum_score := momentum_score;
             Momentum.recent_wins := wins;
             Momentum.recent_form := form;
             Momentum.momentum_per_match := Some mpm |}
  end%string.

(** The lists and counters of the loop of [calculate_scoring_patterns]. *)
Record Patterns := {
  p_goals_scored : list Z;
  p_goals_conceded : list Z;
  p_clean_sheets : Z;
  p_failed_to_score : Z;
  p_high_scoring_games : Z
}.

Definition scoring_row (team : string) (a : Patterns) (m : Match) : Patterns :=
  let '(gs, gc) :=
    if String.eqb (home_team m) team
    then (home_goals m, away_goals m)
    else (away_goals m, home_goals m) in
  {| p_goals_scored := p_goals_scored a ++ [gs];
     p_goals_conceded := p_goals_conceded a ++ [gc];
     p_clean_sheets := if gc =? 0 then p_clean_sheets a + 1 else p_clean_sheets a;
     p_failed_to_score := if gs =? 0 then p_failed_to_score a + 1 else p_failed_to_score a;
     p_high_scoring_games :=
       if gs + gc >=? 3 then p_high_scoring_games a + 1 else p_high_scoring_games a |}.

Definition calculate_scoring_patterns (o : Runtime) (df : DataFrame) (team : string)
    (d : Timestamp) (n : Z) : option Scoring.t :=
  match last_matches o df team d n with
  | [] => ret {| Scoring.avg_goals_scored := exact 0;
                 Scoring.avg_goals_conceded := exact 0;
                 Scoring.clean_sheets := 0; Scoring.failed_to_score := 0;
                 Scoring.high_scoring_games := 0;
                 Scoring.clean_sheet_rate := None; Scoring.btts_rate := None |}
  | recent_matches =>
      let a := fold_left (scoring_row team) recent_matches (Build_Patterns [] [] 0 0 0) in
      let len := Z.of_nat (length recent_matches) in
      let avg_s := np_mean (p_goals_scored a) in
      let avg_c := np_mean (p_goals_conceded a) in
      csr <- py_truediv (p_clean_sheets a) len ;;
      btts <- py_truediv (len - p_failed_to_score a) len ;;
      ret {| Scoring.avg_goals_scored := avg_s;
             Scoring.avg_goals_conceded := avg_c;
             Scoring.clean_sheets := p_clean_sheets a;
             Scoring.failed_to_score := p_failed_to_score a;
             Scoring.high_scoring_games := p_high_scoring_games a;
             Scoring.clean_sheet_rate := Some csr;
             Scoring.btts_rate := Some btts |}
  end.

(** The opponent of [team] in a match and its standing on the day of
    that match. *)
Definition opponent_standing (o : Runtime) (df : DataFrame) (team : string)
    (m : Match) : option League.t :=
  let opponent :=
    if String.eqb (home_team m) team then away_team m else home_team m in
  calculate_league_position o df opponent (date m).

Definition calculate_strength_of_schedule (o : Runtime) (df : DataFrame)
    (team : string) (d : Timestamp) (n : Z) : option SoS.t :=
  match last_matches o df team d n with
  | [] => ret {| SoS.avg_opponent_position := exact 10;
                 SoS.avg_opponent_points := exact 0;
                 SoS.strength_of_schedule := None |}
  | recent_matches =>
      opp_stats <- mapM (opponent_standing o df team) recent_matches ;;
      let avg_pos := np_mean (map League.position opp_stats) in
      let avg_pts := np_mean (map League.points opp_stats) in
      ret {| SoS.avg_opponent_position := avg_pos;
             SoS.avg_opponent_points := avg_pts;
             SoS.strength_of_schedule := Some (minus_from 21 avg_pos) |}
  end.

(** The row of features of one match; the keys built from a prefix and a
    dictionary are grouped under the prefix.  The momentum dictionaries
    enter without their [recent_form].  [match_id] and [matchday] are cells
    of the frame, or the defaults. *)
Module Features.
Record t := {
  match_id : option Z;
  date : Timestamp;
  season : Z;
  matchday : option Z;
  home_team : string;
  away_team : string;
  result : string;
  home_goals : Z;
  away_goals : Z;
  goal_difference : Z;
  total_goals : Z;
  home_form : Form.t;
  away_form : Form.t;
  home_home : VenueForm.t;
  away_away : VenueForm.t;
  h2h : H2H.t;
  home_league : League.t;
  away_league : League.t;
  home_rest_days : Z;
  away_rest_days : Z;
  rest_difference : Z;
  home_momentum : Z * Z * option Q;
  away_momentum : Z * Z * option Q;
  home_scoring : Scoring.t;
  away_scoring : Scoring.t;
  home_sos : SoS.t;
  away_sos : SoS.t;
  position_difference : Z;
  points_difference : Z;
  form_points_difference : Z;
  form_goal_diff_difference : Z;
  momentum_difference : Z;
  home_advantage : Z;
  month : Z;
  day_of_week : Z;
  is_weekend : Z
}.
End Features.

(** The numeric keys of a momentum dictionary. *)
Definition momentum_numeric (m : Momentum.t) : Z * Z * option Q :=
  (Momentum.momentum_score m, Momentum.recent_wins m, Momentum.momentum_per_match m).

(** The body of the [try] of [build_advanced_features] for the row [match_]
    of index [idx]; [None] is an exception. *)
Definition features (o : Runtime) (cols : Columns) (df : DataFrame) (idx : Z)
    (match_ : Match) : option Features.t :=
  let d := date match_ in
  let home := home_team match_ in
  let away := away_team match_ in
  home_form <- calculate_team_form o df home d 5 ;;
  away_form <- calculate_team_form o df away d 5 ;;
  home_home_form <- calculate_home_away_form o df home d "home" 5 ;;
  away_away_form <- calculate_home_away_form o df away d "away" 5 ;;
  h2h <- calculate_head_to_head o df home away d 10 ;;
  home_position <- calculate_league_position o df home d ;;
  away_position <- calculate_league_position o df away d ;;
  let home_rest := calculate_rest_days o df home d in
  let away_rest := calculate_rest_days o df away d in
  home_momentum <- calculate_momentum o df home d 3 ;;
  away_momentum <- calculate_momentum o df away d 3 ;;
  home_scoring <- calculate_scoring_patterns o df home d 10 ;;
  away_scoring <- calculate_scoring_patterns o df away d 10 ;;
  home_sos <- calculate_strength_of_schedule o df home d 5 ;;
  away_sos <- calculate_strength_of_schedule o df away d 5 ;;
  ret {| Features.match_id := get (has_match_id cols) (match_id match_) (Some idx);
         Features.date := d;
         Features.season := season match_;
         Features.matchday := get (has_matchday cols) (matchday match_) (Some 1);
         Features.home_team := home;
         Features.away_team := away;
         Features.result := result match_;
         Features.home_goals := home_goals match_;
         Features.away_goals := away_goals match_;
         Features.goal_difference := home_goals match_ - away_goals match_;
         Features.total_goals := home_goals match_ + away_goals match_;
         Features.home_form := home_form;
         Features.away_form := away_form;
         Features.home_home := home_home_form;
         Features.away_away := away_away_form;
         Features.h2h := h2h;
         Features.home_league := home_position;
         Features.away_league := away_position;
         Features.home_rest_days := home_rest;
         Features.away_rest_days := away_rest;
         Features.rest_difference := home_rest - away_rest;
         Features.home_momentum := momentum_numeric home_momentum;
         Features.away_momentum := momentum_numeric away_momentum;
         Features.home_scoring := home_scoring;
         Features.away_scoring := away_scoring;
         Features.home_sos := home_sos;
         Features.away_sos := away_sos;
         Features.position_difference :=
           League.position home_position - League.position away_position;
         Features.points_difference :=
           League.points home_position - League.points away_position;
         Features.form_points_difference :=
           Form.points home_form - Form.points away_form;
         Features.form_goal_diff_difference :=
           Form.goal_difference home_form - Form.goal_difference away_form;
         Features.momentum_difference :=
           Momentum.momentum_score home_momentum - Momentum.momentum_score away_momentum;
         Features.home_advantage := 1;
         Features.month := month d;
         Features.day_of_week := weekday d;
         Features.is_weekend := if weekday d >=? 5 then 1 else 0 |}.

(** What the loop of [build_advanced_features] appends for one row: nothing
    for the first 20 rows and for a row whose computation raised. *)
Definition emit (o : Runtime) (cols : Columns) (df : DataFrame) (row : Z * Match)
    : list Features.t :=
  let '(idx, match_) := row in
  if idx <? 20 then []
  else match features o cols df idx match_ with
       | Some f => [f]
       | None => []
       end.

Definition build_advanced_features (o : Runtime) (cols : Columns) (df : DataFrame)
    : list Features.t :=
  flat_map (emit o cols df) (iterrows df).

End FeatureBuilder.

(** ** [LaLigaDatasetBuilder] *)

Module DatasetBuilder.

Module Form.
Record t := {
  points : Z;
  goals_scored : Z;
  goals_conceded : Z;
  goal_difference : Z;
  wins : Z;
  draws : Z;
  losses : Z;
  matches_played : Z
}.
End Form.

Module VenueForm.
Record t := {
  points : Z;
  goals_scored : Z;
  goals_conceded : Z;
  matches_played : Z
}.
End VenueForm.

Module H2H.
Record t := {
  team1_wins : Z;
  team2_wins : Z;
  draws : Z;
  team1_goals : Z;
  team2_goals : Z;
  matches_played : Z
}.
End H2H.

Module League.
Record t := {
  position : Z;
  points : Z;
  goal_difference : Z
}.
End League.

Definition calculate_team_form (o : Runtime) (df : DataFrame) (team : string)
    (d : Timestamp) (n : Z) : Form.t :=
  let team_matches := last_matches o df team d n in
  let a := fold_left (form_row team) team_matches tally0 in
  {| Form.points := t_points a;
     Form.goals_scored := t_goals_scored a;
     Form.goals_conceded := t_goals_conceded a;
     Form.goal_difference := t_goals_scored a - t_goals_conceded a;
     Form.wins := t_wins a;
     Form.draws := t_draws a;
     Form.losses := t_losses a;
     Form.matches_played := Z.of_nat (length team_matches) |}.

(** The loop of this variant keeps no count of wins, draws and losses;
    the counters of [venue_row] it has are the ones returned. *)
Definition calculate_home_away_form (o : Runtime) (df : DataFrame) (team : string)
    (d : Timestamp) (venue : string) (n : Z) : VenueForm.t :=
  let team_matches := venue_matches o df team d venue n in
  let a := fold_left (venue_row venue) team_matches tally0 in
  {| VenueForm.points := t_points a;
     VenueForm.goals_scored := t_goals_scored a;
     VenueForm.goals_conceded := t_goals_conceded a;
     VenueForm.matches_played := Z.of_nat (length team_matches) |}.

Definition calculate_head_to_head (o : Runtime) (df : DataFrame)
    (team1 team2 : string) (d : Timestamp) (n : Z) : H2H.t :=
  let matches := h2h_matches o df team1 team2 d n in
  let a := fold_left (h2h_row team1) matches h2h0 in
  {| H2H.team1_wins := h_team1_wins a;
     H2H.team2_wins := h_team2_wins a;
     H2H.draws := h_draws a;
     H2H.team1_goals := h_team1_goals a;
     H2H.team2_goals := h_team2_goals a;
     H2H.matches_played := Z.of_nat (length matches) |}.

(** The second conjunct of the mask of [calculate_league_position].  With a
    row dated at or before [d] in the frame it compares the season of a row
    with the season of the last such row; without one it is the integer
    2014, and the bitwise and of a boolean with 2014 is 0. *)
Definition season_mask (df : DataFrame) (d : Timestamp) (m : Match) : bool :=
  match filter (fun r => date r <=? d) df with
  | [] => negb (Z.land (Z.b2z (date m <? d)) 2014 =? 0)
  | r :: upto => (date m <? d) && (season m =? season (last upto r))
  end.

Definition season_matches (df : DataFrame) (d : Timestamp) : list Match :=
  filter (season_mask df d) df.

Definition table_entry (o : Runtime) (df : DataFrame) (d : Timestamp)
    (team_name : string) : Entry.t :=
  let team_stats := calculate_team_form o df team_name d 100 in
  {| Entry.team := team_name;
     Entry.points := Form.points team_stats;
     Entry.goal_difference := Form.goal_difference team_stats;
     Entry.goals_scored := Form.goals_scored team_stats;
     Entry.matches_played := Form.matches_played team_stats |}.

(** The sorted league table of [calculate_league_position]; its entries
    have no [matches_played] key in this variant, the field is not read. *)
Definition league_table (o : Runtime) (df : DataFrame) (d : Timestamp) : list Entry.t :=
  sort_table (map (table_entry o df d) (teams_of o (season_matches df d))).

Definition unranked : League.t :=
  {| League.position := 20; League.points := 0; League.goal_difference := 0 |}.

Definition calculate_league_position (o : Runtime) (df : DataFrame)
    (team : string) (d : Timestamp) : League.t :=
  match find_team team 0 (league_table o df d) with
  | Some (i, team_data) =>
      {| League.position := i + 1;
         League.points := Entry.points team_data;
         League.goal_difference := Entry.goal_difference team_data |}
  | None => unranked
  end.

Definition calculate_rest_days (o : Runtime) (df : DataFrame) (team : string)
    (d : Timestamp) : Z :=
  match last_matches o df team d 1 with
  | last_match :: _ => days (d - date last_match)
  | [] => 0
  end.

Module Features.
Record t := {
  match_id : option Z;
  date : Timestamp;
  season : Z;
  matchday : option Z;
  home_team : string;
  away_team : string;
  result : string;
  home_goals : Z;
  away_goals : Z;
  home_form : Form.t;
  away_form : Form.t;
  home_home_form : Z * Z * Z;
  away_away_form : Z * Z * Z;
  home_position : Z;
  away_position : Z;
  home_points : Z;
  away_points : Z;
  position_difference : Z;
  points_difference : Z;
  h2h_home_wins : Z;
  h2h_away_wins : Z;
  h2h_draws : Z;
  h2h_home_goals : Z;
  h2h_away_goals : Z;
  home_rest_days : Z;
  away_rest_days : Z;
  rest_difference : Z;
  form_points_difference : Z;
  form_goal_diff_difference : Z;
  home_advantage : Z
}.
End Features.

(** Points, goals scored and goals conceded of a venue form. *)
Definition venue_numeric (f : VenueForm.t) : Z * Z * Z :=
  (VenueForm.points f, VenueForm.goals_scored f, VenueForm.goals_conceded f).

(** The body of the [try] of [build_features]; reading [match_id] or
    [matchday] from a frame without that column raises, a missing value in
    the cell does not. *)
Definition features (o : Runtime) (cols : Columns) (df : DataFrame) (match_ : Match)
    : option Features.t :=
  let d := date match_ in
  let home := home_team match_ in
  let away := away_team match_ in
  let home_form := calculate_team_form o df home d 5 in
  let away_form := calculate_team_form o df away d 5 in
  let home_home_form := calculate_home_away_form o df home d "home" 5 in
  let away_away_form := calculate_home_away_form o df away d "away" 5 in
  let h2h := calculate_head_to_head o df home away d 10 in
  let home_position := calculate_league_position o df home d in
  let away_position := calculate_league_position o df away d in
  let home_rest := calculate_rest_days o df home d in
  let away_rest := calculate_rest_days o df away d in
  id <- getitem (has_match_id cols) (match_id match_) ;;
  md <- getitem (has_matchday cols) (matchday match_) ;;
  ret {| Features.match_id := id;
         Features.date := d;
         Features.season := season match_;
         Features.matchday := md;
         Features.home_team := home;
         Features.away_team := away;
         Features.result := result match_;
         Features.home_goals := home_goals match_;
         Features.away_goals := away_goals match_;
         Features.home_form := home_form;
         Features.away_form := away_form;
         Features.home_home_form := venue_numeric home_home_form;
         Features.away_away_form := venue_numeric away_away_form;
         Features.home_position := League.position home_position;
         Features.away_position := League.position away_position;
         Features.home_points := League.points home_position;
         Features.away_points := League.points away_position;
         Features.position_difference :=
           League.position home_position - League.position away_position;
         Features.points_difference :=
           League.points home_position - League.points away_position;
         Features.h2h_home_wins := H2H.team1_wins h2h;
         Features.h2h_away_wins := H2H.team2_wins h2h;
         Features.h2h_draws := H2H.draws h2h;
         Features.h2h_home_goals := H2H.team1_goals h2h;
         Features.h2h_away_goals := H2H.team2_goals h2h;
         Features.home_rest_days := home_rest;
         Features.away_rest_days := away_rest;
         Features.rest_difference := home_rest - away_rest;
         Features.form_points_difference :=
           Form.points home_form - Form.points away_form;
         Features.form_goal_diff_difference :=
           Form.goal_difference home_form - Form.goal_difference away_form;
         Features.home_advantage := 1 |}.

(** What the loop of [build_features] appends for one row: nothing for the
    first 50 rows and for a row whose computation raised. *)
Definition emit (o : Runtime) (cols : Columns) (df : DataFrame) (row : Z * Match)
    : list Features.t :=
  let '(idx, match_) := row in
  if idx <? 50 then []
  else match features o cols df match_ with
       | Some f => [f]
       | None => []
       end.

Definition build_features (o : Runtime) (cols : Columns) (df : DataFrame)
    : list Features.t :=
  flat_map (emit o cols df) (iterrows df).

End DatasetBuilder.

(** ** [EfficientDataStorage]: the table of matches *)

Module Storage.

Record MatchData := {
  season : Z;
  matchday : Z;
  date : string;
  home_team : string;
  away_team : string;
  home_goals : Z;
  away_goals : Z;
  result : string;
  url_source : string;
  scraped_at : string
}.

(** [__post_init__]: [None] is the [ValueError]. *)
Definition post_init (m : MatchData) : option MatchData :=
  if (home_goals m <? 0) || (away_goals m <? 0) then None
  else if String.eqb (result m) "H" || String.eqb (result m) "D"
          || String.eqb (result m) "A" then Some m
  else None.

(** A row of the table [matches]. *)
Record Row := {
  id : Z;
  data : MatchData
}.

(** The table with the counter behind [AUTOINCREMENT]: the largest [id]
    ever given. *)
Record Table := {
  rows : list Row;
  sequence : Z
}.

(** [UNIQUE(season, matchday, home_team, away_team)] *)
Definition same_key (a b : MatchData) : bool :=
  (season a =? season b) && (matchday a =? matchday b)
  && String.eqb (home_team a) (home_team b)
  && String.eqb (away_team a) (away_team b).

(** [INSERT OR REPLACE INTO matches (...) VALUES (...)]: the rows that
    conflict with the new one on the unique key are deleted, then the new
    row is stored under a fresh [id]. *)
Definition insert_or_replace (t : Table) (m : MatchData) : Table :=
  {| rows := filter (fun r => negb (same_key (data r) m)) (rows t)
             ++ [{| id := sequence t + 1; data := m |}];
     sequence := sequence t + 1 |}.

(** The part of the metadata [update_metadata] maintains from a match;
    its time stamp [last_update] is read from the wall clock and left out. *)
Record Metadata := {
  seasons : list Z;
  teams : list string
}.

Fixpoint insert_season (s : Z) (l : list Z) : list Z :=
  match l with
  | [] => [s]
  | x :: l' => if s <=? x then s :: l else x :: insert_season s l'
  end.

(** [list.sort()] on the seasons. *)
Definition sort_seasons (l : list Z) : list Z := fold_right insert_season [] l.

Definition add_team (team : string) (l : list string) : list string :=
  if existsb (String.eqb team) l then l else l ++ [team].

Definition update_metadata (md : Metadata) (m : MatchData) : Metadata :=
  let seasons' :=
    if existsb (Z.eqb (season m)) (seasons md) then seasons md
    else sort_seasons (seasons md ++ [season m]) in
  {| seasons := seasons';
     teams := add_team (away_team m) (add_team (home_team m) (teams md)) |}.

Record State := {
  matches : Table;
  metadata : Metadata
}.

(** A fresh storage: [init_database] and the default of [load_metadata]. *)
Definition empty : State :=
  {| matches := {| rows := []; sequence := 0 |};
     metadata := {| seasons := []; teams := [] |} |}.

(** The integers SQLite stores are signed and 64 bits wide; binding a
    Python integer outside of them raises [OverflowError]. *)
Definition int64_bound : Z := 9223372036854775808.

Definition sqlite_integer (z : Z) : bool :=
  (- int64_bound <=? z) && (z <? int64_bound).

(** The parameters of the [INSERT] can be bound: the four integer fields
    fit.  The six texts always can. *)
Definition bindable (m : MatchData) : bool :=
  sqlite_integer (season m) && sqlite_integer (matchday m)
  && sqlite_integer (home_goals m) && sqlite_integer (away_goals m).

(** The state after the [INSERT], [commit] and [update_metadata] of one
    match. *)
Definition store (st : State) (m : MatchData) : State :=
  {| matches := insert_or_replace (matches st) m;
     metadata := update_metadata (metadata st) m |}.

(** [add_match]: the new state and the returned flag.  The statement cannot
    violate a constraint of the table; when a parameter cannot be bound
    [execute] raises, nothing is written, the metadata are not updated and
    the [except] branch answers [False]. *)
Definition add_match (st : State) (m : MatchData) : State * bool :=
  if bindable m then (store st m, true) else (st, false).

(** [add_matches_batch]: the new state and [cursor.rowcount], one per
    executed statement.  When a parameter of one match cannot be bound
    [executemany] raises: the connection rolls the whole batch back,
    [successful_adds] is still 0 and the metadata are not updated. *)
Definition add_matches_batch (st : State) (ms : list MatchData) : State * Z :=
  if forallb bindable ms
  then ({| matches := fold_left insert_or_replace ms (matches st);
           metadata := fold_left update_metadata ms (metadata st) |},
        Z.of_nat (length ms))
  else (st, 0).

(** [SELECT COUNT( * ) FROM matches] *)
Definition total_matches (st : State) : Z := Z.of_nat (length (rows (matches st))).

(** The latest stored date of a season is later than [d]: the text of an
    ISO date orders as the date does. *)
Definition precedes_stored (st : State) (m : MatchData) : Prop :=
  exists r, In r (rows (matches st))
            /\ season (data r) = season m
            /\ String.ltb (date m) (date (data r)) = true.

(** The columns of the unique constraint. *)
Definition key (m : MatchData) : Z * Z * string * string :=
  (season m, matchday m, home_team m, away_team m).

(** The unique constraint holds in a table. *)
Definition unique_keys (t : Table) : Prop :=
  NoDup (map (fun r => key (data r)) (rows t)).

(** The rows an insertion keeps. *)
Definition kept (m : MatchData) (l : list Row) : list Row :=
  filter (fun r => negb (same_key (data r) m)) l.

(** ** Further operations of the storage *)

(** [MAX(id)] of the group of [r] under
    [GROUP BY season, matchday, home_team, away_team]; [r] is in its group. *)
Definition group_max (l : list Row) (r : Row) : Z :=
  fold_left Z.max (map id (filter (fun r' => same_key (data r') (data r)) l)) (id r).

(** [clean_duplicates]: the rows whose [id] is not the largest [id] of some
    group are deleted; the answer is the number of deleted rows. *)
Definition clean_duplicates (st : State) : State * Z :=
  let l := rows (matches st) in
  let remaining := filter (fun r => existsb (fun r' => id r =? group_max l r') l) l in
  ({| matches := {| rows := remaining; sequence := sequence (matches st) |};
      metadata := metadata st |},
   Z.of_nat (length l - length remaining)).

(** The seasons of a list of rows, each once. *)
Fixpoint distinct_seasons (l : list Row) : list Z :=
  match l with
  | [] => []
  | r :: l' =>
      season (data r)
        :: filter (fun s => negb (s =? season (data r))) (distinct_seasons l')
  end.

(** [SELECT season, COUNT( * ) FROM matches GROUP BY season ORDER BY season],
    the entry [matches_per_season] of [get_statistics]. *)
Definition matches_per_season (st : State) : list (Z * Z) :=
  map (fun s => (s, Z.of_nat (length (filter (fun r => season (data r) =? s)
                                             (rows (matches st))))))
      (sort_seasons (distinct_seasons (rows (matches st)))).

(** [SELECT COUNT(DISTINCT home_team) FROM matches], the entry
    [unique_teams] of [get_statistics]. *)
Fixpoint distinct_strings (l : list string) : list string :=
  match l with
  | [] => []
  | x :: l' => x :: filter (fun y => negb (String.eqb y x)) (distinct_strings l')
  end.

Definition unique_teams (st : State) : Z :=
  Z.of_nat (length (distinct_strings (map home_team (map data (rows (matches st)))))).

(** [COUNT( * )] of the group of season [s]. *)
Definition season_count (l : list Row) (s : Z) : Z :=
  Z.of_nat (length (filter (fun r => season (data r) =? s) l)).

(** The states that [add_match] builds from a fresh storage. *)
Inductive reachable : State -> Prop :=
| reachable_empty : reachable empty
| reachable_add st m : reachable st -> reachable (fst (add_match st m)).

(** What the storage keeps true: the unique constraint; positive ids that
    grow along the rows and never pass the counter; seasons in strictly ascending
    order and teams listed once; the seasons of the metadata are those of
    the rows, and the teams of the rows are in the metadata. *)
Record invariant (st : State) : Prop := {
  inv_keys : unique_keys (matches st);
  inv_ids : StronglySorted Z.lt (map id (rows (matches st)));
  inv_counter : 0 <= sequence (matches st);
  inv_sequence : Forall (fun r => 0 < id r <= sequence (matches st)) (rows (matches st));
  inv_seasons : StronglySorted Z.lt (seasons (metadata st));
  inv_teams : NoDup (teams (metadata st));
  inv_rows : forall r, In r (rows (matches st)) ->
               In (season (data r)) (seasons (metadata st))
               /\ In (home_team (data r)) (teams (metadata st))
               /\ In (away_team (data r)) (teams (metadata st));
  inv_season_used : forall s, In s (seasons (metadata st)) ->
               exists r, In r (rows (matches st)) /\ season (data r) = s
}.

(** ** Sample matches *)

Definition clasico : MatchData :=
  {| season := 2023; matchday := 2; date := "2023-08-19";
     home_team := "Real Madrid"; away_team := "Barcelona";
     home_goals := 2; away_goals := 1; result := "H";
     url_source := "https://example.com"; scraped_at := "2023-08-20T10:00:00" |}.

Definition opening_day : MatchData :=
  {| season := 2023; matchday := 1; date := "2023-08-12";
     home_team := "Atletico Madrid"; away_team := "Valencia";
     home_goals := 1; away_goals := 1; result := "D";
     url_source := "https://example.com"; scraped_at := "2023-08-20T10:00:01" |}.

(** The stored match again, filed under another matchday. *)
Definition clasico_again : MatchData :=
  {| season := 2023; matchday := 3; date := "2023-08-19";
     home_team := "Real Madrid"; away_team := "Barcelona";
     home_goals := 2; away_goals := 1; result := "H";
     url_source := "https://example.com"; scraped_at := "2023-08-20T10:00:00" |}.

(** A match that passes [__post_init__] with a goal count SQLite cannot
    store. *)
Definition unstorable : MatchData :=
  {| season := 2023; matchday := 4; date := "2023-09-02";
     home_team := "Sevilla"; away_team := "Girona";
     home_goals := 9223372036854775808; away_goals := 0; result := "H";
     url_source := "https://example.com"; scraped_at := "2023-09-03T10:00:00" |}.

End Storage.

(** ** A stable sort by date *)

(** A sort by decreasing date that keeps equal dates in frame order, as a
    stable sorting kind does. *)
Fixpoint insert_date (x : Match) (l : list Match) : list Match :=
  match l with
  | [] => [x]
  | y :: l' => if date x <? date y then y :: insert_date x l' else x :: y :: l'
  end.

Definition sort_dates (l : list Match) : list Match := fold_right insert_date [] l.

(** ** Predicates of the properties and sample ledgers *)

(** The ledger of the scenario: A beat B 3-1 at home on 2020-08-15 and drew
    0-0 at C on 2020-08-22, both in season 2020; the columns the scenario
    leaves open are arguments. *)
Definition scenario_ledger (id1 md1 : option Z) (res1 : string)
    (id2 md2 : option Z) (res2 : string) : DataFrame :=
  [ {| match_id := id1; date := midnight 2020 8 15; season := 2020; matchday := md1;
       home_team := "A"; away_team := "B"; home_goals := 3; away_goals := 1;
       result := res1 |};
    {| match_id := id2; date := midnight 2020 8 22; season := 2020; matchday := md2;
       home_team := "C"; away_team := "A"; home_goals := 0; away_goals := 0;
       result := res2 |} ].

Definition two_match_ledger : DataFrame :=
  scenario_ledger None None "H" None None "D".

(** No row of the frame is a match of [team] dated before [d]. *)
Definition no_history (df : DataFrame) (team : string) (d : Timestamp) : Prop :=
  forall m, In m df -> plays team m = true -> ~ date m < d.

(** The same counters seen from the other team. *)
Definition mirror (a : H2HTally) : H2HTally :=
  {| h_team1_wins := h_team2_wins a;
     h_team2_wins := h_team1_wins a;
     h_draws := h_draws a;
     h_team1_goals := h_team2_goals a;
     h_team2_goals := h_team1_goals a |}.

(** A row of the meetings of [a] and [b], with two different sides. *)
Definition meeting (a b : string) (m : Match) : Prop :=
  home_team m <> away_team m
  /\ ((home_team m = a /\ away_team m = b) \/ (home_team m = b /\ away_team m = a)).

Definition home_and_away_ledger : DataFrame :=
  [ {| match_id := None; date := midnight 2020 8 15; season := 2020; matchday := None;
       home_team := "A"; away_team := "B"; home_goals := 3; away_goals := 1;
       result := "H" |};
    {| match_id := None; date := midnight 2021 1 10; season := 2020; matchday := None;
       home_team := "B"; away_team := "A"; home_goals := 2; away_goals := 2;
       result := "D" |} ].

(** [m] is a most recent match of [team] before [d] in the frame. *)
Definition most_recent (df : DataFrame) (team : string) (d : Timestamp) (m : Match) : Prop :=
  In m df /\ plays team m = true /\ date m < d
  /\ forall m', In m' df -> plays team m' = true -> date m' < d -> date m' <= date m.

(** The entry has key [k]. *)
Definition has_key (k : Z * Z * Z) (e : Entry.t) : bool := key_eqb (Entry.key e) k.

(** Not smaller: the order of a table sorted by decreasing key. *)
Definition key_ge (e1 e2 : Entry.t) : Prop := key_ltb (Entry.key e1) (Entry.key e2) = false.

(** One drawn match: A and B are level on points, goal difference and goals
    scored a week later. *)
Definition tie_ledger : DataFrame :=
  [ {| match_id := None; date := midnight 2020 8 15; season := 2020; matchday := None;
       home_team := "A"; away_team := "B"; home_goals := 1; away_goals := 1;
       result := "D" |} ].

(** The team plays in none of the rows. *)
Definition absent (rows : list Match) (team : string) : Prop :=
  forall m, In m rows -> plays team m = false.

(** The season the dataset builder gives to the date: the one of the last
    row dated at or before it. *)
Definition season_at (df : DataFrame) (d' : Timestamp) : option Z :=
  match filter (fun r => date r <=? d') df with
  | [] => None
  | r :: upto => Some (season (last upto r))
  end.

(** Fifty home wins of A over B on consecutive days from 2020-08-01, season
    2020. *)
Definition filler (i : nat) : Match :=
  {| match_id := Some (Z.of_nat i);
     date := midnight 2020 8 1 + Z.of_nat i * ns_per_day;
     season := 2020; matchday := Some 1;
     home_team := "A"; away_team := "B"; home_goals := 1; away_goals := 0;
     result := "HomeWin" |}.

(** The match under study, on 2020-10-01, season 2020. *)
Definition leak_match : Match :=
  {| match_id := Some 50; date := midnight 2020 10 1; season := 2020;
     matchday := Some 8;
     home_team := "A"; away_team := "B"; home_goals := 2; away_goals := 2;
     result := "Draw" |}.

(** A match of the same day, filed under season 2021. *)
Definition injected : Match :=
  {| match_id := Some 51; date := midnight 2020 10 1; season := 2021;
     matchday := Some 1;
     home_team := "C"; away_team := "D"; home_goals := 0; away_goals := 0;
     result := "Draw" |}.

Definition leak_frame : DataFrame := map filler (seq 0 50) ++ [leak_match].

(** A frame with the two columns, and one with neither. *)
Definition both_columns : Columns := {| has_match_id := true; has_matchday := true |}.

Definition no_id_columns : Columns := {| has_match_id := false; has_matchday := false |}.

(** The row as a frame without the two columns holds it. *)
Definition bare (m : Match) : Match :=
  {| match_id := None; date := date m; season := season m; matchday := None;
     home_team := home_team m; away_team := away_team m;
     home_goals := home_goals m; away_goals := away_goals m; result := result m |}.

(** A match of the day and the season of [leak_match]. *)
Definition same_day : Match :=
  {| match_id := Some 19; date := midnight 2020 10 1; season := 2020;
     matchday := Some 8;
     home_team := "C"; away_team := "D"; home_goals := 1; away_goals := 0;
     result := "HomeWin" |}.

(** Nineteen matches before [leak_match], then [leak_match]; the same with
    [same_day] put in front of [leak_match]. *)
Definition short_frame : DataFrame := map filler (seq 0 19) ++ [leak_match].

Definition shifted_frame : DataFrame := map filler (seq 0 19) ++ [same_day; leak_match].

(** Twenty matches before [leak_match], without the two columns; the same
    with [same_day] put in front of [leak_match]. *)
Definition plain_frame : DataFrame := map bare (map filler (seq 0 20) ++ [leak_match]).

Definition plain_shifted_frame : DataFrame :=
  map bare (map filler (seq 0 20) ++ [same_day; leak_match]).

(** The features the feature builder derives from the frame: its record
    without the [match_id]. *)
Definition derived (f : FeatureBuilder.Features.t) : FeatureBuilder.Features.t :=
  {| FeatureBuilder.Features.match_id := None;
     FeatureBuilder.Features.date := FeatureBuilder.Features.date f;
     FeatureBuilder.Features.season := FeatureBuilder.Features.season f;
     FeatureBuilder.Features.matchday := FeatureBuilder.Features.matchday f;
     FeatureBuilder.Features.home_team := FeatureBuilder.Features.home_team f;
     FeatureBuilder.Features.away_team := FeatureBuilder.Features.away_team f;
     FeatureBuilder.Features.result := FeatureBuilder.Features.result f;
     FeatureBuilder.Features.home_goals := FeatureBuilder.Features.home_goals f;
     FeatureBuilder.Features.away_goals := FeatureBuilder.Features.away_goals f;
     FeatureBuilder.Features.goal_difference := FeatureBuilder.Features.goal_difference f;
     FeatureBuilder.Features.total_goals := FeatureBuilder.Features.total_goals f;
     FeatureBuilder.Features.home_form := FeatureBuilder.Features.home_form f;
     FeatureBuilder.Features.away_form := FeatureBuilder.Features.away_form f;
     FeatureBuilder.Features.home_home := FeatureBuilder.Features.home_home f;
     FeatureBuilder.Features.away_away := FeatureBuilder.Features.away_away f;
     FeatureBuilder.Features.h2h := FeatureBuilder.Features.h2h f;
     FeatureBuilder.Features.home_league := FeatureBuilder.Features.home_league f;
     FeatureBuilder.Features.away_league := FeatureBuilder.Features.away_league f;
     FeatureBuilder.Features.home_rest_days := FeatureBuilder.Features.home_rest_days f;
     FeatureBuilder.Features.away_rest_days := FeatureBuilder.Features.away_rest_days f;
     FeatureBuilder.Features.rest_difference := FeatureBuilder.Features.rest_difference f;
     FeatureBuilder.Features.home_momentum := FeatureBuilder.Features.home_momentum f;
     FeatureBuilder.Features.away_momentum := FeatureBuilder.Features.away_momentum f;
     FeatureBuilder.Features.home_scoring := FeatureBuilder.Features.home_scoring f;
     FeatureBuilder.Features.away_scoring := FeatureBuilder.Features.away_scoring f;
     FeatureBuilder.Features.home_sos := FeatureBuilder.Features.home_sos f;
     FeatureBuilder.Features.away_sos := FeatureBuilder.Features.away_sos f;
     FeatureBuilder.Features.position_difference := FeatureBuilder.Features.position_difference f;
     FeatureBuilder.Features.points_difference := FeatureBuilder.Features.points_difference f;
     FeatureBuilder.Features.form_points_difference := FeatureBuilder.Features.form_points_difference f;
     FeatureBuilder.Features.form_goal_diff_difference := FeatureBuilder.Features.form_goal_diff_difference f;
     FeatureBuilder.Features.momentum_difference := FeatureBuilder.Features.momentum_difference f;
     FeatureBuilder.Features.home_advantage := FeatureBuilder.Features.home_advantage f;
     FeatureBuilder.Features.month := FeatureBuilder.Features.month f;
     FeatureBuilder.Features.day_of_week := FeatureBuilder.Features.day_of_week f;
     FeatureBuilder.Features.is_weekend := FeatureBuilder.Features.is_weekend f |}.

(** The record of the dataset builder apart from the standings: positions,
    points and their differences. *)
Definition apart_from_standings (f : DatasetBuilder.Features.t)
    : DatasetBuilder.Features.t :=
  {| DatasetBuilder.Features.match_id := DatasetBuilder.Features.match_id f;
     DatasetBuilder.Features.date := DatasetBuilder.Features.date f;
     DatasetBuilder.Features.season := DatasetBuilder.Features.season f;
     DatasetBuilder.Features.matchday := DatasetBuilder.Features.matchday f;
     DatasetBuilder.Features.home_team := DatasetBuilder.Features.home_team f;
     DatasetBuilder.Features.away_team := DatasetBuilder.Features.away_team f;
     DatasetBuilder.Features.result := DatasetBuilder.Features.result f;
     DatasetBuilder.Features.home_goals := DatasetBuilder.Features.home_goals f;
     DatasetBuilder.Features.away_goals := DatasetBuilder.Features.away_goals f;
     DatasetBuilder.Features.home_form := DatasetBuilder.Features.home_form f;
     DatasetBuilder.Features.away_form := DatasetBuilder.Features.away_form f;
     DatasetBuilder.Features.home_home_form := DatasetBuilder.Features.home_home_form f;
     DatasetBuilder.Features.away_away_form := DatasetBuilder.Features.away_away_form f;
     DatasetBuilder.Features.home_position := 0;
     DatasetBuilder.Features.away_position := 0;
     DatasetBuilder.Features.home_points := 0;
     DatasetBuilder.Features.away_points := 0;
     DatasetBuilder.Features.position_difference := 0;
     DatasetBuilder.Features.points_difference := 0;
     DatasetBuilder.Features.h2h_home_wins := DatasetBuilder.Features.h2h_home_wins f;
     DatasetBuilder.Features.h2h_away_wins := DatasetBuilder.Features.h2h_away_wins f;
     DatasetBuilder.Features.h2h_draws := DatasetBuilder.Features.h2h_draws f;
     DatasetBuilder.Features.h2h_home_goals := DatasetBuilder.Features.h2h_home_goals f;
     DatasetBuilder.Features.h2h_away_goals := DatasetBuilder.Features.h2h_away_goals f;
     DatasetBuilder.Features.home_rest_days := DatasetBuilder.Features.home_rest_days f;
     DatasetBuilder.Features.away_rest_days := DatasetBuilder.Features.away_rest_days f;
     DatasetBuilder.Features.rest_difference := DatasetBuilder.Features.rest_difference f;
     DatasetBuilder.Features.form_points_difference := DatasetBuilder.Features.form_points_difference f;
     DatasetBuilder.Features.form_goal_diff_difference := DatasetBuilder.Features.form_goal_diff_difference f;
     DatasetBuilder.Features.home_advantage := DatasetBuilder.Features.home_advantage f |}.


(** ** Emitted rows *)

(** The columns of a match that an emitted record carries over unchanged. *)
Definition row_identity (m : Match)
    : Timestamp * Z * string * string * Z * Z * string :=
  (date m, season m, home_team m, away_team m, home_goals m, away_goals m, result m).

Definition feature_identity (f : FeatureBuilder.Features.t)
    : Timestamp * Z * string * string * Z * Z * string :=
  (FeatureBuilder.Features.date f, FeatureBuilder.Features.season f,
   FeatureBuilder.Features.home_team f, FeatureBuilder.Features.away_team f,
   FeatureBuilder.Features.home_goals f, FeatureBuilder.Features.away_goals f,
   FeatureBuilder.Features.result f).

Definition dataset_identity (f : DatasetBuilder.Features.t)
    : Timestamp * Z * string * string * Z * Z * string :=
  (DatasetBuilder.Features.date f, DatasetBuilder.Features.season f,
   DatasetBuilder.Features.home_team f, DatasetBuilder.Features.away_team f,
   DatasetBuilder.Features.home_goals f, DatasetBuilder.Features.away_goals f,
   DatasetBuilder.Features.result f).

(** What a record of the dataset builder carries over from its row: the
    columns of [row_identity] and the two cells. *)
Definition dataset_row (f : DatasetBuilder.Features.t)
    : Timestamp * Z * string * string * Z * Z * string * option Z * option Z :=
  (dataset_identity f, DatasetBuilder.Features.match_id f,
   DatasetBuilder.Features.matchday f).

(** A match of 2020-10-02 whose [match_id] and [matchday] cells are
    empty. *)
Definition unnumbered : Match :=
  {| match_id := None; date := midnight 2020 10 2; season := 2020; matchday := None;
     home_team := "B"; away_team := "A"; home_goals := 0; away_goals := 3;
     result := "AwayWin" |}.

(** The sum of a list of integers, as [np.mean] takes it. *)
Definition sum_list (l : list Z) : Z := fold_left Z.add l 0.

(** One match won by A over B. *)
Definition derby_ledger : DataFrame :=
  [ {| match_id := None; date := midnight 2020 8 15; season := 2020; matchday := None;
       home_team := "A"; away_team := "B"; home_goals := 2; away_goals := 0;
       result := "H" |} ].

(** Arithmetic stays folded under [simpl] and [cbn]. *)
#[local] Arguments Z.mul : simpl never.
#[local] Arguments Z.add : simpl never.
#[local] Arguments Z.sub : simpl never.
#[local] Arguments Z.max : simpl never.
#[local] Arguments Z.of_nat : simpl never.

(** ** Calendar *)

Example calendar_epoch :
  days_from_civil 1970 1 1 = 0 /\ civil_from_days 0 = (1970, 1, 1)
  /\ civil_from_days (-1) = (1969, 12, 31) /\ weekday (midnight 1970 1 1) = 3.
Proof. repeat split. Qed.

Example calendar_leap_day :
  days_from_civil 2000 2 29 = 11016 /\ civil_from_days 11016 = (2000, 2, 29)
  /\ civil_from_days 11017 = (2000, 3, 1).
Proof. repeat split. Qed.

Example calendar_2020_08_15 :
  days_from_civil 2020 8 15 = 18489
  /\ civil_from_days 18489 = (2020, 8, 15)
  /\ weekday (midnight 2020 8 15) = 5.
Proof. repeat split. Qed.

Example season_of_a_date :
  FeatureBuilder.season_year (midnight 2020 8 15) = 2020
  /\ FeatureBuilder.season_year (midnight 2021 5 23) = 2020
  /\ days (midnight 2020 8 29 + 20 * 3600 * 1000000000 - midnight 2020 8 22) = 7.
Proof. repeat split. Qed.

(** ** Two runtimes *)

Lemma insert_date_perm x l : Permutation (insert_date x l) (x :: l).
Proof.
  induction l as [|y l IH]; simpl; [reflexivity|].
  destruct (date x <? date y); [|reflexivity].
  rewrite IH. apply perm_swap.
Qed.

Lemma sort_dates_perm l : Permutation (sort_dates l) l.
Proof.
  induction l as [|x l IH]; simpl; [constructor|].
  rewrite insert_date_perm. now constructor.
Qed.

Lemma insert_date_sorted x l :
  StronglySorted date_ge l -> StronglySorted date_ge (insert_date x l).
Proof.
  induction 1 as [|y l Hl IH Hy]; simpl.
  - repeat constructor.
  - destruct (date x <? date y) eqn:E.
    + constructor; [exact IH|].
      apply Forall_forall. intros z Hz.
      apply (Permutation_in _ (insert_date_perm x l)) in Hz.
      destruct Hz as [<-|Hz].
      * unfold date_ge. apply Z.ltb_lt in E. lia.
      * rewrite Forall_forall in Hy. now apply Hy.
    + apply Z.ltb_ge in E.
      constructor; [now constructor|].
      constructor; [exact E|].
      apply Forall_forall. intros z Hz.
      rewrite Forall_forall in Hy. specialize (Hy z Hz).
      unfold date_ge in *. lia.
Qed.

Lemma sort_dates_sorted l : StronglySorted date_ge (sort_dates l).
Proof.
  induction l as [|x l IH]; simpl; [constructor|].
  now apply insert_date_sorted.
Qed.

Lemma unique_In l x : In x (unique l) <-> In x l.
Proof.
  induction l as [|y l IH]; simpl; [tauto|].
  rewrite filter_In, IH, negb_true_iff, String.eqb_neq.
  destruct (string_dec y x); [subst|]; intuition congruence.
Qed.

Lemma unique_NoDup l : NoDup (unique l).
Proof.
  induction l as [|y l IH]; simpl; constructor.
  - rewrite filter_In, String.eqb_refl. simpl. intros [_ H]. discriminate.
  - now apply NoDup_filter.
Qed.

(** Stable sorting, sets iterated in order of first insertion. *)
Definition first_seen : Runtime :=
  {| sort_values_date_desc := sort_dates;
     sort_values_perm := sort_dates_perm;
     sort_values_sorted := sort_dates_sorted;
     set_iter := unique;
     set_iter_NoDup := unique_NoDup;
     set_iter_In := unique_In |}.

Lemma rev_unique_In l x : In x (rev (unique l)) <-> In x l.
Proof. rewrite <- in_rev. apply unique_In. Qed.

Lemma rev_unique_NoDup l : NoDup (rev (unique l)).
Proof. apply NoDup_rev, unique_NoDup. Qed.

(** Stable sorting, sets iterated from the last inserted name back. *)
Definition last_seen : Runtime :=
  {| sort_values_date_desc := sort_dates;
     sort_values_perm := sort_dates_perm;
     sort_values_sorted := sort_dates_sorted;
     set_iter := fun l => rev (unique l);
     set_iter_NoDup := rev_unique_NoDup;
     set_iter_In := rev_unique_In |}.

(** ** Frames, windows and the loops *)

Lemma head_length {A : Type} (n : Z) (l : list A) :
  0 <= n -> Z.of_nat (length (head n l)) <= n.
Proof.
  intros Hn. unfold head.
  destruct (0 <=? n) eqn:E; [|apply Z.leb_gt in E; lia].
  rewrite length_firstn. lia.
Qed.

Lemma head_nil {A : Type} (n : Z) : head n (@nil A) = [].
Proof. unfold head. destruct (0 <=? n); [apply firstn_nil | reflexivity]. Qed.

Lemma sort_values_nil (o : Runtime) : sort_values_date_desc o [] = [].
Proof. apply Permutation_nil. symmetry. apply sort_values_perm. Qed.

Lemma py_truediv_max (a len : Z) :
  0 <= len -> py_truediv a (Z.max len 1) = Some (inject_Z a / inject_Z (Z.max len 1))%Q.
Proof.
  intros H. unfold py_truediv.
  destruct (Z.max len 1 =? 0) eqn:E; [apply Z.eqb_eq in E; lia|reflexivity].
Qed.

(** ** The form scenario *)

Lemma scenario_tally o id1 md1 res1 id2 md2 res2 :
  let rows := last_matches o (scenario_ledger id1 md1 res1 id2 md2 res2) "A"
                (midnight 2020 8 29) 5 in
  fold_left (form_row "A") rows tally0 = Build_Tally 4 3 1 1 1 0
  /\ length rows = 2%nat.
Proof.
  cbv zeta. unfold last_matches.
  match goal with
  | |- context [sort_values_date_desc o ?l] =>
      let l' := eval vm_compute in l in
      change l with l';
      pose proof (sort_values_perm o l') as HP
  end.
  symmetry in HP. apply Permutation_length_2_inv in HP.
  destruct HP as [-> | ->]; split; reflexivity.
Qed.

(** C4. With the ledger made of A-B 3-1 on 2020-08-15 and C-A 0-0 on
    2020-08-22 (season 2020), the form of A at 2020-08-29 over a window of 5
    has 4 points, 3 goals scored, 1 goal conceded and 2 matches played, in
    both builders and whatever the runtime. *)
Theorem form_scenario o id1 md1 res1 id2 md2 res2 :
  let ledger := scenario_ledger id1 md1 res1 id2 md2 res2 in
  let d := midnight 2020 8 29 in
  (exists f, FeatureBuilder.calculate_team_form o ledger "A" d 5 = Some f
             /\ FeatureBuilder.Form.points f = 4
             /\ FeatureBuilder.Form.goals_scored f = 3
             /\ FeatureBuilder.Form.goals_conceded f = 1
             /\ FeatureBuilder.Form.matches_played f = 2)
  /\ (let f := DatasetBuilder.calculate_team_form o ledger "A" d 5 in
      DatasetBuilder.Form.points f = 4
      /\ DatasetBuilder.Form.goals_scored f = 3
      /\ DatasetBuilder.Form.goals_conceded f = 1
      /\ DatasetBuilder.Form.matches_played f = 2).
Proof.
  cbv zeta.
  destruct (scenario_tally o id1 md1 res1 id2 md2 res2) as [Ht Hl].
  cbv zeta in Ht, Hl. split.
  - unfold FeatureBuilder.calculate_team_form.
    rewrite Ht, Hl. simpl. eexists. split; [reflexivity|]. simpl. auto.
  - unfold DatasetBuilder.calculate_team_form.
    rewrite Ht, Hl. simpl. auto.
Qed.

(** ** Accounting of the loops *)

Lemma tally_side_inv a gs gc :
  let a' := tally_side a gs gc in
  t_wins a' + t_draws a' + t_losses a' = t_wins a + t_draws a + t_losses a + 1
  /\ t_points a' - 3 * t_wins a' - t_draws a' = t_points a - 3 * t_wins a - t_draws a.
Proof.
  unfold tally_side.
  destruct (gs >? gc); [|destruct (gs =? gc)];
    cbn [t_wins t_draws t_losses t_points]; lia.
Qed.

Lemma form_row_inv team a m :
  let a' := form_row team a m in
  t_wins a' + t_draws a' + t_losses a' = t_wins a + t_draws a + t_losses a + 1
  /\ t_points a' - 3 * t_wins a' - t_draws a' = t_points a - 3 * t_wins a - t_draws a.
Proof.
  unfold form_row. destruct (String.eqb (home_team m) team); apply tally_side_inv.
Qed.

Lemma form_fold_inv team l : forall a,
  let a' := fold_left (form_row team) l a in
  t_wins a' + t_draws a' + t_losses a'
    = t_wins a + t_draws a + t_losses a + Z.of_nat (length l)
  /\ t_points a' - 3 * t_wins a' - t_draws a' = t_points a - 3 * t_wins a - t_draws a.
Proof.
  induction l as [|m l IH]; intros a; cbn [fold_left length].
  - lia.
  - pose proof (IH (form_row team a m)) as H1.
    pose proof (form_row_inv team a m) as H2.
    cbv zeta in H1, H2. lia.
Qed.

Lemma h2h_side_inv a g1 g2 :
  let a' := h2h_side a g1 g2 in
  h_team1_wins a' + h_team2_wins a' + h_draws a'
    = h_team1_wins a + h_team2_wins a + h_draws a + 1.
Proof.
  unfold h2h_side.
  destruct (g1 >? g2); [|destruct (g1 =? g2)];
    cbn [h_team1_wins h_team2_wins h_draws]; lia.
Qed.

Lemma h2h_row_inv team1 a m :
  let a' := h2h_row team1 a m in
  h_team1_wins a' + h_team2_wins a' + h_draws a'
    = h_team1_wins a + h_team2_wins a + h_draws a + 1.
Proof.
  unfold h2h_row. destruct (String.eqb (home_team m) team1); apply h2h_side_inv.
Qed.

Lemma h2h_fold_inv team1 l : forall a,
  let a' := fold_left (h2h_row team1) l a in
  h_team1_wins a' + h_team2_wins a' + h_draws a'
    = h_team1_wins a + h_team2_wins a + h_draws a + Z.of_nat (length l).
Proof.
  induction l as [|m l IH]; intros a; cbn [fold_left length].
  - lia.
  - pose proof (IH (h2h_row team1 a m)) as H1.
    pose proof (h2h_row_inv team1 a m) as H2.
    cbv zeta in H1, H2. lia.
Qed.

(** [calculate_team_form] of the feature builder returns: its divisors are
    at least 1. *)
Lemma team_form_returns o df team d n :
  let rows := last_matches o df team d n in
  let a := fold_left (form_row team) rows tally0 in
  let len := Z.of_nat (length rows) in
  FeatureBuilder.calculate_team_form o df team d n =
    Some {| FeatureBuilder.Form.points := t_points a;
            FeatureBuilder.Form.goals_scored := t_goals_scored a;
            FeatureBuilder.Form.goals_conceded := t_goals_conceded a;
            FeatureBuilder.Form.goal_difference := t_goals_scored a - t_goals_conceded a;
            FeatureBuilder.Form.wins := t_wins a;
            FeatureBuilder.Form.draws := t_draws a;
            FeatureBuilder.Form.losses := t_losses a;
            FeatureBuilder.Form.matches_played := len;
            FeatureBuilder.Form.points_per_match :=
              (inject_Z (t_points a) / inject_Z (Z.max len 1))%Q;
            FeatureBuilder.Form.goals_per_match :=
              (inject_Z (t_goals_scored a) / inject_Z (Z.max len 1))%Q;
            FeatureBuilder.Form.goals_conceded_per_match :=
              (inject_Z (t_goals_conceded a) / inject_Z (Z.max len 1))%Q |}.
Proof.
  cbv zeta. unfold FeatureBuilder.calculate_team_form.
  rewrite !py_truediv_max by lia. reflexivity.
Qed.

Lemma head_to_head_returns o df team1 team2 d n :
  let rows := h2h_matches o df team1 team2 d n in
  let a := fold_left (h2h_row team1) rows h2h0 in
  let len := Z.of_nat (length rows) in
  FeatureBuilder.calculate_head_to_head o df team1 team2 d n =
    Some {| FeatureBuilder.H2H.team1_wins := h_team1_wins a;
            FeatureBuilder.H2H.team2_wins := h_team2_wins a;
            FeatureBuilder.H2H.draws := h_draws a;
            FeatureBuilder.H2H.team1_goals := h_team1_goals a;
            FeatureBuilder.H2H.team2_goals := h_team2_goals a;
            FeatureBuilder.H2H.matches_played := len;
            FeatureBuilder.H2H.team1_win_rate :=
              (inject_Z (h_team1_wins a) / inject_Z (Z.max len 1))%Q;
            FeatureBuilder.H2H.team2_win_rate :=
              (inject_Z (h_team2_wins a) / inject_Z (Z.max len 1))%Q;
            FeatureBuilder.H2H.draw_rate :=
              (inject_Z (h_draws a) / inject_Z (Z.max len 1))%Q;
            FeatureBuilder.H2H.goals_per_match :=
              (inject_Z (h_team1_goals a + h_team2_goals a) / inject_Z (Z.max len 1))%Q |}.
Proof.
  cbv zeta. unfold FeatureBuilder.calculate_head_to_head.
  rewrite !py_truediv_max by lia. reflexivity.
Qed.

(** C10. For a window [n >= 0] the form has wins + draws + losses =
    matches_played <= n and points = 3 * wins + draws, and the head-to-head
    record has team1_wins + team2_wins + draws = matches_played <= n; both
    computations return. *)
Theorem form_accounting o df team team2 d n :
  0 <= n ->
  (exists f, FeatureBuilder.calculate_team_form o df team d n = Some f
             /\ FeatureBuilder.Form.wins f + FeatureBuilder.Form.draws f
                + FeatureBuilder.Form.losses f = FeatureBuilder.Form.matches_played f
             /\ FeatureBuilder.Form.matches_played f <= n
             /\ FeatureBuilder.Form.points f
                = 3 * FeatureBuilder.Form.wins f + 1 * FeatureBuilder.Form.draws f)
  /\ (exists h, FeatureBuilder.calculate_head_to_head o df team team2 d n = Some h
                /\ FeatureBuilder.H2H.team1_wins h + FeatureBuilder.H2H.team2_wins h
                   + FeatureBuilder.H2H.draws h = FeatureBuilder.H2H.matches_played h
                /\ FeatureBuilder.H2H.matches_played h <= n).
Proof.
  intros Hn. split.
  - eexists. split; [apply team_form_returns|]. cbn.
    pose proof (form_fold_inv team (last_matches o df team d n) tally0) as H.
    cbv zeta in H. cbn in H.
    pose proof (head_length n (sort_values_date_desc o
      (filter (fun m => plays team m && (date m <? d)) df)) Hn) as Hl.
    fold (last_matches o df team d n) in Hl. lia.
  - eexists. split; [apply head_to_head_returns|]. cbn.
    pose proof (h2h_fold_inv team (h2h_matches o df team team2 d n) h2h0) as H.
    cbv zeta in H. cbn in H.
    split; [lia|]. unfold h2h_matches. now apply head_length.
Qed.

Lemma form_accounting_witness :
  0 <= 5
  /\ exists f,
       FeatureBuilder.calculate_team_form first_seen two_match_ledger "A"
         (midnight 2020 8 29) 5 = Some f
       /\ FeatureBuilder.Form.wins f + FeatureBuilder.Form.draws f
          + FeatureBuilder.Form.losses f = FeatureBuilder.Form.matches_played f
       /\ FeatureBuilder.Form.matches_played f <= 5
       /\ FeatureBuilder.Form.points f
          = 3 * FeatureBuilder.Form.wins f + 1 * FeatureBuilder.Form.draws f.
Proof.
  assert (H : 0 <= 5) by (intros E; discriminate E).
  split; [exact H|].
  exact (proj1 (form_accounting first_seen two_match_ledger "A" "B"
                  (midnight 2020 8 29) 5 H)).
Defined.

(** ** Teams without history *)

Lemma no_history_filter df team d :
  no_history df team d ->
  filter (fun m => plays team m && (date m <? d)) df = [].
Proof.
  intros H. induction df as [|m df IH]; [reflexivity|]. simpl.
  destruct (plays team m && (date m <? d)) eqn:E.
  - apply andb_true_iff in E. destruct E as [E1 E2]. apply Z.ltb_lt in E2.
    exfalso. apply (H m); [now left|assumption..].
  - apply IH. intros m' Hm'. apply H. now right.
Qed.

Lemma no_history_last_matches o df team d n :
  no_history df team d -> last_matches o df team d n = [].
Proof.
  intros H. unfold last_matches.
  now rewrite no_history_filter, sort_values_nil, head_nil.
Qed.

(** [calculate_momentum] returns: it divides by the number of rows only
    when there is one. *)
Lemma momentum_returns o df team d n :
  exists r, FeatureBuilder.calculate_momentum o df team d n = Some r.
Proof.
  unfold FeatureBuilder.calculate_momentum.
  destruct (last_matches o df team d n) as [|m l] eqn:E; [eexists; reflexivity|].
  destruct (fold_left (FeatureBuilder.momentum_row team) (m :: l) (0, 0)) as [s w].
  unfold py_truediv.
  destruct (Z.of_nat (length (m :: l)) =? 0) eqn:E0.
  - apply Z.eqb_eq in E0. simpl in E0. lia.
  - eexists. reflexivity.
Qed.

(** C9. The form computation returns for every input; for a team without
    a match before the date all its counts are 0 and all its per-match
    ratios are 0; the momentum computation returns for every input too and
    is 0 for such a team. *)
Theorem zero_history_form o df team d n :
  (exists f, FeatureBuilder.calculate_team_form o df team d n = Some f)
  /\ (exists r, FeatureBuilder.calculate_momentum o df team d n = Some r)
  /\ (no_history df team d ->
      FeatureBuilder.calculate_team_form o df team d n =
        Some {| FeatureBuilder.Form.points := 0;
                FeatureBuilder.Form.goals_scored := 0;
                FeatureBuilder.Form.goals_conceded := 0;
                FeatureBuilder.Form.goal_difference := 0;
                FeatureBuilder.Form.wins := 0;
                FeatureBuilder.Form.draws := 0;
                FeatureBuilder.Form.losses := 0;
                FeatureBuilder.Form.matches_played := 0;
                FeatureBuilder.Form.points_per_match := 0%Q;
                FeatureBuilder.Form.goals_per_match := 0%Q;
                FeatureBuilder.Form.goals_conceded_per_match := 0%Q |}
      /\ FeatureBuilder.calculate_momentum o df team d n =
           Some {| FeatureBuilder.Momentum.momentum_score := 0;
                   FeatureBuilder.Momentum.recent_wins := 0;
                   FeatureBuilder.Momentum.recent_form := "Unknown";
                   FeatureBuilder.Momentum.momentum_per_match := None |}).
Proof.
  split; [eexists; apply team_form_returns|].
  split; [apply momentum_returns|].
  intros H.
  unfold FeatureBuilder.calculate_team_form, FeatureBuilder.calculate_momentum.
  rewrite (no_history_last_matches o df team d n H).
  split; reflexivity.
Qed.

Lemma zero_history_form_witness :
  no_history two_match_ledger "D" (midnight 2020 8 29)
  /\ exists f,
       FeatureBuilder.calculate_team_form first_seen two_match_ledger "D"
         (midnight 2020 8 29) 5 = Some f
       /\ FeatureBuilder.Form.matches_played f = 0
       /\ FeatureBuilder.Form.points_per_match f = 0%Q.
Proof.
  assert (H : no_history two_match_ledger "D" (midnight 2020 8 29)).
  { intros m [<- | [<- | []]]; simpl; intros E; discriminate E. }
  split; [exact H|].
  destruct (zero_history_form first_seen two_match_ledger "D"
              (midnight 2020 8 29) 5) as [_ [_ Hz]].
  destruct (Hz H) as [Hf _].
  eexists. split; [exact Hf|]. split; reflexivity.
Defined.

(** ** Head-to-head symmetry *)

Lemma h2h_side_mirror a g1 g2 :
  h2h_side (mirror a) g2 g1 = mirror (h2h_side a g1 g2).
Proof.
  unfold h2h_side, mirror.
  destruct (g1 >? g2) eqn:E1, (g2 >? g1) eqn:E2,
           (g1 =? g2) eqn:E3, (g2 =? g1) eqn:E4;
    try reflexivity; exfalso;
    rewrite ?Z.gtb_ltb, ?Z.ltb_lt, ?Z.ltb_ge, ?Z.eqb_eq, ?Z.eqb_neq in *; lia.
Qed.

Lemma h2h_row_mirror a b acc m :
  meeting a b m -> h2h_row b (mirror acc) m = mirror (h2h_row a acc m).
Proof.
  intros [Hne [[Hh Ha] | [Hh Ha]]]; unfold h2h_row.
  - assert (Hb : String.eqb (home_team m) b = false)
      by (apply String.eqb_neq; congruence).
    rewrite Hb, Hh, String.eqb_refl. apply h2h_side_mirror.
  - assert (Hb : String.eqb (home_team m) a = false)
      by (apply String.eqb_neq; congruence).
    rewrite Hb, Hh, String.eqb_refl. symmetry.
    rewrite <- h2h_side_mirror. now destruct acc.
Qed.

Lemma h2h_fold_mirror a b l : forall acc,
  Forall (meeting a b) l ->
  fold_left (h2h_row b) l (mirror acc) = mirror (fold_left (h2h_row a) l acc).
Proof.
  induction l as [|m l IH]; intros acc H; [reflexivity|].
  inversion H as [|? ? Hm Hl]; subst. cbn [fold_left].
  rewrite (h2h_row_mirror a b acc m Hm). now apply IH.
Qed.

Lemma firstn_In {A : Type} (k : nat) (l : list A) x : In x (firstn k l) -> In x l.
Proof.
  intros H. rewrite <- (firstn_skipn k l). apply in_or_app. now left.
Qed.

Lemma head_In {A : Type} (n : Z) (l : list A) x : In x (head n l) -> In x l.
Proof. unfold head. destruct (0 <=? n); apply firstn_In. Qed.

Lemma h2h_matches_swap o df a b d n :
  h2h_matches o df a b d n = h2h_matches o df b a d n.
Proof.
  unfold h2h_matches. do 2 f_equal.
  apply filter_ext. intros m. f_equal. apply orb_comm.
Qed.

Lemma h2h_matches_meeting o df a b d n :
  Forall (fun m => home_team m <> away_team m) df \/ a <> b ->
  Forall (meeting a b) (h2h_matches o df a b d n).
Proof.
  intros Hdf. apply Forall_forall. intros m Hm.
  unfold h2h_matches in Hm. apply head_In in Hm.
  apply (Permutation_in _ (sort_values_perm o _)) in Hm.
  apply filter_In in Hm. destruct Hm as [Hin Hmask].
  apply andb_true_iff in Hmask. destruct Hmask as [Hmask _].
  apply orb_true_iff in Hmask.
  assert (Hside : (home_team m = a /\ away_team m = b)
                  \/ (home_team m = b /\ away_team m = a)).
  { destruct Hmask as [H | H]; apply andb_true_iff in H; destruct H as [H1 H2];
      apply String.eqb_eq in H1, H2; auto. }
  split; [|exact Hside].
  destruct Hdf as [Hdf | Hab].
  - rewrite Forall_forall in Hdf. now apply Hdf.
  - destruct Hside as [[-> ->] | [-> ->]]; congruence.
Qed.

(** C3. On a frame whose matches have two different sides, or for two
    different teams, the head-to-head records of (a, b) and of (b, a) at the
    same date are computed from the same rows and mirror each other: wins
    and goals of the two teams are exchanged, draws and matches played are
    equal. *)
Theorem h2h_symmetry o df a b d n :
  Forall (fun m => home_team m <> away_team m) df \/ a <> b ->
  h2h_matches o df a b d n = h2h_matches o df b a d n
  /\ exists h1 h2,
       FeatureBuilder.calculate_head_to_head o df a b d n = Some h1
       /\ FeatureBuilder.calculate_head_to_head o df b a d n = Some h2
       /\ FeatureBuilder.H2H.team1_wins h1 = FeatureBuilder.H2H.team2_wins h2
       /\ FeatureBuilder.H2H.team2_wins h1 = FeatureBuilder.H2H.team1_wins h2
       /\ FeatureBuilder.H2H.team1_goals h1 = FeatureBuilder.H2H.team2_goals h2
       /\ FeatureBuilder.H2H.team2_goals h1 = FeatureBuilder.H2H.team1_goals h2
       /\ FeatureBuilder.H2H.draws h1 = FeatureBuilder.H2H.draws h2
       /\ FeatureBuilder.H2H.matches_played h1 = FeatureBuilder.H2H.matches_played h2.
Proof.
  intros Hdf. split; [apply h2h_matches_swap|].
  do 2 eexists.
  split; [apply head_to_head_returns|].
  split; [apply head_to_head_returns|].
  cbn.
  rewrite <- (h2h_matches_swap o df a b d n).
  change h2h0 with (mirror h2h0) at 2 4 6 8 10.
  rewrite (h2h_fold_mirror a b _ h2h0 (h2h_matches_meeting o df a b d n Hdf)).
  cbn. repeat split; reflexivity.
Qed.

Lemma h2h_symmetry_witness :
  (Forall (fun m => home_team m <> away_team m) home_and_away_ledger
   \/ "A"%string <> "B"%string)
  /\ exists h1 h2,
       FeatureBuilder.calculate_head_to_head first_seen home_and_away_ledger "A" "B"
         (midnight 2021 8 1) 10 = Some h1
       /\ FeatureBuilder.calculate_head_to_head first_seen home_and_away_ledger "B" "A"
            (midnight 2021 8 1) 10 = Some h2
       /\ FeatureBuilder.H2H.team1_wins h1 = FeatureBuilder.H2H.team2_wins h2
       /\ FeatureBuilder.H2H.team2_wins h1 = FeatureBuilder.H2H.team1_wins h2
       /\ FeatureBuilder.H2H.team1_goals h1 = FeatureBuilder.H2H.team2_goals h2
       /\ FeatureBuilder.H2H.team2_goals h1 = FeatureBuilder.H2H.team1_goals h2
       /\ FeatureBuilder.H2H.draws h1 = FeatureBuilder.H2H.draws h2
       /\ FeatureBuilder.H2H.matches_played h1 = FeatureBuilder.H2H.matches_played h2.
Proof.
  assert (H : Forall (fun m => home_team m <> away_team m) home_and_away_ledger
              \/ "A"%string <> "B"%string).
  { left. repeat constructor; simpl; intros E; discriminate E. }
  split; [exact H|].
  exact (proj2 (h2h_symmetry first_seen home_and_away_ledger "A" "B"
                  (midnight 2021 8 1) 10 H)).
Defined.

(** ** Rest days *)

Lemma last_match_most_recent o df team d m :
  most_recent df team d m ->
  exists x, last_matches o df team d 1 = [x] /\ date x = date m.
Proof.
  intros (Hin & Hp & Hd & Hmax). unfold last_matches.
  set (l := filter (fun m => plays team m && (date m <? d)) df).
  assert (Hl : forall x, In x l <-> In x df /\ plays team x = true /\ date x < d).
  { intros x. unfold l. rewrite filter_In, andb_true_iff, Z.ltb_lt. tauto. }
  pose proof (sort_values_perm o l) as HP.
  pose proof (sort_values_sorted o l) as HS.
  assert (Hm : In m (sort_values_date_desc o l)).
  { apply (Permutation_in _ (Permutation_sym HP)). apply Hl. auto. }
  destruct (sort_values_date_desc o l) as [|x rest]; [destruct Hm|].
  exists x. split; [reflexivity|].
  assert (Hx : In x l) by (apply (Permutation_in _ HP); now left).
  apply Hl in Hx. destruct Hx as (Hx1 & Hx2 & Hx3).
  specialize (Hmax x Hx1 Hx2 Hx3).
  inversion HS as [|? ? _ Hall]; subst.
  destruct Hm as [-> | Hm]; [reflexivity|].
  rewrite Forall_forall in Hall. specialize (Hall m Hm). unfold date_ge in Hall. lia.
Qed.

(** C6. The rest days of a team at [d] are the whole days between [d] and
    its most recent match before [d], and 0 when it has no match before [d],
    in both builders. *)
Theorem rest_days_most_recent o df team d :
  (no_history df team d ->
   FeatureBuilder.calculate_rest_days o df team d = 0
   /\ DatasetBuilder.calculate_rest_days o df team d = 0)
  /\ (forall m, most_recent df team d m ->
      FeatureBuilder.calculate_rest_days o df team d = days (d - date m)
      /\ DatasetBuilder.calculate_rest_days o df team d = days (d - date m)).
Proof.
  split.
  - intros H.
    unfold FeatureBuilder.calculate_rest_days, DatasetBuilder.calculate_rest_days.
    rewrite (no_history_last_matches o df team d 1 H). split; reflexivity.
  - intros m H.
    destruct (last_match_most_recent o df team d m H) as (x & Hx & Hd).
    unfold FeatureBuilder.calculate_rest_days, DatasetBuilder.calculate_rest_days.
    rewrite Hx, Hd. split; reflexivity.
Qed.

Lemma rest_days_most_recent_witness :
  most_recent two_match_ledger "A" (midnight 2020 8 29)
    {| match_id := None; date := midnight 2020 8 22; season := 2020; matchday := None;
       home_team := "C"; away_team := "A"; home_goals := 0; away_goals := 0;
       result := "D" |}
  /\ FeatureBuilder.calculate_rest_days first_seen two_match_ledger "A"
       (midnight 2020 8 29) = 7.
Proof.
  assert (H : most_recent two_match_ledger "A" (midnight 2020 8 29)
    {| match_id := None; date := midnight 2020 8 22; season := 2020; matchday := None;
       home_team := "C"; away_team := "A"; home_goals := 0; away_goals := 0;
       result := "D" |}).
  { split; [right; left; reflexivity|].
    split; [reflexivity|]. split; [reflexivity|].
    intros m' [<- | [<- | []]] _ _; vm_compute; intros E; discriminate E. }
  split; [exact H|].
  rewrite (proj1 (proj2 (rest_days_most_recent first_seen two_match_ledger "A"
                    (midnight 2020 8 29)) _ H)).
  reflexivity.
Defined.

(** ** The league table *)

Lemma mapM_total {A B : Type} (f : A -> option B) (g : A -> B) (l : list A) :
  (forall x, In x l -> f x = Some (g x)) -> mapM f l = Some (map g l).
Proof.
  induction l as [|x l IH]; intros H; [reflexivity|].
  cbn [mapM map]. rewrite (H x (or_introl eq_refl)). cbn [bind].
  rewrite IH by (intros y Hy; apply H; now right). reflexivity.
Qed.

Lemma key_ltb_spec a b :
  key_ltb a b = true <->
  let '(a1, a2, a3) := a in
  let '(b1, b2, b3) := b in
  a1 < b1 \/ (a1 = b1 /\ (a2 < b2 \/ (a2 = b2 /\ a3 < b3))).
Proof.
  destruct a as [[a1 a2] a3], b as [[b1 b2] b3]. unfold key_ltb.
  rewrite !orb_true_iff, !andb_true_iff, !orb_true_iff, !andb_true_iff,
    !Z.ltb_lt, !Z.eqb_eq. tauto.
Qed.

Lemma key_eqb_spec a b : key_eqb a b = true <-> a = b.
Proof.
  destruct a as [[a1 a2] a3], b as [[b1 b2] b3]. unfold key_eqb.
  rewrite !andb_true_iff, !Z.eqb_eq. split.
  - intros [[-> ->] ->]. reflexivity.
  - intros E. inversion E. auto.
Qed.

Lemma key_ltb_neq a b : key_ltb a b = true -> key_eqb b a = false /\ key_eqb a b = false.
Proof.
  intros H. apply key_ltb_spec in H.
  destruct a as [[a1 a2] a3], b as [[b1 b2] b3].
  split; apply not_true_is_false; intros E; apply key_eqb_spec in E;
    inversion E; lia.
Qed.

Lemma insert_desc_perm x l : Permutation (insert_desc x l) (x :: l).
Proof.
  induction l as [|y l IH]; cbn [insert_desc]; [reflexivity|].
  destruct (key_ltb (Entry.key x) (Entry.key y)); [|reflexivity].
  rewrite IH. apply perm_swap.
Qed.

Lemma sort_table_perm l : Permutation (sort_table l) l.
Proof.
  induction l as [|x l IH]; cbn [sort_table]; [constructor|].
  rewrite insert_desc_perm. now constructor.
Qed.

Lemma insert_desc_filter k x l :
  filter (has_key k) (insert_desc x l) = filter (has_key k) (x :: l).
Proof.
  induction l as [|y l IH]; [reflexivity|].
  cbn [insert_desc].
  destruct (key_ltb (Entry.key x) (Entry.key y)) eqn:E; [|reflexivity].
  cbn [filter] in *. rewrite IH.
  destruct (has_key k x) eqn:Ex, (has_key k y) eqn:Ey; try reflexivity.
  exfalso. unfold has_key in *.
  apply key_eqb_spec in Ex, Ey. apply key_ltb_neq in E.
  destruct E as [_ E]. rewrite Ex, Ey in E.
  assert (key_eqb k k = true) by now apply key_eqb_spec. congruence.
Qed.

(** The sort is stable: the entries of one key keep their order. *)
Lemma sort_table_stable k l :
  filter (has_key k) (sort_table l) = filter (has_key k) l.
Proof.
  induction l as [|x l IH]; [reflexivity|].
  cbn [sort_table]. rewrite insert_desc_filter. cbn [filter]. now rewrite IH.
Qed.

Lemma key_ge_trans e1 e2 e3 : key_ge e1 e2 -> key_ge e2 e3 -> key_ge e1 e3.
Proof.
  unfold key_ge. intros H1 H2.
  apply not_true_iff_false in H1, H2. apply not_true_iff_false.
  rewrite key_ltb_spec in *.
  destruct (Entry.key e1) as [[a1 a2] a3], (Entry.key e2) as [[b1 b2] b3],
           (Entry.key e3) as [[c1 c2] c3].
  lia.
Qed.

Lemma key_lt_ge e1 e2 : key_ltb (Entry.key e1) (Entry.key e2) = true -> key_ge e2 e1.
Proof.
  unfold key_ge. intros H. apply not_true_iff_false.
  rewrite key_ltb_spec in *.
  destruct (Entry.key e1) as [[a1 a2] a3], (Entry.key e2) as [[b1 b2] b3]. lia.
Qed.

Lemma insert_desc_sorted x l :
  StronglySorted key_ge l -> StronglySorted key_ge (insert_desc x l).
Proof.
  induction 1 as [|y l Hl IH Hy]; cbn [insert_desc].
  - repeat constructor.
  - destruct (key_ltb (Entry.key x) (Entry.key y)) eqn:E.
    + constructor; [exact IH|].
      apply Forall_forall. intros z Hz.
      apply (Permutation_in _ (insert_desc_perm x l)) in Hz.
      destruct Hz as [<- | Hz]; [now apply key_lt_ge|].
      rewrite Forall_forall in Hy. now apply Hy.
    + constructor; [now constructor|].
      constructor; [exact E|].
      apply Forall_forall. intros z Hz.
      rewrite Forall_forall in Hy.
      apply (key_ge_trans x y z); [exact E|now apply Hy].
Qed.

Lemma sort_table_sorted l : StronglySorted key_ge (sort_table l).
Proof.
  induction l as [|x l IH]; cbn [sort_table]; [constructor|].
  now apply insert_desc_sorted.
Qed.

Lemma filter_split {A : Type} (p : A -> bool) (t : list A) : forall u x v,
  filter p t = u ++ x :: v ->
  exists t1 t2, t = t1 ++ x :: t2 /\ filter p t1 = u /\ filter p t2 = v.
Proof.
  induction t as [|y t IH]; intros u x v H.
  - destruct u; discriminate H.
  - cbn [filter] in H. destruct (p y) eqn:E.
    + destruct u as [|u0 u].
      * injection H as -> Hv. exists [], t. repeat split. exact Hv.
      * injection H as -> Hv. destruct (IH u x v Hv) as (t1 & t2 & -> & H1 & H2).
        exists (u0 :: t1), t2. cbn [filter]. rewrite E, H1. repeat split. exact H2.
    + destruct (IH u x v H) as (t1 & t2 & -> & H1 & H2).
      exists (y :: t1), t2. cbn [filter]. rewrite E. repeat split; assumption.
Qed.

Lemma find_team_at e t2 : forall t1 i,
  ~ In (Entry.team e) (map Entry.team t1) ->
  find_team (Entry.team e) i (t1 ++ e :: t2) = Some (i + Z.of_nat (length t1), e).
Proof.
  induction t1 as [|y t1 IH]; intros i H; cbn [find_team app length].
  - rewrite String.eqb_refl. f_equal. f_equal. lia.
  - cbn [map In] in H.
    assert (E : String.eqb (Entry.team y) (Entry.team e) = false)
      by (apply String.eqb_neq; tauto).
    rewrite E, IH by tauto. f_equal. f_equal. lia.
Qed.

Lemma find_team_absent team l : forall i,
  ~ In team (map Entry.team l) -> find_team team i l = None.
Proof.
  induction l as [|y l IH]; intros i H; [reflexivity|].
  cbn [find_team]. cbn [map In] in H.
  assert (E : String.eqb (Entry.team y) team = false)
    by (apply String.eqb_neq; tauto).
  rewrite E. apply IH. tauto.
Qed.

(** Both builders compute the same entry for a team. *)
Lemma table_entry_returns o df d team :
  FeatureBuilder.table_entry o df d team = Some (DatasetBuilder.table_entry o df d team).
Proof.
  unfold FeatureBuilder.table_entry. rewrite team_form_returns. reflexivity.
Qed.

Lemma league_table_returns o df d :
  FeatureBuilder.league_table o df d =
    Some (sort_table (map (DatasetBuilder.table_entry o df d)
                          (teams_of o (FeatureBuilder.season_matches df d)))).
Proof.
  unfold FeatureBuilder.league_table.
  rewrite (mapM_total _ (DatasetBuilder.table_entry o df d))
    by (intros; apply table_entry_returns).
  reflexivity.
Qed.

Lemma teams_of_In o l team :
  In team (teams_of o l) <-> exists m, In m l /\ (home_team m = team \/ away_team m = team).
Proof.
  unfold teams_of. rewrite set_iter_In, in_app_iff, !unique_In, !in_map_iff.
  split.
  - intros [(m & E & H) | (m & E & H)]; exists m; auto.
  - intros (m & H & [E | E]); [left | right]; exists m; auto.
Qed.

Lemma table_teams (entry : string -> Entry.t) teams :
  (forall t, Entry.team (entry t) = t) ->
  Permutation (map Entry.team (sort_table (map entry teams))) teams.
Proof.
  intros H. rewrite (sort_table_perm (map entry teams)), map_map.
  rewrite (map_ext _ (fun t => t) H), map_id. reflexivity.
Qed.

(** Two teams with equal keys stand in a sorted table as they stood in the
    list the table was built from. *)
Lemma tied_ranking (entry : string -> Entry.t) (teams : list string) a b l1 l2 l3 :
  (forall t, Entry.team (entry t) = t) ->
  NoDup teams ->
  teams = l1 ++ a :: l2 ++ b :: l3 ->
  Entry.key (entry a) = Entry.key (entry b) ->
  exists i j,
    find_team a 0 (sort_table (map entry teams)) = Some (i, entry a)
    /\ find_team b 0 (sort_table (map entry teams)) = Some (j, entry b)
    /\ 0 <= i < j.
Proof.
  intros Hteam Hnd Hsplit Hkey.
  set (k := Entry.key (entry a)).
  assert (Hka : has_key k (entry a) = true) by (apply key_eqb_spec; reflexivity).
  assert (Hkb : has_key k (entry b) = true) by (apply key_eqb_spec; now rewrite <- Hkey).
  pose proof (sort_table_stable k (map entry teams)) as Hst.
  rewrite Hsplit in Hst at 2.
  rewrite map_app, filter_app in Hst. cbn [map filter] in Hst. rewrite Hka in Hst.
  rewrite map_app, filter_app in Hst. cbn [map filter] in Hst. rewrite Hkb in Hst.
  apply filter_split in Hst. destruct Hst as (t1 & r & Ht & _ & Hr).
  apply filter_split in Hr. destruct Hr as (t2 & t3 & -> & _ & _).
  pose proof (table_teams entry teams Hteam) as Hperm.
  assert (Hnd' : NoDup (map Entry.team (sort_table (map entry teams))))
    by (apply (Permutation_NoDup (Permutation_sym Hperm)); exact Hnd).
  rewrite Ht in *.
  exists (0 + Z.of_nat (length t1)), (0 + Z.of_nat (length (t1 ++ entry a :: t2))).
  split; [|split].
  - pose proof (find_team_at (entry a) (t2 ++ entry b :: t3) t1 0) as H.
    rewrite Hteam in H. apply H.
    rewrite map_app in Hnd'. cbn [map] in Hnd'. rewrite Hteam in Hnd'.
    apply NoDup_remove_2 in Hnd'. rewrite in_app_iff in Hnd'. tauto.
  - replace (t1 ++ entry a :: t2 ++ entry b :: t3)
      with ((t1 ++ entry a :: t2) ++ entry b :: t3) in *
      by (rewrite <- app_assoc; reflexivity).
    pose proof (find_team_at (entry b) t3 (t1 ++ entry a :: t2) 0) as H.
    rewrite Hteam in H. apply H.
    rewrite map_app in Hnd'. cbn [map] in Hnd'. rewrite (Hteam b) in Hnd'.
    apply NoDup_remove_2 in Hnd'. rewrite in_app_iff in Hnd'. tauto.
  - rewrite length_app. cbn [length]. lia.
Qed.

Lemma teams_of_nil o : teams_of o [] = [].
Proof.
  unfold teams_of. cbn [map unique app].
  destruct (set_iter o []) as [|x l] eqn:E; [reflexivity|].
  exfalso. apply (proj1 (set_iter_In o [] x)). rewrite E. now left.
Qed.

(** C2, as the code has it. The league table is sorted by decreasing
    (points, goal difference, goals scored); two teams tied on all three
    stand in the order in which the set of team names is iterated: the one
    visited first gets the smaller position, in both builders.  The team
    identifier is not compared. *)
Theorem tied_teams_keep_iteration_order o df d a b :
  (exists table, FeatureBuilder.league_table o df d = Some table
                 /\ StronglySorted key_ge table)
  /\ (forall l1 l2 l3,
        teams_of o (FeatureBuilder.season_matches df d) = l1 ++ a :: l2 ++ b :: l3 ->
        option_map Entry.key (FeatureBuilder.table_entry o df d a)
          = option_map Entry.key (FeatureBuilder.table_entry o df d b) ->
        exists pa pb,
          FeatureBuilder.calculate_league_position o df a d = Some pa
          /\ FeatureBuilder.calculate_league_position o df b d = Some pb
          /\ 1 <= FeatureBuilder.League.position pa < FeatureBuilder.League.position pb)
  /\ (forall l1 l2 l3,
        teams_of o (DatasetBuilder.season_matches df d) = l1 ++ a :: l2 ++ b :: l3 ->
        Entry.key (DatasetBuilder.table_entry o df d a)
          = Entry.key (DatasetBuilder.table_entry o df d b) ->
        1 <= DatasetBuilder.League.position (DatasetBuilder.calculate_league_position o df a d)
          < DatasetBuilder.League.position (DatasetBuilder.calculate_league_position o df b d)).
Proof.
  split; [|split].
  - eexists. split; [apply league_table_returns|apply sort_table_sorted].
  - intros l1 l2 l3 Hsplit Hkey.
    rewrite !table_entry_returns in Hkey. cbn [option_map] in Hkey.
    assert (Hkey' : Entry.key (DatasetBuilder.table_entry o df d a)
                    = Entry.key (DatasetBuilder.table_entry o df d b))
      by congruence.
    clear Hkey. rename Hkey' into Hkey.
    destruct (tied_ranking (DatasetBuilder.table_entry o df d)
                (teams_of o (FeatureBuilder.season_matches df d)) a b l1 l2 l3
                (fun t => eq_refl) (set_iter_NoDup o _) Hsplit Hkey)
      as (i & j & Hi & Hj & Hij).
    assert (Hne : FeatureBuilder.season_matches df d <> []).
    { intros E. rewrite E, teams_of_nil in Hsplit. destruct l1; discriminate Hsplit. }
    unfold FeatureBuilder.calculate_league_position.
    rewrite league_table_returns. cbn [bind]. rewrite Hi, Hj.
    destruct (FeatureBuilder.season_matches df d); [congruence|].
    do 2 eexists. split; [reflexivity|]. split; [reflexivity|].
    cbn. lia.
  - intros l1 l2 l3 Hsplit Hkey.
    destruct (tied_ranking (DatasetBuilder.table_entry o df d)
                (teams_of o (DatasetBuilder.season_matches df d)) a b l1 l2 l3
                (fun t => eq_refl) (set_iter_NoDup o _) Hsplit Hkey)
      as (i & j & Hi & Hj & Hij).
    unfold DatasetBuilder.calculate_league_position, DatasetBuilder.league_table.
    rewrite Hi, Hj. cbn. lia.
Qed.

Lemma tied_teams_keep_iteration_order_witness :
  teams_of last_seen (FeatureBuilder.season_matches tie_ledger (midnight 2020 8 22))
    = [] ++ "B"%string :: [] ++ "A"%string :: []
  /\ exists pa pb,
       FeatureBuilder.calculate_league_position last_seen tie_ledger "B"
         (midnight 2020 8 22) = Some pa
       /\ FeatureBuilder.calculate_league_position last_seen tie_ledger "A"
            (midnight 2020 8 22) = Some pb
       /\ 1 <= FeatureBuilder.League.position pa < FeatureBuilder.League.position pb.
Proof.
  split; [reflexivity|].
  apply (proj1 (proj2 (tied_teams_keep_iteration_order last_seen tie_ledger
                         (midnight 2020 8 22) "B" "A")) [] [] []);
    reflexivity.
Defined.

(** C2 as stated fails: A and B are tied and "A" sorts before "B", yet when
    the set of names is iterated B first, B is ranked first and A second;
    iterated A first, A is ranked first. *)
Lemma standings_tie_counterexample :
  String.ltb "A" "B" = true
  /\ option_map Entry.key
       (FeatureBuilder.table_entry last_seen tie_ledger (midnight 2020 8 22) "A")
     = option_map Entry.key
         (FeatureBuilder.table_entry last_seen tie_ledger (midnight 2020 8 22) "B")
  /\ option_map FeatureBuilder.League.position
       (FeatureBuilder.calculate_league_position last_seen tie_ledger "A"
          (midnight 2020 8 22)) = Some 2
  /\ option_map FeatureBuilder.League.position
       (FeatureBuilder.calculate_league_position last_seen tie_ledger "B"
          (midnight 2020 8 22)) = Some 1
  /\ option_map FeatureBuilder.League.position
       (FeatureBuilder.calculate_league_position first_seen tie_ledger "A"
          (midnight 2020 8 22)) = Some 1
  /\ DatasetBuilder.League.position
       (DatasetBuilder.calculate_league_position last_seen tie_ledger "A"
          (midnight 2020 8 22)) = 2.
Proof. vm_compute. repeat split. Qed.

(** ** Teams outside the table *)

Lemma absent_not_in_table o rows (entry : string -> Entry.t) team i :
  (forall t, Entry.team (entry t) = t) ->
  absent rows team ->
  find_team team i (sort_table (map entry (teams_of o rows))) = None.
Proof.
  intros Hteam Habs. apply find_team_absent. intros Hin.
  apply (Permutation_in _ (table_teams entry _ Hteam)) in Hin.
  apply teams_of_In in Hin. destruct Hin as (m & Hm & Hside).
  specialize (Habs m Hm). unfold plays in Habs.
  apply orb_false_iff in Habs. destruct Habs as [E1 E2].
  apply String.eqb_neq in E1, E2. tauto.
Qed.

(** C5, as the code has it. A team without a match among the season's
    matches before the date gets position 20 with 0 points (and 0 goal
    difference), in both builders, however many teams the season has seen. *)
Theorem absent_team_unranked o df team d :
  (absent (FeatureBuilder.season_matches df d) team ->
   FeatureBuilder.calculate_league_position o df team d =
     Some {| FeatureBuilder.League.position := 20;
             FeatureBuilder.League.points := 0;
             FeatureBuilder.League.goal_difference := 0;
             FeatureBuilder.League.matches_played := 0 |})
  /\ (absent (DatasetBuilder.season_matches df d) team ->
      DatasetBuilder.calculate_league_position o df team d =
        {| DatasetBuilder.League.position := 20;
           DatasetBuilder.League.points := 0;
           DatasetBuilder.League.goal_difference := 0 |}).
Proof.
  split; intros H.
  - unfold FeatureBuilder.calculate_league_position.
    rewrite league_table_returns. cbn [bind].
    rewrite (absent_not_in_table o _ (DatasetBuilder.table_entry o df d) team 0
               (fun t => eq_refl) H).
    destruct (FeatureBuilder.season_matches df d); reflexivity.
  - unfold DatasetBuilder.calculate_league_position, DatasetBuilder.league_table.
    rewrite (absent_not_in_table o _ (DatasetBuilder.table_entry o df d) team 0
               (fun t => eq_refl) H).
    reflexivity.
Qed.

Lemma absent_team_unranked_witness :
  absent (FeatureBuilder.season_matches tie_ledger (midnight 2020 8 22)) "C"
  /\ FeatureBuilder.calculate_league_position first_seen tie_ledger "C"
       (midnight 2020 8 22) =
     Some {| FeatureBuilder.League.position := 20;
             FeatureBuilder.League.points := 0;
             FeatureBuilder.League.goal_difference := 0;
             FeatureBuilder.League.matches_played := 0 |}.
Proof.
  assert (H : absent (FeatureBuilder.season_matches tie_ledger (midnight 2020 8 22)) "C").
  { assert (E : FeatureBuilder.season_matches tie_ledger (midnight 2020 8 22) = tie_ledger)
      by (vm_compute; reflexivity).
    rewrite E. intros m [<- | []]. reflexivity. }
  split; [exact H|].
  exact (proj1 (absent_team_unranked first_seen tie_ledger "C" (midnight 2020 8 22)) H).
Defined.

(** C5 as stated fails: with two teams seen in the season, a team that has
    not played yet is given position 20, not 2. *)
Lemma absent_team_counterexample :
  Z.of_nat (length (teams_of first_seen
                      (FeatureBuilder.season_matches tie_ledger (midnight 2020 8 22)))) = 2
  /\ absent tie_ledger "C"
  /\ option_map FeatureBuilder.League.position
       (FeatureBuilder.calculate_league_position first_seen tie_ledger "C"
          (midnight 2020 8 22)) = Some 20
  /\ DatasetBuilder.League.position
       (DatasetBuilder.calculate_league_position first_seen tie_ledger "C"
          (midnight 2020 8 22)) = 20
  /\ 20 <> 2.
Proof.
  split; [reflexivity|]. split; [intros m [<- | []]; reflexivity|].
  split; [reflexivity|]. split; [reflexivity|]. discriminate.
Qed.

(** ** No leakage *)

Section Leakage.

Variable o : Runtime.
Variables df1 df2 : DataFrame.
Variable d : Timestamp.

(** The two frames have the same rows dated strictly before [d]. *)
Hypothesis past : before d df1 = before d df2.

Lemma filter_before (f : Match -> bool) (df : DataFrame) :
  (forall m, f m = true -> date m < d) -> filter f df = filter f (before d df).
Proof.
  intros Hf. unfold before. induction df as [|m df IH]; [reflexivity|].
  cbn [filter]. destruct (f m) eqn:E.
  - pose proof (Hf m E) as E'. apply Z.ltb_lt in E'. rewrite E'. cbn [filter].
    rewrite E. now rewrite IH.
  - destruct (date m <? d); [cbn [filter]; rewrite E|]; exact IH.
Qed.

Lemma agree_filter (f : Match -> bool) :
  (forall m, f m = true -> date m < d) -> filter f df1 = filter f df2.
Proof.
  intros Hf. rewrite (filter_before f df1 Hf), (filter_before f df2 Hf).
  now rewrite past.
Qed.

Lemma agree_last_matches team d' n :
  d' <= d -> last_matches o df1 team d' n = last_matches o df2 team d' n.
Proof.
  intros Hd. unfold last_matches. rewrite agree_filter; [reflexivity|].
  intros m H. apply andb_true_iff in H. destruct H as [_ H].
  apply Z.ltb_lt in H. lia.
Qed.

Lemma agree_venue_matches team d' venue n :
  d' <= d -> venue_matches o df1 team d' venue n = venue_matches o df2 team d' venue n.
Proof.
  intros Hd. unfold venue_matches.
  destruct (String.eqb venue "home");
    (rewrite agree_filter; [reflexivity|]);
    intros m H; apply andb_true_iff in H; destruct H as [_ H];
    apply Z.ltb_lt in H; lia.
Qed.

Lemma agree_h2h_matches team1 team2 d' n :
  d' <= d -> h2h_matches o df1 team1 team2 d' n = h2h_matches o df2 team1 team2 d' n.
Proof.
  intros Hd. unfold h2h_matches. rewrite agree_filter; [reflexivity|].
  intros m H. apply andb_true_iff in H. destruct H as [_ H].
  apply Z.ltb_lt in H. lia.
Qed.

Lemma agree_team_form team d' n :
  d' <= d ->
  FeatureBuilder.calculate_team_form o df1 team d' n
  = FeatureBuilder.calculate_team_form o df2 team d' n.
Proof.
  intros Hd. unfold FeatureBuilder.calculate_team_form.
  now rewrite agree_last_matches.
Qed.

Lemma agree_season_matches d' :
  d' <= d -> FeatureBuilder.season_matches df1 d' = FeatureBuilder.season_matches df2 d'.
Proof.
  intros Hd. unfold FeatureBuilder.season_matches. apply agree_filter.
  intros m H. apply andb_true_iff in H. destruct H as [H _].
  apply Z.ltb_lt in H. lia.
Qed.

Lemma agree_table_entry team d' :
  d' <= d ->
  DatasetBuilder.table_entry o df1 d' team = DatasetBuilder.table_entry o df2 d' team.
Proof.
  intros Hd. unfold DatasetBuilder.table_entry, DatasetBuilder.calculate_team_form.
  now rewrite agree_last_matches.
Qed.

Lemma agree_league_position team d' :
  d' <= d ->
  FeatureBuilder.calculate_league_position o df1 team d'
  = FeatureBuilder.calculate_league_position o df2 team d'.
Proof.
  intros Hd. unfold FeatureBuilder.calculate_league_position.
  rewrite !league_table_returns, (agree_season_matches d' Hd).
  rewrite (map_ext _ _ (fun t => agree_table_entry t d' Hd)). reflexivity.
Qed.

Lemma last_matches_dated df team d' n m :
  In m (last_matches o df team d' n) -> date m < d'.
Proof.
  unfold last_matches. intros H. apply head_In in H.
  apply (Permutation_in _ (sort_values_perm o _)) in H.
  apply filter_In in H. destruct H as [_ H].
  apply andb_true_iff in H. destruct H as [_ H]. now apply Z.ltb_lt.
Qed.

Lemma mapM_ext_in {A B : Type} (f g : A -> option B) (l : list A) :
  (forall x, In x l -> f x = g x) -> mapM f l = mapM g l.
Proof.
  induction l as [|x l IH]; intros H; [reflexivity|].
  cbn [mapM]. rewrite (H x (or_introl eq_refl)).
  rewrite IH by (intros y Hy; apply H; now right). reflexivity.
Qed.

Lemma agree_strength_of_schedule team d' n :
  d' <= d ->
  FeatureBuilder.calculate_strength_of_schedule o df1 team d' n
  = FeatureBuilder.calculate_strength_of_schedule o df2 team d' n.
Proof.
  intros Hd. unfold FeatureBuilder.calculate_strength_of_schedule.
  rewrite (agree_last_matches team d' n Hd).
  destruct (last_matches o df2 team d' n) as [|m l] eqn:E; [reflexivity|].
  rewrite (mapM_ext_in (FeatureBuilder.opponent_standing o df1 team)
             (FeatureBuilder.opponent_standing o df2 team)); [reflexivity|].
  intros x Hx. unfold FeatureBuilder.opponent_standing.
  apply agree_league_position.
  rewrite <- E in Hx. apply last_matches_dated in Hx. lia.
Qed.

(** The feature builder reads the frame only through its rows dated before
    the date of the match. *)
Lemma agree_features cols idx m :
  date m = d ->
  FeatureBuilder.features o cols df1 idx m = FeatureBuilder.features o cols df2 idx m.
Proof.
  intros Hm. unfold FeatureBuilder.features,
    FeatureBuilder.calculate_home_away_form, FeatureBuilder.calculate_head_to_head,
    FeatureBuilder.calculate_rest_days, FeatureBuilder.calculate_momentum,
    FeatureBuilder.calculate_scoring_patterns.
  rewrite Hm.
  rewrite !(agree_team_form _ d 5 (Z.le_refl d)).
  rewrite !(agree_venue_matches _ d _ 5 (Z.le_refl d)).
  rewrite !(agree_h2h_matches _ _ d 10 (Z.le_refl d)).
  rewrite !(agree_league_position _ d (Z.le_refl d)).
  rewrite !(agree_last_matches _ d _ (Z.le_refl d)).
  rewrite !(agree_strength_of_schedule _ d 5 (Z.le_refl d)).
  reflexivity.
Qed.

(** Apart from the standings, the dataset builder does so as well. *)
Lemma agree_dataset_apart cols m :
  date m = d ->
  option_map apart_from_standings (DatasetBuilder.features o cols df1 m)
  = option_map apart_from_standings (DatasetBuilder.features o cols df2 m).
Proof.
  intros Hm. unfold DatasetBuilder.features, getitem.
  destruct (has_match_id cols), (has_matchday cols);
    cbn [bind ret option_map]; try reflexivity.
  unfold apart_from_standings.
  cbn [DatasetBuilder.Features.match_id DatasetBuilder.Features.date DatasetBuilder.Features.season DatasetBuilder.Features.matchday DatasetBuilder.Features.home_team DatasetBuilder.Features.away_team DatasetBuilder.Features.result DatasetBuilder.Features.home_goals DatasetBuilder.Features.away_goals DatasetBuilder.Features.home_form DatasetBuilder.Features.away_form DatasetBuilder.Features.home_home_form DatasetBuilder.Features.away_away_form DatasetBuilder.Features.home_position DatasetBuilder.Features.away_position DatasetBuilder.Features.home_points DatasetBuilder.Features.away_points DatasetBuilder.Features.position_difference DatasetBuilder.Features.points_difference DatasetBuilder.Features.h2h_home_wins DatasetBuilder.Features.h2h_away_wins DatasetBuilder.Features.h2h_draws DatasetBuilder.Features.h2h_home_goals DatasetBuilder.Features.h2h_away_goals DatasetBuilder.Features.home_rest_days DatasetBuilder.Features.away_rest_days DatasetBuilder.Features.rest_difference DatasetBuilder.Features.form_points_difference DatasetBuilder.Features.form_goal_diff_difference DatasetBuilder.Features.home_advantage].
  unfold DatasetBuilder.calculate_team_form, DatasetBuilder.calculate_home_away_form,
    DatasetBuilder.calculate_head_to_head, DatasetBuilder.calculate_rest_days.
  rewrite Hm.
  rewrite !(agree_venue_matches _ d _ 5 (Z.le_refl d)).
  rewrite !(agree_h2h_matches _ _ d 10 (Z.le_refl d)).
  rewrite !(agree_last_matches _ d _ (Z.le_refl d)).
  reflexivity.
Qed.

Lemma season_matches_at df :
  DatasetBuilder.season_matches df d =
    match season_at df d with
    | Some s => filter (fun m => (date m <? d) && (season m =? s)) df
    | None => []
    end.
Proof.
  unfold DatasetBuilder.season_matches, DatasetBuilder.season_mask, season_at.
  destruct (filter (fun r => date r <=? d) df) as [|r upto]; [|reflexivity].
  induction df as [|m df IH]; [reflexivity|].
  cbn [filter]. rewrite IH. now destruct (date m <? d).
Qed.

End Leakage.

(** The row index enters the record of the feature builder through the
    default of [match_id] only. *)
Lemma features_any_index o cols df idx1 idx2 m :
  option_map derived (FeatureBuilder.features o cols df idx1 m)
  = option_map derived (FeatureBuilder.features o cols df idx2 m).
Proof.
  unfold FeatureBuilder.features.
  repeat match goal with
         | |- context [bind ?x _] => destruct x; cbn [bind option_map]; [|reflexivity]
         end.
  reflexivity.
Qed.

Lemma features_own_id o cols df idx1 idx2 m :
  has_match_id cols = true \/ idx1 = idx2 ->
  FeatureBuilder.features o cols df idx1 m = FeatureBuilder.features o cols df idx2 m.
Proof.
  intros [H | ->]; [|reflexivity].
  unfold FeatureBuilder.features, get. rewrite H. reflexivity.
Qed.

(** C1, as the code has it. For a match [m] and two frames with the same
    rows dated strictly before [date m], whatever the row index of [m] in
    each: the features the feature builder derives for [m], its record
    without [match_id], are the same; the whole record is the same when the
    frame has a [match_id] column or the two indices are equal; whether a
    record is appended depends on the index alone, rows of index below 20
    being skipped.  The same holds of the record of the dataset builder
    apart from its standings, with 50 in place of 20. *)
Theorem no_leakage o cols df1 df2 idx1 idx2 m :
  before (date m) df1 = before (date m) df2 ->
  option_map derived (FeatureBuilder.features o cols df1 idx1 m)
  = option_map derived (FeatureBuilder.features o cols df2 idx2 m)
  /\ (has_match_id cols = true \/ idx1 = idx2 ->
      FeatureBuilder.features o cols df1 idx1 m
      = FeatureBuilder.features o cols df2 idx2 m)
  /\ ((idx1 <? 20) = (idx2 <? 20) ->
      map derived (FeatureBuilder.emit o cols df1 (idx1, m))
      = map derived (FeatureBuilder.emit o cols df2 (idx2, m)))
  /\ (idx1 = idx2 ->
      FeatureBuilder.emit o cols df1 (idx1, m) = FeatureBuilder.emit o cols df2 (idx2, m))
  /\ option_map apart_from_standings (DatasetBuilder.features o cols df1 m)
     = option_map apart_from_standings (DatasetBuilder.features o cols df2 m)
  /\ ((idx1 <? 50) = (idx2 <? 50) ->
      map apart_from_standings (DatasetBuilder.emit o cols df1 (idx1, m))
      = map apart_from_standings (DatasetBuilder.emit o cols df2 (idx2, m))).
Proof.
  intros Hpast.
  pose proof (agree_features o df1 df2 (date m) Hpast cols idx1 m eq_refl) as Hf.
  pose proof (agree_dataset_apart o df1 df2 (date m) Hpast cols m eq_refl) as Hd.
  assert (H1 : option_map derived (FeatureBuilder.features o cols df1 idx1 m)
               = option_map derived (FeatureBuilder.features o cols df2 idx2 m))
    by (rewrite Hf; apply features_any_index).
  assert (H2 : has_match_id cols = true \/ idx1 = idx2 ->
               FeatureBuilder.features o cols df1 idx1 m
               = FeatureBuilder.features o cols df2 idx2 m)
    by (intros H; rewrite Hf; now apply features_own_id).
  split; [exact H1|]. split; [exact H2|]. split; [|split; [|split; [exact Hd|]]].
  - intros E. unfold FeatureBuilder.emit. rewrite <- E.
    destruct (idx1 <? 20); [reflexivity|].
    destruct (FeatureBuilder.features o cols df1 idx1 m),
             (FeatureBuilder.features o cols df2 idx2 m);
      cbn [option_map] in H1; try discriminate H1; [|reflexivity].
    cbn [map]. congruence.
  - intros E. unfold FeatureBuilder.emit. rewrite (H2 (or_intror E)), E. reflexivity.
  - intros E. unfold DatasetBuilder.emit. rewrite <- E.
    destruct (idx1 <? 50); [reflexivity|].
    destruct (DatasetBuilder.features o cols df1 m),
             (DatasetBuilder.features o cols df2 m);
      cbn [option_map] in Hd; try discriminate Hd; [|reflexivity].
    cbn [map]. congruence.
Qed.

Lemma no_leakage_witness :
  before (date leak_match) leak_frame = before (date leak_match) (leak_frame ++ [injected])
  /\ FeatureBuilder.emit first_seen both_columns leak_frame (50, leak_match)
     = FeatureBuilder.emit first_seen both_columns (leak_frame ++ [injected])
         (50, leak_match).
Proof.
  assert (H : before (date leak_match) leak_frame
              = before (date leak_match) (leak_frame ++ [injected]))
    by (vm_compute; reflexivity).
  split; [exact H|].
  exact (proj1 (proj2 (proj2 (proj2
           (no_leakage first_seen both_columns leak_frame (leak_frame ++ [injected])
              50 50 leak_match H)))) eq_refl).
Defined.

(** C1 as stated fails in the feature builder: a match of the day of
    [leak_match], put in front of it, moves [leak_match] from row 19 to row
    20, and the builder that emitted nothing now emits its record, although
    the rows dated before that day are the same; in a frame without a
    [match_id] column the same match moves [leak_match] from row 20 to row
    21, and so does the [match_id] of its record. *)
Lemma leakage_counterexample :
  date same_day = date leak_match
  /\ before (date leak_match) short_frame = before (date leak_match) shifted_frame
  /\ FeatureBuilder.build_advanced_features first_seen both_columns short_frame = []
  /\ map feature_identity
       (FeatureBuilder.build_advanced_features first_seen both_columns shifted_frame)
     = [row_identity leak_match]
  /\ before (date leak_match) plain_frame = before (date leak_match) plain_shifted_frame
  /\ map (fun f => (FeatureBuilder.Features.home_team f, FeatureBuilder.Features.match_id f))
       (FeatureBuilder.build_advanced_features first_seen no_id_columns plain_frame)
     = [("A"%string, Some 20)]
  /\ map (fun f => (FeatureBuilder.Features.home_team f, FeatureBuilder.Features.match_id f))
       (FeatureBuilder.build_advanced_features first_seen no_id_columns
          plain_shifted_frame)
     = [("C"%string, Some 20); ("A"%string, Some 21)].
Proof.
  split; [vm_compute; reflexivity|].
  split; [vm_compute; reflexivity|].
  split; [vm_compute; reflexivity|].
  split; [vm_compute; reflexivity|].
  split; [vm_compute; reflexivity|].
  split; vm_compute; reflexivity.
Qed.

(** In the dataset builder the season of the standings is the season of the
    last row dated at or before the match: a match of the same day filed
    under another season, appended behind [leak_match], moves the position
    in the record of [leak_match] from 1 to 20. *)
Lemma dataset_standings_read_same_day :
  date injected = date leak_match
  /\ before (date leak_match) leak_frame
     = before (date leak_match) (leak_frame ++ [injected])
  /\ map DatasetBuilder.Features.home_position
       (DatasetBuilder.emit first_seen both_columns leak_frame (50, leak_match)) = [1]
  /\ map DatasetBuilder.Features.home_position
       (DatasetBuilder.emit first_seen both_columns (leak_frame ++ [injected])
          (50, leak_match)) = [20].
Proof.
  split; [vm_compute; reflexivity|].
  split; [vm_compute; reflexivity|].
  split; vm_compute; reflexivity.
Qed.

(** ** The match table *)

Module StorageFacts.
Import Storage.

Lemma same_key_spec a b : same_key a b = true <-> key a = key b.
Proof.
  unfold same_key, key.
  rewrite !andb_true_iff, !Z.eqb_eq, !String.eqb_eq. split.
  - intros [[[-> ->] ->] ->]. reflexivity.
  - intros E. inversion E. auto.
Qed.

Lemma same_key_false a b : same_key a b = false <-> key a <> key b.
Proof.
  rewrite <- same_key_spec. destruct (same_key a b); split; congruence.
Qed.

Lemma kept_all m l :
  ~ In (key m) (map (fun r => key (data r)) l) -> kept m l = l.
Proof.
  induction l as [|x l IH]; intros H; [reflexivity|].
  cbn [map In] in H. unfold kept in *. cbn [filter].
  assert (E : same_key (data x) m = false) by (apply same_key_false; intuition congruence).
  rewrite E. cbn [negb]. f_equal. apply IH. tauto.
Qed.

(** Under the unique constraint an insertion removes the one row of its
    key, if there is one. *)
Lemma kept_removes_one m l r :
  NoDup (map (fun r => key (data r)) l) ->
  In r l -> key (data r) = key m ->
  Permutation l (r :: kept m l).
Proof.
  induction l as [|x l IH]; intros Hnd Hin Hkey; [destruct Hin|].
  cbn [map] in Hnd. inversion Hnd as [|? ? Hx Hl]; subst.
  unfold kept in *. cbn [filter]. destruct Hin as [-> | Hin].
  - assert (E : same_key (data r) m = true) by now apply same_key_spec.
    rewrite E. cbn [negb].
    fold (kept m l). rewrite kept_all; [reflexivity|]. now rewrite <- Hkey.
  - assert (E : same_key (data x) m = false).
    { apply same_key_false. intros E. apply Hx. rewrite E, <- Hkey.
      apply in_map_iff. exists r. auto. }
    rewrite E. cbn [negb].
    rewrite (IH Hl Hin Hkey) at 1. apply perm_swap.
Qed.

Lemma kept_keys m l :
  NoDup (map (fun r => key (data r)) l) ->
  NoDup (map (fun r => key (data r)) (kept m l))
  /\ ~ In (key m) (map (fun r => key (data r)) (kept m l)).
Proof.
  induction l as [|x l IH]; intros Hnd; [split; [constructor|intros []]|].
  cbn [map] in Hnd. inversion Hnd as [|? ? Hx Hl]; subst.
  destruct (IH Hl) as [IH1 IH2].
  unfold kept in *. cbn [filter].
  destruct (same_key (data x) m) eqn:E; cbn [negb]; [now split|].
  apply same_key_false in E. cbn [map]. split.
  - constructor; [|exact IH1].
    intros Hin. apply Hx. apply in_map_iff in Hin.
    destruct Hin as (r & Hr & Hin). apply filter_In in Hin.
    apply in_map_iff. exists r. tauto.
  - cbn [In]. intuition congruence.
Qed.

(** The unique constraint is an invariant of the insertions. *)
Lemma insert_unique_keys t m : unique_keys t -> unique_keys (insert_or_replace t m).
Proof.
  unfold unique_keys, insert_or_replace. cbn [rows]. intros H.
  destruct (kept_keys m (rows t) H) as [H1 H2]. fold (kept m (rows t)).
  rewrite map_app. cbn [map data].
  apply (Permutation_NoDup (Permutation_cons_append _ _)).
  now constructor.
Qed.

Lemma empty_unique_keys : unique_keys (matches empty).
Proof. constructor. Qed.

(** C7, as the code has it. The dates of the stored matches are never
    read when a match is appended.  For a match dated before a stored match
    of its season, [add_match] answers whether the four integer fields can
    be bound, as for any other match.  When they can, the match is stored
    under a fresh id, the rows of other keys are all kept, so the later
    match stays stored unless the new one takes its key, and a batch of that
    one match reports one row.  When they cannot, nothing is stored and the
    batch reports no row.  The batch of the one match leaves the state
    [add_match] leaves. *)
Theorem out_of_order_append_stored st m :
  precedes_stored st m ->
  snd (add_match st m) = bindable m
  /\ (bindable m = true ->
      In {| id := sequence (matches st) + 1; data := m |}
         (rows (matches (fst (add_match st m))))
      /\ (forall r, In r (rows (matches st)) -> same_key (data r) m = false ->
                    In r (rows (matches (fst (add_match st m)))))
      /\ (exists r, In r (rows (matches st))
                    /\ season (data r) = season m
                    /\ String.ltb (date m) (date (data r)) = true
                    /\ (same_key (data r) m = true
                        \/ In r (rows (matches (fst (add_match st m))))))
      /\ snd (add_matches_batch st [m]) = 1)
  /\ (bindable m = false ->
      fst (add_match st m) = st /\ snd (add_matches_batch st [m]) = 0)
  /\ fst (add_matches_batch st [m]) = fst (add_match st m).
Proof.
  intros (r0 & Hr0 & Hs0 & Hd0).
  unfold add_match, add_matches_batch. cbn [forallb].
  rewrite andb_true_r.
  destruct (bindable m) eqn:Hb; cbn [fst snd].
  - split; [reflexivity|]. split; [|split; [discriminate|reflexivity]].
    intros _.
    assert (Hkept : forall r, In r (rows (matches st)) -> same_key (data r) m = false ->
                              In r (rows (matches (store st m)))).
    { intros r Hr E. cbn [store matches insert_or_replace rows].
      apply in_or_app. left. apply filter_In. now rewrite E. }
    split; [cbn [store matches insert_or_replace rows]; apply in_or_app; right; now left|].
    split; [exact Hkept|]. split; [|reflexivity].
    exists r0. split; [exact Hr0|]. split; [exact Hs0|]. split; [exact Hd0|].
    destruct (same_key (data r0) m) eqn:E; [now left|right; now apply Hkept].
  - split; [reflexivity|]. split; [discriminate|]. split; [|reflexivity].
    intros _. split; reflexivity.
Qed.

Lemma opening_day_precedes : precedes_stored (fst (add_match empty clasico)) opening_day.
Proof.
  exists {| id := 1; data := clasico |}.
  split; [now left|]. split; reflexivity.
Defined.

Lemma out_of_order_append_stored_witness :
  precedes_stored (fst (add_match empty clasico)) opening_day
  /\ snd (add_match (fst (add_match empty clasico)) opening_day) = bindable opening_day.
Proof.
  split; [exact opening_day_precedes|].
  exact (proj1 (out_of_order_append_stored (fst (add_match empty clasico)) opening_day
                  opening_day_precedes)).
Defined.

(** C7 as stated fails: the match of 2023-08-12 appended after the one of
    2023-08-19 of the same season is accepted and the table grows. *)
Lemma out_of_order_counterexample :
  precedes_stored (fst (add_match empty clasico)) opening_day
  /\ snd (add_match (fst (add_match empty clasico)) opening_day) = true
  /\ total_matches (fst (add_match empty clasico)) = 1
  /\ total_matches (fst (add_match (fst (add_match empty clasico)) opening_day)) = 2
  /\ fst (add_match (fst (add_match empty clasico)) opening_day)
     <> fst (add_match empty clasico).
Proof.
  split; [exact opening_day_precedes|].
  split; [reflexivity|]. split; [reflexivity|]. split; [reflexivity|].
  intros E. apply (f_equal total_matches) in E. discriminate E.
Qed.




End StorageFacts.

(** * Further properties of the builders *)

(** ** Counters never go down *)

Lemma tally_side_nonneg a gs gc :
  0 <= t_points a -> 0 <= t_wins a -> 0 <= t_draws a -> 0 <= t_losses a ->
  let a' := tally_side a gs gc in
  0 <= t_points a' /\ 0 <= t_wins a' /\ 0 <= t_draws a' /\ 0 <= t_losses a'.
Proof.
  intros H1 H2 H3 H4. cbv zeta. unfold tally_side.
  destruct (gs >? gc); [|destruct (gs =? gc)];
    cbn [t_wins t_draws t_losses t_points]; lia.
Qed.

Lemma form_fold_nonneg team l : forall a,
  0 <= t_points a -> 0 <= t_wins a -> 0 <= t_draws a -> 0 <= t_losses a ->
  let a' := fold_left (form_row team) l a in
  0 <= t_points a' /\ 0 <= t_wins a' /\ 0 <= t_draws a' /\ 0 <= t_losses a'.
Proof.
  induction l as [|m l IH]; intros a H1 H2 H3 H4; cbn [fold_left]; [auto|].
  apply IH; unfold form_row; destruct (String.eqb (home_team m) team);
    apply tally_side_nonneg; assumption.
Qed.

Lemma venue_fold_nonneg venue l : forall a,
  0 <= t_points a -> 0 <= t_wins a -> 0 <= t_draws a -> 0 <= t_losses a ->
  let a' := fold_left (venue_row venue) l a in
  0 <= t_points a' /\ 0 <= t_wins a' /\ 0 <= t_draws a' /\ 0 <= t_losses a'.
Proof.
  induction l as [|m l IH]; intros a H1 H2 H3 H4; cbn [fold_left]; [auto|].
  apply IH; unfold venue_row; destruct (String.eqb venue "home");
    apply tally_side_nonneg; assumption.
Qed.

(** ** Home and away form *)

Lemma venue_row_inv venue a m :
  let a' := venue_row venue a m in
  t_wins a' + t_draws a' + t_losses a' = t_wins a + t_draws a + t_losses a + 1
  /\ t_points a' - 3 * t_wins a' - t_draws a' = t_points a - 3 * t_wins a - t_draws a.
Proof.
  unfold venue_row. destruct (String.eqb venue "home"); apply tally_side_inv.
Qed.

Lemma venue_fold_inv venue l : forall a,
  let a' := fold_left (venue_row venue) l a in
  t_wins a' + t_draws a' + t_losses a'
    = t_wins a + t_draws a + t_losses a + Z.of_nat (length l)
  /\ t_points a' - 3 * t_wins a' - t_draws a' = t_points a - 3 * t_wins a - t_draws a.
Proof.
  induction l as [|m l IH]; intros a; cbn [fold_left length].
  - lia.
  - pose proof (IH (venue_row venue a m)) as H1.
    pose proof (venue_row_inv venue a m) as H2.
    cbv zeta in H1, H2. lia.
Qed.

Lemma home_away_form_returns o df team d venue n :
  let rows := venue_matches o df team d venue n in
  let a := fold_left (venue_row venue) rows tally0 in
  let len := Z.of_nat (length rows) in
  FeatureBuilder.calculate_home_away_form o df team d venue n =
    Some {| FeatureBuilder.VenueForm.points := t_points a;
            FeatureBuilder.VenueForm.goals_scored := t_goals_scored a;
            FeatureBuilder.VenueForm.goals_conceded := t_goals_conceded a;
            FeatureBuilder.VenueForm.goal_difference := t_goals_scored a - t_goals_conceded a;
            FeatureBuilder.VenueForm.wins := t_wins a;
            FeatureBuilder.VenueForm.draws := t_draws a;
            FeatureBuilder.VenueForm.losses := t_losses a;
            FeatureBuilder.VenueForm.matches_played := len;
            FeatureBuilder.VenueForm.points_per_match :=
              (inject_Z (t_points a) / inject_Z (Z.max len 1))%Q;
            FeatureBuilder.VenueForm.win_rate :=
              (inject_Z (t_wins a) / inject_Z (Z.max len 1))%Q |}.
Proof.
  cbv zeta. unfold FeatureBuilder.calculate_home_away_form.
  rewrite !py_truediv_max by lia. reflexivity.
Qed.

Lemma venue_matches_length o df team d venue n :
  0 <= n -> Z.of_nat (length (venue_matches o df team d venue n)) <= n.
Proof.
  intros Hn. unfold venue_matches.
  destruct (String.eqb venue "home"); now apply head_length.
Qed.

Lemma venue_matches_side o df team d venue n m :
  In m (venue_matches o df team d venue n) ->
  date m < d
  /\ (if String.eqb venue "home" then home_team m = team else away_team m = team).
Proof.
  unfold venue_matches. intros H.
  destruct (String.eqb venue "home");
    apply head_In in H;
    apply (Permutation_in _ (sort_values_perm o _)) in H;
    apply filter_In in H; destruct H as [_ H];
    apply andb_true_iff in H; destruct H as [H1 H2];
    apply String.eqb_eq in H1; apply Z.ltb_lt in H2; auto.
Qed.

(** X1. For a window [n >= 0] the home or away form returns with
    wins + draws + losses = matches_played <= n, points = 3 * wins + draws
    and no negative count; every venue other than "home" is read as away:
    the rows it is computed from are matches of the team on that side,
    dated before the date. *)
Theorem venue_form_accounting o df team d venue n :
  0 <= n ->
  (exists f, FeatureBuilder.calculate_home_away_form o df team d venue n = Some f
             /\ FeatureBuilder.VenueForm.wins f + FeatureBuilder.VenueForm.draws f
                + FeatureBuilder.VenueForm.losses f
                = FeatureBuilder.VenueForm.matches_played f
             /\ FeatureBuilder.VenueForm.matches_played f <= n
             /\ FeatureBuilder.VenueForm.points f
                = 3 * FeatureBuilder.VenueForm.wins f + FeatureBuilder.VenueForm.draws f
             /\ 0 <= FeatureBuilder.VenueForm.wins f
             /\ 0 <= FeatureBuilder.VenueForm.draws f
             /\ 0 <= FeatureBuilder.VenueForm.losses f)
  /\ (forall m, In m (venue_matches o df team d venue n) ->
        date m < d
        /\ (venue = "home"%string -> home_team m = team)
        /\ (venue <> "home"%string -> away_team m = team)).
Proof.
  intros Hn. split.
  - eexists. split; [apply home_away_form_returns|]. cbn.
    pose proof (venue_fold_inv venue (venue_matches o df team d venue n) tally0) as H.
    pose proof (venue_fold_nonneg venue (venue_matches o df team d venue n) tally0) as H0.
    cbv zeta in H, H0. cbn in H, H0.
    pose proof (venue_matches_length o df team d venue n Hn).
    specialize (H0 ltac:(lia) ltac:(lia) ltac:(lia) ltac:(lia)). lia.
  - intros m Hm. apply venue_matches_side in Hm. destruct Hm as [Hd Hs].
    split; [exact Hd|]. split; intros E.
    + subst venue. exact Hs.
    + apply String.eqb_neq in E. now rewrite E in Hs.
Qed.

Lemma venue_form_accounting_witness :
  0 <= 5
  /\ exists f,
       FeatureBuilder.calculate_home_away_form first_seen two_match_ledger "A"
         (midnight 2020 8 29) "away" 5 = Some f
       /\ FeatureBuilder.VenueForm.matches_played f <= 5.
Proof.
  assert (H : 0 <= 5) by (intros E; discriminate E).
  split; [exact H|].
  destruct (proj1 (venue_form_accounting first_seen two_match_ledger "A"
                     (midnight 2020 8 29) "away" 5 H)) as (f & Hf & _ & Hle & _).
  exists f. split; [exact Hf|exact Hle].
Defined.

(** ** Momentum *)

Lemma momentum_row_form team a m :
  FeatureBuilder.momentum_row team (t_points a, t_wins a) m
  = (t_points (form_row team a m), t_wins (form_row team a m)).
Proof.
  unfold FeatureBuilder.momentum_row, form_row, tally_side.
  destruct (String.eqb (home_team m) team).
  - destruct (home_goals m >? away_goals m); [reflexivity|].
    destruct (home_goals m =? away_goals m); reflexivity.
  - destruct (away_goals m >? home_goals m); [reflexivity|].
    destruct (away_goals m =? home_goals m); reflexivity.
Qed.

Lemma momentum_fold_form team l : forall a,
  fold_left (FeatureBuilder.momentum_row team) l (t_points a, t_wins a)
  = (t_points (fold_left (form_row team) l a), t_wins (fold_left (form_row team) l a)).
Proof.
  induction l as [|m l IH]; intros a; cbn [fold_left]; [reflexivity|].
  rewrite momentum_row_form. apply IH.
Qed.

(** X2. The momentum of a team over its last [n] matches is its form over
    the same window: the momentum score is the form's points and the recent
    wins are the form's wins, so the score lies between 0 and three times
    the matches played; the per-match key is there exactly when a match was
    found. *)
Theorem momentum_is_form o df team d n :
  exists r f,
    FeatureBuilder.calculate_momentum o df team d n = Some r
    /\ FeatureBuilder.calculate_team_form o df team d n = Some f
    /\ FeatureBuilder.Momentum.momentum_score r = FeatureBuilder.Form.points f
    /\ FeatureBuilder.Momentum.recent_wins r = FeatureBuilder.Form.wins f
    /\ 0 <= FeatureBuilder.Momentum.momentum_score r
         <= 3 * FeatureBuilder.Form.matches_played f
    /\ (FeatureBuilder.Momentum.momentum_per_match r = None
        <-> FeatureBuilder.Form.matches_played f = 0).
Proof.
  pose proof (form_fold_inv team (last_matches o df team d n) tally0) as Hinv.
  pose proof (form_fold_nonneg team (last_matches o df team d n) tally0) as Hnn.
  pose proof (momentum_fold_form team (last_matches o df team d n) tally0) as Hm.
  cbv zeta in Hinv, Hnn. cbn in Hinv, Hnn, Hm.
  specialize (Hnn ltac:(lia) ltac:(lia) ltac:(lia) ltac:(lia)).
  rewrite team_form_returns.
  unfold FeatureBuilder.calculate_momentum.
  destruct (last_matches o df team d n) as [|m l] eqn:E.
  - do 2 eexists. split; [reflexivity|]. split; [reflexivity|]. cbn.
    repeat split; try lia; reflexivity.
  - rewrite Hm.
    unfold py_truediv.
    destruct (Z.of_nat (length (m :: l)) =? 0) eqn:E0;
      [apply Z.eqb_eq in E0; cbn [length] in E0; lia|].
    do 2 eexists. split; [reflexivity|]. split; [reflexivity|].
    cbn [FeatureBuilder.Momentum.momentum_score FeatureBuilder.Momentum.recent_wins
         FeatureBuilder.Momentum.momentum_per_match FeatureBuilder.Form.points
         FeatureBuilder.Form.wins FeatureBuilder.Form.matches_played].
    split; [reflexivity|]. split; [reflexivity|]. split; [lia|].
    split; intros H; [discriminate H|cbn [length] in H; lia].
Qed.

(** ** Scoring patterns *)

Lemma sum_list_snoc l x : sum_list (l ++ [x]) = sum_list l + x.
Proof. unfold sum_list. rewrite fold_left_app. reflexivity. Qed.

Lemma scoring_row_inv team a t m :
  let a' := FeatureBuilder.scoring_row team a m in
  let t' := form_row team t m in
  length (FeatureBuilder.p_goals_scored a')
    = S (length (FeatureBuilder.p_goals_scored a))
  /\ length (FeatureBuilder.p_goals_conceded a')
     = S (length (FeatureBuilder.p_goals_conceded a))
  /\ sum_list (FeatureBuilder.p_goals_scored a') - t_goals_scored t'
     = sum_list (FeatureBuilder.p_goals_scored a) - t_goals_scored t
  /\ sum_list (FeatureBuilder.p_goals_conceded a') - t_goals_conceded t'
     = sum_list (FeatureBuilder.p_goals_conceded a) - t_goals_conceded t
  /\ FeatureBuilder.p_clean_sheets a <= FeatureBuilder.p_clean_sheets a'
       <= FeatureBuilder.p_clean_sheets a + 1
  /\ FeatureBuilder.p_failed_to_score a <= FeatureBuilder.p_failed_to_score a'
       <= FeatureBuilder.p_failed_to_score a + 1
  /\ FeatureBuilder.p_high_scoring_games a <= FeatureBuilder.p_high_scoring_games a'
       <= FeatureBuilder.p_high_scoring_games a + 1.
Proof.
  cbv zeta. unfold FeatureBuilder.scoring_row, form_row, tally_side.
  destruct (String.eqb (home_team m) team);
    cbn [FeatureBuilder.p_goals_scored FeatureBuilder.p_goals_conceded
         FeatureBuilder.p_clean_sheets FeatureBuilder.p_failed_to_score
         FeatureBuilder.p_high_scoring_games];
    rewrite !sum_list_snoc, !length_app; cbn [length];
    repeat match goal with
           | |- context [if ?c then _ else _] => destruct c
           end;
    cbn [t_goals_scored t_goals_conceded]; repeat split; lia.
Qed.

Lemma scoring_fold_inv team l : forall a t,
  let a' := fold_left (FeatureBuilder.scoring_row team) l a in
  let t' := fold_left (form_row team) l t in
  length (FeatureBuilder.p_goals_scored a')
    = (length (FeatureBuilder.p_goals_scored a) + length l)%nat
  /\ length (FeatureBuilder.p_goals_conceded a')
     = (length (FeatureBuilder.p_goals_conceded a) + length l)%nat
  /\ sum_list (FeatureBuilder.p_goals_scored a') - t_goals_scored t'
     = sum_list (FeatureBuilder.p_goals_scored a) - t_goals_scored t
  /\ sum_list (FeatureBuilder.p_goals_conceded a') - t_goals_conceded t'
     = sum_list (FeatureBuilder.p_goals_conceded a) - t_goals_conceded t
  /\ FeatureBuilder.p_clean_sheets a <= FeatureBuilder.p_clean_sheets a'
       <= FeatureBuilder.p_clean_sheets a + Z.of_nat (length l)
  /\ FeatureBuilder.p_failed_to_score a <= FeatureBuilder.p_failed_to_score a'
       <= FeatureBuilder.p_failed_to_score a + Z.of_nat (length l)
  /\ FeatureBuilder.p_high_scoring_games a <= FeatureBuilder.p_high_scoring_games a'
       <= FeatureBuilder.p_high_scoring_games a + Z.of_nat (length l).
Proof.
  induction l as [|m l IH]; intros a t; cbn [fold_left length].
  - repeat split; lia.
  - pose proof (IH (FeatureBuilder.scoring_row team a m) (form_row team t m)) as H1.
    pose proof (scoring_row_inv team a t m) as H2.
    cbv zeta in H1, H2. repeat split; lia.
Qed.

Lemma last_matches_incl o df team d n m :
  In m (last_matches o df team d n) -> In m df.
Proof.
  unfold last_matches. intros H. apply head_In in H.
  apply (Permutation_in _ (sort_values_perm o _)) in H.
  apply filter_In in H. tauto.
Qed.

Lemma scoring_fold_nonneg team l : forall a,
  Forall (fun m => 0 <= home_goals m /\ 0 <= away_goals m) l ->
  Forall (fun x => 0 <= x) (FeatureBuilder.p_goals_scored a) ->
  Forall (fun x => 0 <= x) (FeatureBuilder.p_goals_conceded a) ->
  let a' := fold_left (FeatureBuilder.scoring_row team) l a in
  Forall (fun x => 0 <= x) (FeatureBuilder.p_goals_scored a')
  /\ Forall (fun x => 0 <= x) (FeatureBuilder.p_goals_conceded a').
Proof.
  induction l as [|m l IH]; intros a Hl Hs Hc; cbn [fold_left]; [now split|].
  inversion Hl as [|? ? [Hh Ha] Hl']; subst.
  apply IH; [exact Hl'| |]; unfold FeatureBuilder.scoring_row;
    destruct (String.eqb (home_team m) team);
    cbn [FeatureBuilder.p_goals_scored FeatureBuilder.p_goals_conceded];
    apply Forall_app; (split; [assumption|]); constructor; (assumption || constructor).
Qed.

Lemma fold_add_shift (l : list Z) : forall acc,
  fold_left Z.add l acc = acc + fold_left Z.add l 0.
Proof.
  induction l as [|x l IH]; intros acc; cbn [fold_left]; [lia|].
  rewrite (IH (acc + x)), (IH (0 + x)). lia.
Qed.

Lemma float_exact_nonneg (l : list Z) :
  Forall (fun x => 0 <= x) l -> sum_list l < 9007199254740992 -> float_exact l = true.
Proof.
  intros Hl Hs. unfold float_exact. apply Z.ltb_lt.
  assert (E : map Z.abs l = l).
  { clear Hs. induction Hl as [|x l Hx _ IH]; [reflexivity|].
    cbn [map]. rewrite IH. f_equal. now apply Z.abs_eq. }
  rewrite E. exact Hs.
Qed.

Lemma np_mean_exact (l : list Z) :
  l <> [] -> float_exact l = true ->
  np_mean l = exact (inject_Z (sum_list l) / inject_Z (Z.of_nat (length l)))%Q.
Proof.
  intros Hl He. destruct l as [|x l]; [congruence|].
  unfold np_mean. cbv zeta. rewrite He. reflexivity.
Qed.

(** X3. The scoring patterns of a team return for every input; clean
    sheets, failures to score and high-scoring games are counts between 0
    and the number of matches found.  In a frame without a negative goal
    count, an average whose goals add up to less than 2^53 is the form's
    goals per match, or goals conceded per match, over the same window:
    both are then the float nearest to the same quotient. *)
Theorem scoring_patterns_are_form o df team d n :
  exists s f,
    FeatureBuilder.calculate_scoring_patterns o df team d n = Some s
    /\ FeatureBuilder.calculate_team_form o df team d n = Some f
    /\ 0 <= FeatureBuilder.Scoring.clean_sheets s <= FeatureBuilder.Form.matches_played f
    /\ 0 <= FeatureBuilder.Scoring.failed_to_score s <= FeatureBuilder.Form.matches_played f
    /\ 0 <= FeatureBuilder.Scoring.high_scoring_games s
         <= FeatureBuilder.Form.matches_played f
    /\ (Forall (fun m => 0 <= home_goals m /\ 0 <= away_goals m) df ->
        (FeatureBuilder.Form.goals_scored f < 9007199254740992 ->
         FeatureBuilder.Scoring.avg_goals_scored s
         = exact (FeatureBuilder.Form.goals_per_match f))
        /\ (FeatureBuilder.Form.goals_conceded f < 9007199254740992 ->
            FeatureBuilder.Scoring.avg_goals_conceded s
            = exact (FeatureBuilder.Form.goals_conceded_per_match f))).
Proof.
  pose proof (scoring_fold_inv team (last_matches o df team d n)
                (FeatureBuilder.Build_Patterns [] [] 0 0 0) tally0) as H.
  pose proof (scoring_fold_nonneg team (last_matches o df team d n)
                (FeatureBuilder.Build_Patterns [] [] 0 0 0)) as Hnn.
  cbv zeta in H, Hnn. cbn in H.
  cbn [FeatureBuilder.p_goals_scored FeatureBuilder.p_goals_conceded] in Hnn.
  assert (Hin : forall x, In x (last_matches o df team d n) -> In x df)
    by (intros x; apply last_matches_incl).
  rewrite team_form_returns.
  unfold FeatureBuilder.calculate_scoring_patterns.
  destruct (last_matches o df team d n) as [|m l] eqn:E.
  - do 2 eexists. split; [reflexivity|]. split; [reflexivity|]. cbn.
    split; [lia|]. split; [lia|]. split; [lia|].
    intros _. split; intros _; reflexivity.
  - destruct H as (L1 & L2 & S1 & S2 & C1 & C2 & C3).
    set (a := fold_left (FeatureBuilder.scoring_row team) (m :: l)
                (FeatureBuilder.Build_Patterns [] [] 0 0 0)) in *.
    set (t := fold_left (form_row team) (m :: l) tally0) in *.
    assert (Hmax : Z.max (Z.of_nat (length (m :: l))) 1 = Z.of_nat (length (m :: l)))
      by (cbn [length]; lia).
    rewrite Hmax. unfold py_truediv.
    destruct (Z.of_nat (length (m :: l)) =? 0) eqn:E0;
      [apply Z.eqb_eq in E0; cbn [length] in E0; lia|].
    do 2 eexists. split; [reflexivity|]. split; [reflexivity|].
    cbn [FeatureBuilder.Scoring.clean_sheets FeatureBuilder.Scoring.failed_to_score
         FeatureBuilder.Scoring.high_scoring_games
         FeatureBuilder.Scoring.avg_goals_scored
         FeatureBuilder.Scoring.avg_goals_conceded
         FeatureBuilder.Form.matches_played FeatureBuilder.Form.goals_per_match
         FeatureBuilder.Form.goals_conceded_per_match
         FeatureBuilder.Form.goals_scored FeatureBuilder.Form.goals_conceded].
    split; [lia|]. split; [lia|]. split; [lia|].
    intros Hdf.
    destruct Hnn as [N1 N2]; [|constructor|constructor|].
    { rewrite Forall_forall in *. intros x Hx. apply Hdf, Hin, Hx. }
    assert (E1 : sum_list (FeatureBuilder.p_goals_scored a) = t_goals_scored t) by lia.
    assert (E2 : sum_list (FeatureBuilder.p_goals_conceded a) = t_goals_conceded t) by lia.
    split; intros Hlt.
    + rewrite np_mean_exact, L1, E1; [reflexivity| |].
      * intros En. rewrite En in L1. discriminate L1.
      * apply float_exact_nonneg; [exact N1|lia].
    + rewrite np_mean_exact, L2, E2; [reflexivity| |].
      * intros En. rewrite En in L2. discriminate L2.
      * apply float_exact_nonneg; [exact N2|lia].
Qed.

Lemma two_match_ledger_goals :
  Forall (fun m => 0 <= home_goals m /\ 0 <= away_goals m) two_match_ledger.
Proof. repeat constructor; intros E; discriminate E. Qed.

Lemma scoring_patterns_are_form_witness :
  Forall (fun m => 0 <= home_goals m /\ 0 <= away_goals m) two_match_ledger
  /\ exists s f,
       FeatureBuilder.calculate_scoring_patterns first_seen two_match_ledger "A"
         (midnight 2020 8 29) 10 = Some s
       /\ FeatureBuilder.calculate_team_form first_seen two_match_ledger "A"
            (midnight 2020 8 29) 10 = Some f
       /\ FeatureBuilder.Form.matches_played f = 2
       /\ FeatureBuilder.Scoring.avg_goals_scored s
          = exact (FeatureBuilder.Form.goals_per_match f).
Proof.
  split; [exact two_match_ledger_goals|].
  destruct (scoring_patterns_are_form first_seen two_match_ledger "A"
              (midnight 2020 8 29) 10) as (s & f & Hs & Hf & _ & _ & _ & Havg).
  exists s, f. split; [exact Hs|]. split; [exact Hf|].
  assert (Ef : FeatureBuilder.calculate_team_form first_seen two_match_ledger "A"
                 (midnight 2020 8 29) 10
               = Some {| FeatureBuilder.Form.points := 4;
                         FeatureBuilder.Form.goals_scored := 3;
                         FeatureBuilder.Form.goals_conceded := 1;
                         FeatureBuilder.Form.goal_difference := 2;
                         FeatureBuilder.Form.wins := 1;
                         FeatureBuilder.Form.draws := 1;
                         FeatureBuilder.Form.losses := 0;
                         FeatureBuilder.Form.matches_played := 2;
                         FeatureBuilder.Form.points_per_match := 4 # 2;
                         FeatureBuilder.Form.goals_per_match := 3 # 2;
                         FeatureBuilder.Form.goals_conceded_per_match := 1 # 2 |})
    by (vm_compute; reflexivity).
  rewrite Ef in Hf. injection Hf as <-.
  split; [reflexivity|].
  apply (proj1 (Havg two_match_ledger_goals)). reflexivity.
Defined.

(** ** One match, two sides *)

(** X13. A match between two different teams gives the two sides three
    points in all, or two when drawn: a win of one side is a loss of the
    other, a draw is a draw for both, and the goals one side scored are the
    goals the other conceded. *)
Theorem match_points_split m :
  home_team m <> away_team m ->
  let h := form_row (home_team m) tally0 m in
  let a := form_row (away_team m) tally0 m in
  t_points h + t_points a = (if home_goals m =? away_goals m then 2 else 3)
  /\ t_wins h = t_losses a /\ t_losses h = t_wins a /\ t_draws h = t_draws a
  /\ t_goals_scored h = t_goals_conceded a /\ t_goals_conceded h = t_goals_scored a.
Proof.
  intros Hne. cbv zeta. unfold form_row.
  rewrite String.eqb_refl.
  assert (E : String.eqb (home_team m) (away_team m) = false)
    by now apply String.eqb_neq.
  rewrite E. unfold tally_side.
  destruct (home_goals m >? away_goals m) eqn:E1,
           (away_goals m >? home_goals m) eqn:E2,
           (home_goals m =? away_goals m) eqn:E3,
           (away_goals m =? home_goals m) eqn:E4;
    cbn; try (repeat split; reflexivity); exfalso;
    rewrite ?Z.gtb_ltb, ?Z.ltb_lt, ?Z.ltb_ge, ?Z.eqb_eq, ?Z.eqb_neq in *; lia.
Qed.

Lemma match_points_split_witness :
  home_team leak_match <> away_team leak_match
  /\ t_points (form_row (home_team leak_match) tally0 leak_match)
     + t_points (form_row (away_team leak_match) tally0 leak_match) = 2.
Proof.
  assert (H : home_team leak_match <> away_team leak_match)
    by (intros E; discriminate E).
  split; [exact H|].
  exact (proj1 (match_points_split leak_match H)).
Defined.

(** ** Rest days are not negative *)

(** X10. The rest days of a team are never negative, in both builders. *)
Theorem rest_days_nonneg o df team d :
  0 <= FeatureBuilder.calculate_rest_days o df team d
  /\ 0 <= DatasetBuilder.calculate_rest_days o df team d.
Proof.
  unfold FeatureBuilder.calculate_rest_days, DatasetBuilder.calculate_rest_days.
  destruct (last_matches o df team d 1) as [|m l] eqn:E; [split; lia|].
  assert (Hd : date m < d).
  { apply (last_matches_dated o df team d 1). rewrite E. now left. }
  unfold days, ns_per_day. split; apply Z.div_pos; lia.
Qed.

(** ** Positions in the league table *)

Lemma find_team_nth team l : forall i0 i e,
  find_team team i0 l = Some (i, e) ->
  Entry.team e = team /\ i0 <= i < i0 + Z.of_nat (length l)
  /\ nth_error l (Z.to_nat (i - i0)) = Some e.
Proof.
  induction l as [|y l IH]; intros i0 i e H; [discriminate H|].
  cbn [find_team] in H. destruct (String.eqb (Entry.team y) team) eqn:E.
  - injection H as <- <-. apply String.eqb_eq in E.
    rewrite Z.sub_diag. cbn [length]. repeat split; try lia; assumption.
  - apply IH in H. destruct H as (H1 & H2 & H3). cbn [length].
    split; [exact H1|]. split; [lia|].
    replace (Z.to_nat (i - i0)) with (S (Z.to_nat (i - (i0 + 1)))) by lia.
    exact H3.
Qed.

Lemma sorted_front {A : Type} (R : A -> A -> Prop) (t1 : list A) x t2 y :
  StronglySorted R (t1 ++ x :: t2) -> In y t1 -> R y x.
Proof.
  induction t1 as [|z t1 IH]; intros HS Hy; [destruct Hy|].
  cbn [app] in HS. inversion HS as [|? ? HS' Hall]; subst.
  destruct Hy as [-> | Hy]; [|now apply IH].
  rewrite Forall_forall in Hall. apply Hall. apply in_or_app. right. now left.
Qed.

Section Table.

Variable entry : string -> Entry.t.
Variable teams : list string.
Hypothesis entry_team : forall t, Entry.team (entry t) = t.
Hypothesis teams_NoDup : NoDup teams.

Let table := sort_table (map entry teams).

Lemma table_NoDup : NoDup (map Entry.team table).
Proof.
  apply (Permutation_NoDup (Permutation_sym (table_teams entry teams entry_team))).
  exact teams_NoDup.
Qed.

Lemma table_length : length table = length teams.
Proof.
  unfold table. rewrite (Permutation_length (sort_table_perm _)). apply length_map.
Qed.

Lemma table_split a :
  In a teams ->
  exists t1 t2, table = t1 ++ entry a :: t2 /\ ~ In a (map Entry.team (t1 ++ t2)).
Proof.
  intros Ha.
  assert (Hin : In (entry a) table).
  { apply (Permutation_in _ (Permutation_sym (sort_table_perm _))).
    now apply in_map. }
  apply in_split in Hin. destruct Hin as (t1 & t2 & Ht).
  exists t1, t2. split; [exact Ht|].
  pose proof table_NoDup as Hnd. rewrite Ht, map_app in Hnd.
  cbn [map] in Hnd. rewrite entry_team in Hnd.
  apply NoDup_remove_2 in Hnd. now rewrite map_app.
Qed.

(** A team of the list stands in the table once, with its own entry. *)
Lemma standing_of a :
  In a teams ->
  exists i, find_team a 0 table = Some (i, entry a)
            /\ 0 <= i < Z.of_nat (length teams).
Proof.
  intros Ha. destruct (table_split a Ha) as (t1 & t2 & Ht & Hnot).
  exists (0 + Z.of_nat (length t1)). split.
  - rewrite Ht. pose proof (find_team_at (entry a) t2 t1 0) as H.
    rewrite entry_team in H. apply H.
    rewrite map_app, in_app_iff in Hnot. tauto.
  - rewrite <- table_length, Ht, length_app. cbn [length]. lia.
Qed.

Lemma standing_injective a b i :
  find_team a 0 table = Some (i, entry a) ->
  find_team b 0 table = Some (i, entry b) -> a = b.
Proof.
  intros Ha Hb. apply find_team_nth in Ha, Hb.
  destruct Ha as (_ & _ & Ha), Hb as (_ & _ & Hb).
  rewrite Ha in Hb. injection Hb as Hb.
  rewrite <- (entry_team a), <- (entry_team b). now rewrite Hb.
Qed.

(** The team with the larger key stands in front. *)
Lemma ranking_by_key a b :
  In a teams -> In b teams ->
  key_ltb (Entry.key (entry b)) (Entry.key (entry a)) = true ->
  exists i j, find_team a 0 table = Some (i, entry a)
              /\ find_team b 0 table = Some (j, entry b)
              /\ i < j.
Proof.
  intros Ha Hb Hlt.
  destruct (table_split a Ha) as (t1 & t2 & Ht & Hnot).
  assert (Hin : In (entry b) table).
  { apply (Permutation_in _ (Permutation_sym (sort_table_perm _))).
    now apply in_map. }
  pose proof (sort_table_sorted (map entry teams)) as HS. fold table in HS.
  rewrite Ht in Hin, HS. apply in_app_or in Hin.
  destruct Hin as [Hin | [Heq | Hin]].
  - exfalso. pose proof (sorted_front key_ge t1 (entry a) t2 (entry b) HS Hin) as Hge.
    unfold key_ge in Hge. congruence.
  - exfalso. rewrite Heq in Hlt. apply key_ltb_neq in Hlt.
    destruct Hlt as [Hlt _].
    assert (key_eqb (Entry.key (entry b)) (Entry.key (entry b)) = true)
      by now apply key_eqb_spec.
    congruence.
  - apply in_split in Hin. destruct Hin as (u & v & Hu).
    pose proof table_NoDup as Hnd.
    rewrite Ht, Hu in Hnd.
    replace (t1 ++ entry a :: u ++ entry b :: v)
      with ((t1 ++ entry a :: u) ++ entry b :: v) in Hnd
      by (rewrite <- app_assoc; reflexivity).
    rewrite map_app in Hnd. cbn [map] in Hnd. rewrite (entry_team b) in Hnd.
    apply NoDup_remove_2 in Hnd. rewrite in_app_iff in Hnd.
    exists (0 + Z.of_nat (length t1)), (0 + Z.of_nat (length (t1 ++ entry a :: u))).
    split; [|split].
    + rewrite Ht. pose proof (find_team_at (entry a) t2 t1 0) as H.
      rewrite entry_team in H. apply H.
      rewrite map_app, in_app_iff in Hnot. tauto.
    + rewrite Ht, Hu.
      replace (t1 ++ entry a :: u ++ entry b :: v)
        with ((t1 ++ entry a :: u) ++ entry b :: v)
        by (rewrite <- app_assoc; reflexivity).
      pose proof (find_team_at (entry b) v (t1 ++ entry a :: u) 0) as H.
      rewrite entry_team in H. apply H. tauto.
    + rewrite length_app. cbn [length]. lia.
Qed.

End Table.

(** The standing of a team of the season in the feature builder. *)
Lemma league_position_of o df d a :
  In a (teams_of o (FeatureBuilder.season_matches df d)) ->
  exists i,
    find_team a 0 (sort_table (map (DatasetBuilder.table_entry o df d)
                                   (teams_of o (FeatureBuilder.season_matches df d))))
      = Some (i, DatasetBuilder.table_entry o df d a)
    /\ 0 <= i < Z.of_nat (length (teams_of o (FeatureBuilder.season_matches df d)))
    /\ FeatureBuilder.calculate_league_position o df a d =
       Some {| FeatureBuilder.League.position := i + 1;
               FeatureBuilder.League.points :=
                 Entry.points (DatasetBuilder.table_entry o df d a);
               FeatureBuilder.League.goal_difference :=
                 Entry.goal_difference (DatasetBuilder.table_entry o df d a);
               FeatureBuilder.League.matches_played :=
                 Entry.matches_played (DatasetBuilder.table_entry o df d a) |}.
Proof.
  intros Ha.
  destruct (standing_of (DatasetBuilder.table_entry o df d)
              (teams_of o (FeatureBuilder.season_matches df d)) (fun t => eq_refl)
              (set_iter_NoDup o _) a Ha) as (i & Hi & Hr).
  exists i. split; [exact Hi|]. split; [exact Hr|].
  unfold FeatureBuilder.calculate_league_position.
  rewrite league_table_returns. cbn [bind]. rewrite Hi.
  destruct (FeatureBuilder.season_matches df d) eqn:E; [|reflexivity].
  rewrite teams_of_nil in Ha. destruct Ha.
Qed.

(** X4. The teams that played in the season before the date hold the
    positions 1 to t, t the number of these teams, each position once: two
    different teams never share a position. *)
Theorem league_positions_distinct o df d a b :
  In a (teams_of o (FeatureBuilder.season_matches df d)) ->
  In b (teams_of o (FeatureBuilder.season_matches df d)) ->
  a <> b ->
  exists pa pb,
    FeatureBuilder.calculate_league_position o df a d = Some pa
    /\ FeatureBuilder.calculate_league_position o df b d = Some pb
    /\ FeatureBuilder.League.position pa <> FeatureBuilder.League.position pb
    /\ 1 <= FeatureBuilder.League.position pa
         <= Z.of_nat (length (teams_of o (FeatureBuilder.season_matches df d))).
Proof.
  intros Ha Hb Hab.
  destruct (league_position_of o df d a Ha) as (i & Hi & Hri & Hpa).
  destruct (league_position_of o df d b Hb) as (j & Hj & Hrj & Hpb).
  do 2 eexists. split; [exact Hpa|]. split; [exact Hpb|].
  cbn [FeatureBuilder.League.position]. split; [|lia].
  intros E. assert (i = j) by lia. subst j. apply Hab.
  exact (standing_injective (DatasetBuilder.table_entry o df d)
           (teams_of o (FeatureBuilder.season_matches df d)) (fun t => eq_refl)
           a b i Hi Hj).
Qed.

Lemma derby_teams :
  teams_of first_seen (FeatureBuilder.season_matches derby_ledger (midnight 2020 8 22))
  = ["A"; "B"]%string.
Proof. vm_compute. reflexivity. Qed.

Lemma derby_in t :
  In t ["A"; "B"]%string ->
  In t (teams_of first_seen
          (FeatureBuilder.season_matches derby_ledger (midnight 2020 8 22))).
Proof. intros H. rewrite derby_teams. exact H. Qed.

Lemma league_positions_distinct_witness :
  In "A"%string
     (teams_of first_seen (FeatureBuilder.season_matches derby_ledger (midnight 2020 8 22)))
  /\ In "B"%string
        (teams_of first_seen (FeatureBuilder.season_matches derby_ledger (midnight 2020 8 22)))
  /\ "A"%string <> "B"%string
  /\ exists pa pb,
       FeatureBuilder.calculate_league_position first_seen derby_ledger "A"
         (midnight 2020 8 22) = Some pa
       /\ FeatureBuilder.calculate_league_position first_seen derby_ledger "B"
            (midnight 2020 8 22) = Some pb
       /\ FeatureBuilder.League.position pa <> FeatureBuilder.League.position pb.
Proof.
  assert (Ha : In "A"%string (teams_of first_seen
            (FeatureBuilder.season_matches derby_ledger (midnight 2020 8 22))))
    by exact (derby_in "A" (or_introl eq_refl)).
  assert (Hb : In "B"%string (teams_of first_seen
            (FeatureBuilder.season_matches derby_ledger (midnight 2020 8 22))))
    by exact (derby_in "B" (or_intror (or_introl eq_refl))).
  assert (Hab : "A"%string <> "B"%string) by (intros E; discriminate E).
  split; [exact Ha|]. split; [exact Hb|]. split; [exact Hab|].
  destruct (league_positions_distinct first_seen derby_ledger (midnight 2020 8 22)
              "A" "B" Ha Hb Hab) as (pa & pb & H1 & H2 & H3 & _).
  exists pa, pb. split; [exact H1|]. split; [exact H2|exact H3].
Defined.

(** X5. Of two teams of the season the one with more points stands
    higher in the table, and with equal points the one with the better goal
    difference. *)
Theorem more_points_ranks_higher o df d a b :
  In a (teams_of o (FeatureBuilder.season_matches df d)) ->
  In b (teams_of o (FeatureBuilder.season_matches df d)) ->
  exists pa pb,
    FeatureBuilder.calculate_league_position o df a d = Some pa
    /\ FeatureBuilder.calculate_league_position o df b d = Some pb
    /\ (FeatureBuilder.League.points pb < FeatureBuilder.League.points pa ->
        FeatureBuilder.League.position pa < FeatureBuilder.League.position pb)
    /\ (FeatureBuilder.League.points pb = FeatureBuilder.League.points pa ->
        FeatureBuilder.League.goal_difference pb < FeatureBuilder.League.goal_difference pa ->
        FeatureBuilder.League.position pa < FeatureBuilder.League.position pb).
Proof.
  intros Ha Hb.
  destruct (league_position_of o df d a Ha) as (i & Hi & Hri & Hpa).
  destruct (league_position_of o df d b Hb) as (j & Hj & Hrj & Hpb).
  do 2 eexists. split; [exact Hpa|]. split; [exact Hpb|].
  cbn [FeatureBuilder.League.position FeatureBuilder.League.points
       FeatureBuilder.League.goal_difference].
  assert (Hlt : key_ltb (Entry.key (DatasetBuilder.table_entry o df d b))
                        (Entry.key (DatasetBuilder.table_entry o df d a)) = true ->
                i < j).
  { intros Hk.
    destruct (ranking_by_key (DatasetBuilder.table_entry o df d)
                (teams_of o (FeatureBuilder.season_matches df d)) (fun t => eq_refl)
                (set_iter_NoDup o _) a b Ha Hb Hk) as (i' & j' & Hi' & Hj' & Hij).
    rewrite Hi in Hi'. rewrite Hj in Hj'. congruence. }
  split.
  - intros Hp. enough (i < j) by lia. apply Hlt. apply key_ltb_spec.
    unfold Entry.key. left. exact Hp.
  - intros Hp Hg. enough (i < j) by lia. apply Hlt. apply key_ltb_spec.
    unfold Entry.key. right. split; [exact Hp|]. left. exact Hg.
Qed.

Lemma more_points_ranks_higher_witness :
  In "A"%string
     (teams_of first_seen (FeatureBuilder.season_matches derby_ledger (midnight 2020 8 22)))
  /\ In "B"%string
        (teams_of first_seen (FeatureBuilder.season_matches derby_ledger (midnight 2020 8 22)))
  /\ exists pa pb,
       FeatureBuilder.calculate_league_position first_seen derby_ledger "A"
         (midnight 2020 8 22) = Some pa
       /\ FeatureBuilder.calculate_league_position first_seen derby_ledger "B"
            (midnight 2020 8 22) = Some pb
       /\ (FeatureBuilder.League.points pb < FeatureBuilder.League.points pa ->
           FeatureBuilder.League.position pa < FeatureBuilder.League.position pb).
Proof.
  assert (Ha : In "A"%string (teams_of first_seen
            (FeatureBuilder.season_matches derby_ledger (midnight 2020 8 22))))
    by exact (derby_in "A" (or_introl eq_refl)).
  assert (Hb : In "B"%string (teams_of first_seen
            (FeatureBuilder.season_matches derby_ledger (midnight 2020 8 22))))
    by exact (derby_in "B" (or_intror (or_introl eq_refl))).
  split; [exact Ha|]. split; [exact Hb|].
  destruct (more_points_ranks_higher first_seen derby_ledger (midnight 2020 8 22)
              "A" "B" Ha Hb) as (pa & pb & H1 & H2 & H3 & _).
  exists pa, pb. split; [exact H1|]. split; [exact H2|exact H3].
Defined.

(** X6. The points, goal difference and matches played that the standing
    of a team of the season carries are those of its form over its last 100
    matches before the date, of whatever season. *)
Theorem standing_is_form_of_100 o df d a :
  In a (teams_of o (FeatureBuilder.season_matches df d)) ->
  exists p f,
    FeatureBuilder.calculate_league_position o df a d = Some p
    /\ FeatureBuilder.calculate_team_form o df a d 100 = Some f
    /\ FeatureBuilder.League.points p = FeatureBuilder.Form.points f
    /\ FeatureBuilder.League.goal_difference p = FeatureBuilder.Form.goal_difference f
    /\ FeatureBuilder.League.matches_played p = FeatureBuilder.Form.matches_played f
    /\ FeatureBuilder.League.matches_played p <= 100.
Proof.
  intros Ha.
  destruct (league_position_of o df d a Ha) as (i & _ & _ & Hpa).
  do 2 eexists. split; [exact Hpa|]. split; [apply team_form_returns|].
  cbn [FeatureBuilder.League.points FeatureBuilder.League.goal_difference
       FeatureBuilder.League.matches_played FeatureBuilder.Form.points
       FeatureBuilder.Form.goal_difference FeatureBuilder.Form.matches_played].
  split; [reflexivity|]. split; [reflexivity|]. split; [reflexivity|].
  unfold DatasetBuilder.table_entry, DatasetBuilder.calculate_team_form.
  cbn [Entry.matches_played DatasetBuilder.Form.matches_played].
  unfold last_matches. apply head_length. lia.
Qed.

Lemma standing_is_form_of_100_witness :
  In "A"%string
     (teams_of first_seen (FeatureBuilder.season_matches derby_ledger (midnight 2020 8 22)))
  /\ exists p f,
       FeatureBuilder.calculate_league_position first_seen derby_ledger "A"
         (midnight 2020 8 22) = Some p
       /\ FeatureBuilder.calculate_team_form first_seen derby_ledger "A"
            (midnight 2020 8 22) 100 = Some f
       /\ FeatureBuilder.League.points p = FeatureBuilder.Form.points f.
Proof.
  assert (Ha : In "A"%string (teams_of first_seen
            (FeatureBuilder.season_matches derby_ledger (midnight 2020 8 22))))
    by exact (derby_in "A" (or_introl eq_refl)).
  split; [exact Ha|].
  destruct (standing_is_form_of_100 first_seen derby_ledger (midnight 2020 8 22) "A" Ha)
    as (p & f & H1 & H2 & H3 & _).
  exists p, f. split; [exact H1|]. split; [exact H2|exact H3].
Defined.

(** X12. When the season read from the last row dated at or before the
    date, if there is such a row, is the season the date falls in, the
    league position of the dataset builder is that of the feature builder,
    with the same points and goal difference. *)
Theorem league_positions_agree o df team d :
  (forall s, season_at df d = Some s -> s = FeatureBuilder.season_year d) ->
  exists p,
    FeatureBuilder.calculate_league_position o df team d = Some p
    /\ DatasetBuilder.League.position (DatasetBuilder.calculate_league_position o df team d)
       = FeatureBuilder.League.position p
    /\ DatasetBuilder.League.points (DatasetBuilder.calculate_league_position o df team d)
       = FeatureBuilder.League.points p
    /\ DatasetBuilder.League.goal_difference
         (DatasetBuilder.calculate_league_position o df team d)
       = FeatureBuilder.League.goal_difference p.
Proof.
  intros Hs.
  assert (E : DatasetBuilder.season_matches df d = FeatureBuilder.season_matches df d).
  { rewrite season_matches_at. unfold FeatureBuilder.season_matches.
    destruct (season_at df d) as [s|] eqn:Es.
    - now rewrite (Hs s eq_refl).
    - unfold season_at in Es.
      destruct (filter (fun r => date r <=? d) df) as [|r l] eqn:Ef; [|discriminate Es].
      symmetry. clear Es Hs. induction df as [|m df' IH]; [reflexivity|].
      cbn [filter] in *. destruct (date m <=? d) eqn:Em; [discriminate Ef|].
      apply Z.leb_gt in Em.
      assert (Hlt : (date m <? d) = false) by (apply Z.ltb_ge; lia).
      rewrite Hlt. cbn [andb]. now apply IH. }
  unfold FeatureBuilder.calculate_league_position,
    DatasetBuilder.calculate_league_position, DatasetBuilder.league_table.
  rewrite league_table_returns, E. cbn [bind].
  destruct (FeatureBuilder.season_matches df d) eqn:Em.
  - rewrite teams_of_nil. eexists. split; [reflexivity|]. cbn. auto.
  - destruct (find_team team 0 _) as [[i e]|];
      eexists; (split; [reflexivity|]); cbn; auto.
Qed.

Lemma league_positions_agree_witness :
  (forall s, season_at derby_ledger (midnight 2020 8 22) = Some s ->
             s = FeatureBuilder.season_year (midnight 2020 8 22))
  /\ exists p,
       FeatureBuilder.calculate_league_position first_seen derby_ledger "B"
         (midnight 2020 8 22) = Some p
       /\ DatasetBuilder.League.position
            (DatasetBuilder.calculate_league_position first_seen derby_ledger "B"
               (midnight 2020 8 22))
          = FeatureBuilder.League.position p.
Proof.
  assert (H : forall s, season_at derby_ledger (midnight 2020 8 22) = Some s ->
                        s = FeatureBuilder.season_year (midnight 2020 8 22)).
  { assert (E : season_at derby_ledger (midnight 2020 8 22) = Some 2020)
      by (vm_compute; reflexivity).
    assert (E' : FeatureBuilder.season_year (midnight 2020 8 22) = 2020)
      by (vm_compute; reflexivity).
    rewrite E, E'. intros s Hs. now injection Hs as <-. }
  split; [exact H|].
  destruct (league_positions_agree first_seen derby_ledger "B" (midnight 2020 8 22) H)
    as (p & H1 & H2 & _).
  exists p. split; [exact H1|exact H2].
Defined.

(** ** Strength of schedule *)

Lemma league_position_returns o df team d :
  exists p, FeatureBuilder.calculate_league_position o df team d = Some p
            /\ 1 <= FeatureBuilder.League.position p.
Proof.
  unfold FeatureBuilder.calculate_league_position.
  rewrite league_table_returns. cbn [bind].
  destruct (FeatureBuilder.season_matches df d).
  - eexists. split; [reflexivity|]. cbn. lia.
  - destruct (find_team team 0 _) as [[i e]|] eqn:E.
    + apply find_team_nth in E. eexists. split; [reflexivity|]. cbn. lia.
    + eexists. split; [reflexivity|]. cbn. lia.
Qed.

Lemma mapM_returns {A B : Type} (f : A -> option B) (P : B -> Prop) (l : list A) :
  (forall x, In x l -> exists y, f x = Some y /\ P y) ->
  exists ys, mapM f l = Some ys /\ Forall P ys /\ length ys = length l.
Proof.
  induction l as [|x l IH]; intros H.
  - exists []. repeat split. constructor.
  - destruct (H x (or_introl eq_refl)) as (y & Hy & Py).
    destruct IH as (ys & Hys & Pys & Hl); [intros z Hz; apply H; now right|].
    exists (y :: ys). cbn [mapM]. rewrite Hy. cbn [bind]. rewrite Hys.
    split; [reflexivity|]. split; [now constructor|]. cbn [length]. now rewrite Hl.
Qed.

Lemma fold_add_ge (l : list Z) : forall acc,
  Forall (fun x => 1 <= x) l -> acc + Z.of_nat (length l) <= fold_left Z.add l acc.
Proof.
  induction l as [|x l IH]; intros acc H; cbn [fold_left length]; [lia|].
  inversion H as [|? ? Hx Hl]; subst. specialize (IH (acc + x) Hl). lia.
Qed.

Lemma np_mean_at_least_one (l : list Z) q :
  l <> [] -> Forall (fun x => 1 <= x) l -> np_mean l = exact q -> (1 <= q)%Q.
Proof.
  intros Hl Hall. destruct l as [|x l]; [congruence|].
  unfold np_mean. cbv zeta. destruct (float_exact (x :: l)); [|discriminate].
  intros E. injection E as <-.
  pose proof (fold_add_ge (x :: l) 0 Hall) as Hsum.
  apply Qle_shift_div_l.
  - replace 0%Q with (inject_Z 0) by reflexivity. rewrite <- Zlt_Qlt.
    cbn [length]. lia.
  - rewrite Qmult_1_l. rewrite <- Zle_Qle. cbn [fold_left length] in *. lia.
Qed.

Lemma head_empty {A : Type} (n : Z) (l : list A) : 1 <= n -> head n l = [] -> l = [].
Proof.
  intros Hn. unfold head. destruct (0 <=? n) eqn:E; [|apply Z.leb_gt in E; lia].
  destruct l as [|x l]; [reflexivity|].
  destruct (Z.to_nat n) eqn:En; [lia|]. cbn [firstn]. discriminate.
Qed.

(** For a window of one match or more, no match is selected exactly when
    the team has no match before the date. *)
Lemma last_matches_empty o df team d n :
  1 <= n -> (last_matches o df team d n = [] <-> no_history df team d).
Proof.
  intros Hn. split; [|apply no_history_last_matches].
  unfold last_matches. intros H. apply (head_empty n _ Hn) in H.
  pose proof (sort_values_perm o (filter (fun m => plays team m && (date m <? d)) df))
    as HP.
  rewrite H in HP. apply Permutation_nil in HP.
  intros m Hm Hp Hd.
  assert (Hin : In m (filter (fun m => plays team m && (date m <? d)) df)).
  { apply filter_In. split; [exact Hm|]. rewrite Hp. now apply Z.ltb_lt. }
  rewrite HP in Hin. destruct Hin.
Qed.

Lemma strength_of_schedule_total o df team d n :
  exists s, FeatureBuilder.calculate_strength_of_schedule o df team d n = Some s
            /\ (forall q, FeatureBuilder.SoS.avg_opponent_position s = exact q ->
                          (1 <= q)%Q)
            /\ (forall x, FeatureBuilder.SoS.strength_of_schedule s = Some x ->
                          x = minus_from 21 (FeatureBuilder.SoS.avg_opponent_position s))
            /\ (FeatureBuilder.SoS.strength_of_schedule s = None <->
                last_matches o df team d n = []).
Proof.
  unfold FeatureBuilder.calculate_strength_of_schedule.
  destruct (last_matches o df team d n) as [|m l] eqn:E.
  - eexists. split; [reflexivity|]. cbn.
    split; [intros q H; injection H as <-; discriminate|].
    split; [intros q H; discriminate H|]. tauto.
  - destruct (mapM_returns (FeatureBuilder.opponent_standing o df team)
                (fun p => 1 <= FeatureBuilder.League.position p) (m :: l))
      as (ps & Hps & Hall & Hlen).
    { intros x _. apply league_position_returns. }
    rewrite Hps. cbn [bind]. eexists. split; [reflexivity|].
    cbn [FeatureBuilder.SoS.avg_opponent_position FeatureBuilder.SoS.strength_of_schedule].
    split; [|split; [intros x H; now injection H as <-|split; intros H; discriminate H]].
    intros q. apply np_mean_at_least_one; [|now apply Forall_map].
    destruct ps; [discriminate Hlen|discriminate].
Qed.

(** X7. The strength of schedule returns for every input: it takes a mean
    only over a non-empty list.  A mean opponent position that the floats
    compute exactly is at least 1.  The strength key is there exactly when
    the window of the last [n] matches before the date is not empty, which
    for a window of one match or more is exactly when the team has a match
    before the date; it is then 21 minus the mean position.  Without such a
    match the result is the default, mean position 10 and mean points 0. *)
Theorem strength_of_schedule_returns o df team d n :
  exists s,
    FeatureBuilder.calculate_strength_of_schedule o df team d n = Some s
    /\ (forall q, FeatureBuilder.SoS.avg_opponent_position s = exact q -> (1 <= q)%Q)
    /\ (forall x, FeatureBuilder.SoS.strength_of_schedule s = Some x ->
                  x = minus_from 21 (FeatureBuilder.SoS.avg_opponent_position s))
    /\ (FeatureBuilder.SoS.strength_of_schedule s = None <->
        last_matches o df team d n = [])
    /\ (1 <= n ->
        (FeatureBuilder.SoS.strength_of_schedule s = None <-> no_history df team d))
    /\ (no_history df team d ->
        s = {| FeatureBuilder.SoS.avg_opponent_position := exact 10;
               FeatureBuilder.SoS.avg_opponent_points := exact 0;
               FeatureBuilder.SoS.strength_of_schedule := None |}).
Proof.
  destruct (strength_of_schedule_total o df team d n) as (s & Hs & H1 & H2 & H3).
  exists s. split; [exact Hs|]. split; [exact H1|]. split; [exact H2|].
  split; [exact H3|]. split.
  - intros Hn. rewrite H3. now apply last_matches_empty.
  - intros Hno. unfold FeatureBuilder.calculate_strength_of_schedule in Hs.
    rewrite (no_history_last_matches o df team d n Hno) in Hs.
    now injection Hs as <-.
Qed.

Lemma two_match_ledger_no_D : no_history two_match_ledger "D" (midnight 2020 8 29).
Proof. intros m [<- | [<- | []]]; simpl; intros E; discriminate E. Qed.

Lemma two_match_ledger_A : ~ no_history two_match_ledger "A" (midnight 2020 8 29).
Proof.
  intros H.
  apply (H {| match_id := None; date := midnight 2020 8 15; season := 2020;
              matchday := None; home_team := "A"; away_team := "B";
              home_goals := 3; away_goals := 1; result := "H" |});
    [now left|reflexivity|reflexivity].
Qed.

Lemma strength_of_schedule_returns_witness :
  1 <= 5
  /\ no_history two_match_ledger "D" (midnight 2020 8 29)
  /\ ~ no_history two_match_ledger "A" (midnight 2020 8 29)
  /\ (exists s,
        FeatureBuilder.calculate_strength_of_schedule first_seen two_match_ledger "D"
          (midnight 2020 8 29) 5 = Some s
        /\ FeatureBuilder.SoS.strength_of_schedule s = None)
  /\ (exists s,
        FeatureBuilder.calculate_strength_of_schedule first_seen two_match_ledger "A"
          (midnight 2020 8 29) 5 = Some s
        /\ FeatureBuilder.SoS.strength_of_schedule s <> None).
Proof.
  assert (H5 : 1 <= 5) by (intros E; discriminate E).
  split; [exact H5|]. split; [exact two_match_ledger_no_D|].
  split; [exact two_match_ledger_A|]. split.
  - destruct (strength_of_schedule_returns first_seen two_match_ledger "D"
                (midnight 2020 8 29) 5) as (s & Hs & _ & _ & _ & Hn & _).
    exists s. split; [exact Hs|].
    exact (proj2 (Hn H5) two_match_ledger_no_D).
  - destruct (strength_of_schedule_returns first_seen two_match_ledger "A"
                (midnight 2020 8 29) 5) as (s & Hs & _ & _ & _ & Hn & _).
    exists s. split; [exact Hs|].
    intros E. exact (two_match_ledger_A (proj1 (Hn H5) E)).
Defined.

(** ** The assembled rows *)

Lemma scoring_patterns_returns o df team d n :
  exists s, FeatureBuilder.calculate_scoring_patterns o df team d n = Some s.
Proof.
  unfold FeatureBuilder.calculate_scoring_patterns.
  destruct (last_matches o df team d n) as [|m l]; [eexists; reflexivity|].
  pose proof (scoring_fold_inv team (m :: l)
                (FeatureBuilder.Build_Patterns [] [] 0 0 0) tally0) as H.
  cbv zeta. unfold py_truediv.
  destruct (Z.of_nat _ =? 0) eqn:E0;
    [apply Z.eqb_eq in E0; cbn [length] in E0; lia|].
  eexists. reflexivity.
Qed.

(** The body of the loop of the feature builder raises for no row. *)
Lemma features_returns o cols df idx m :
  exists f, FeatureBuilder.features o cols df idx m = Some f
            /\ feature_identity f = row_identity m.
Proof.
  unfold FeatureBuilder.features.
  rewrite !team_form_returns, !home_away_form_returns, head_to_head_returns.
  cbn [bind].
  destruct (league_position_returns o df (home_team m) (date m)) as (p1 & -> & _).
  destruct (league_position_returns o df (away_team m) (date m)) as (p2 & -> & _).
  destruct (momentum_returns o df (home_team m) (date m) 3) as (m1 & ->).
  destruct (momentum_returns o df (away_team m) (date m) 3) as (m2 & ->).
  destruct (scoring_patterns_returns o df (home_team m) (date m) 10) as (s1 & ->).
  destruct (scoring_patterns_returns o df (away_team m) (date m) 10) as (s2 & ->).
  destruct (strength_of_schedule_total o df (home_team m) (date m) 5) as (o1 & -> & _).
  destruct (strength_of_schedule_total o df (away_team m) (date m) 5) as (o2 & -> & _).
  cbn [bind]. eexists. split; reflexivity.
Qed.

Lemma build_advanced_features_from o cols df l : forall s,
  map feature_identity
      (flat_map (FeatureBuilder.emit o cols df)
                (combine (map Z.of_nat (seq s (length l))) l))
  = map row_identity (skipn (20 - s) l).
Proof.
  induction l as [|m l IH]; intros s; [now rewrite skipn_nil|].
  cbn [length seq map combine flat_map]. rewrite map_app, IH.
  unfold FeatureBuilder.emit at 1.
  destruct (Z.of_nat s <? 20) eqn:E.
  - apply Z.ltb_lt in E.
    replace (20 - s)%nat with (S (20 - S s)) by lia. reflexivity.
  - apply Z.ltb_ge in E.
    replace (20 - s)%nat with 0%nat by lia.
    replace (20 - S s)%nat with 0%nat by lia.
    destruct (features_returns o cols df (Z.of_nat s) m) as (f & -> & Hf).
    cbn [map app skipn]. now rewrite Hf.
Qed.

(** X8. The feature builder leaves out the first 20 rows of the frame and
    no other: it emits one record for every later row, in frame order, with
    the date, season, teams, goals and result of that row, so a frame of 20
    rows or fewer gives no record. *)
Theorem build_advanced_features_rows o cols df :
  map feature_identity (FeatureBuilder.build_advanced_features o cols df)
  = map row_identity (skipn 20 df)
  /\ length (FeatureBuilder.build_advanced_features o cols df) = (length df - 20)%nat.
Proof.
  assert (H : map feature_identity (FeatureBuilder.build_advanced_features o cols df)
              = map row_identity (skipn 20 df)).
  { unfold FeatureBuilder.build_advanced_features, iterrows.
    now rewrite build_advanced_features_from. }
  split; [exact H|].
  apply (f_equal (@length _)) in H. rewrite !length_map, length_skipn in H. exact H.
Qed.

(** The body of the loop of the dataset builder raises exactly when the
    frame lacks one of the two columns it reads by name; otherwise its
    record carries the row and its two cells over, missing values
    included. *)
Lemma dataset_features_spec o cols df m :
  match DatasetBuilder.features o cols df m with
  | Some f => has_match_id cols && has_matchday cols = true
              /\ dataset_row f = (row_identity m, match_id m, matchday m)
  | None => has_match_id cols && has_matchday cols = false
  end.
Proof.
  unfold DatasetBuilder.features, getitem.
  destruct (has_match_id cols); [|reflexivity].
  destruct (has_matchday cols); [|reflexivity].
  cbn [bind ret]. split; reflexivity.
Qed.

Lemma build_features_from o cols df l :
  has_match_id cols && has_matchday cols = true ->
  forall s,
  map dataset_row
      (flat_map (DatasetBuilder.emit o cols df)
                (combine (map Z.of_nat (seq s (length l))) l))
  = map (fun m => (row_identity m, match_id m, matchday m)) (skipn (50 - s) l).
Proof.
  intros Hc. induction l as [|m l IH]; intros s; [now rewrite skipn_nil|].
  cbn [length seq map combine flat_map]. rewrite map_app, IH.
  unfold DatasetBuilder.emit at 1.
  destruct (Z.of_nat s <? 50) eqn:E.
  - apply Z.ltb_lt in E.
    replace (50 - s)%nat with (S (50 - S s)) by lia. reflexivity.
  - apply Z.ltb_ge in E.
    replace (50 - s)%nat with 0%nat by lia.
    replace (50 - S s)%nat with 0%nat by lia.
    cbn [skipn].
    pose proof (dataset_features_spec o cols df m) as Hf.
    destruct (DatasetBuilder.features o cols df m) as [f|]; [|congruence].
    destruct Hf as [_ Hf]. cbn [map app]. now rewrite Hf.
Qed.

Lemma build_features_none o cols df l :
  has_match_id cols && has_matchday cols = false ->
  forall rows : list Z, flat_map (DatasetBuilder.emit o cols df) (combine rows l) = [].
Proof.
  intros Hc. induction l as [|m l IH]; intros [|i rows]; try reflexivity.
  cbn [combine flat_map]. rewrite IH, app_nil_r.
  unfold DatasetBuilder.emit. destruct (i <? 50); [reflexivity|].
  pose proof (dataset_features_spec o cols df m) as Hf.
  destruct (DatasetBuilder.features o cols df m) as [f|]; [|reflexivity].
  destruct Hf as [Hf _]. congruence.
Qed.

(** X9. From a frame with the columns [match_id] and [matchday] the dataset
    builder leaves out the first 50 rows and no other: it emits one record
    for every later row, in frame order, with the date, season, teams, goals
    and result of that row and with its [match_id] and [matchday] cells, a
    missing value in a cell included.  From a frame without one of these
    two columns it emits nothing. *)
Theorem build_features_rows o cols df :
  (has_match_id cols && has_matchday cols = true ->
   map dataset_row (DatasetBuilder.build_features o cols df)
   = map (fun m => (row_identity m, match_id m, matchday m)) (skipn 50 df)
   /\ length (DatasetBuilder.build_features o cols df) = (length df - 50)%nat)
  /\ (has_match_id cols && has_matchday cols = false ->
      DatasetBuilder.build_features o cols df = []).
Proof.
  split.
  - intros Hc.
    assert (H : map dataset_row (DatasetBuilder.build_features o cols df)
                = map (fun m => (row_identity m, match_id m, matchday m)) (skipn 50 df)).
    { unfold DatasetBuilder.build_features, iterrows.
      now rewrite (build_features_from o cols df df Hc 0). }
    split; [exact H|].
    apply (f_equal (@length _)) in H. rewrite !length_map, length_skipn in H. exact H.
  - intros Hc. unfold DatasetBuilder.build_features, iterrows.
    now apply build_features_none.
Qed.

Lemma leak_frame_rows : skipn 50 (leak_frame ++ [unnumbered]) = [leak_match; unnumbered].
Proof. vm_compute. reflexivity. Qed.

Lemma build_features_rows_witness :
  has_match_id both_columns && has_matchday both_columns = true
  /\ has_match_id no_id_columns && has_matchday no_id_columns = false
  /\ map dataset_row
       (DatasetBuilder.build_features first_seen both_columns (leak_frame ++ [unnumbered]))
     = [(row_identity leak_match, Some 50, Some 8); (row_identity unnumbered, None, None)]
  /\ DatasetBuilder.build_features first_seen no_id_columns (leak_frame ++ [unnumbered])
     = [].
Proof.
  split; [reflexivity|]. split; [reflexivity|]. split.
  - rewrite (proj1 (proj1 (build_features_rows first_seen both_columns
                             (leak_frame ++ [unnumbered])) eq_refl)).
    rewrite leak_frame_rows. reflexivity.
  - exact (proj2 (build_features_rows first_seen no_id_columns
                    (leak_frame ++ [unnumbered])) eq_refl).
Defined.

(** ** The window of a form *)

Lemma sorted_split {A : Type} (R : A -> A -> Prop) (l1 l2 : list A) :
  StronglySorted R (l1 ++ l2) -> forall x y, In x l1 -> In y l2 -> R x y.
Proof.
  induction l1 as [|z l1 IH]; intros HS x y Hx Hy; [destruct Hx|].
  cbn [app] in HS. inversion HS as [|? ? HS' Hall]; subst.
  destruct Hx as [-> | Hx]; [|now apply (IH HS')].
  rewrite Forall_forall in Hall. apply Hall. apply in_or_app. now right.
Qed.

(** X24. For a window [n >= 0] the form is computed from the [n] most
    recent matches of the team before the date, or from all of them when
    there are fewer: matches played is the smaller of [n] and their number
    (nothing is padded), and no match left out is more recent than one that
    is counted. *)
Theorem form_window o df team d n :
  0 <= n ->
  let qualifying := filter (fun m => plays team m && (date m <? d)) df in
  (exists f, FeatureBuilder.calculate_team_form o df team d n = Some f
             /\ FeatureBuilder.Form.matches_played f
                = Z.min n (Z.of_nat (length qualifying)))
  /\ exists rest,
       Permutation (last_matches o df team d n ++ rest) qualifying
       /\ forall x y, In x (last_matches o df team d n) -> In y rest ->
                      date y <= date x.
Proof.
  intros Hn qualifying. split.
  - eexists. split; [apply team_form_returns|].
    cbn [FeatureBuilder.Form.matches_played].
    unfold last_matches, head. fold qualifying.
    destruct (0 <=? n) eqn:E; [|apply Z.leb_gt in E; lia].
    rewrite length_firstn, (Permutation_length (sort_values_perm o qualifying)). lia.
  - exists (skipn (Z.to_nat n) (sort_values_date_desc o qualifying)).
    unfold last_matches, head. fold qualifying.
    destruct (0 <=? n) eqn:E; [|apply Z.leb_gt in E; lia].
    split.
    + rewrite firstn_skipn. apply sort_values_perm.
    + intros x y Hx Hy.
      pose proof (sort_values_sorted o qualifying) as HS.
      rewrite <- (firstn_skipn (Z.to_nat n)) in HS.
      exact (sorted_split date_ge _ _ HS x y Hx Hy).
Qed.

Lemma form_window_witness :
  0 <= 1
  /\ exists f,
       FeatureBuilder.calculate_team_form first_seen two_match_ledger "A"
         (midnight 2020 8 29) 1 = Some f
       /\ FeatureBuilder.Form.matches_played f = 1.
Proof.
  assert (H : 0 <= 1) by (intros E; discriminate E).
  split; [exact H|].
  destruct (proj1 (form_window first_seen two_match_ledger "A" (midnight 2020 8 29) 1 H))
    as (f & Hf & Hm).
  exists f. split; [exact Hf|]. rewrite Hm. vm_compute. reflexivity.
Defined.

(** * Further properties of the storage *)

Module StorageInvariants.
Import Storage StorageFacts.

Lemma insert_season_perm s l : Permutation (insert_season s l) (s :: l).
Proof.
  induction l as [|x l IH]; cbn [insert_season]; [reflexivity|].
  destruct (s <=? x); [reflexivity|]. rewrite IH. apply perm_swap.
Qed.

Lemma sort_seasons_perm l : Permutation (sort_seasons l) l.
Proof.
  unfold sort_seasons. induction l as [|x l IH]; cbn [fold_right]; [constructor|].
  rewrite insert_season_perm. now constructor.
Qed.

Lemma insert_season_sorted s l :
  StronglySorted Z.le l -> StronglySorted Z.le (insert_season s l).
Proof.
  induction 1 as [|x l Hl IH Hx]; cbn [insert_season].
  - repeat constructor.
  - destruct (s <=? x) eqn:E.
    + apply Z.leb_le in E. constructor; [now constructor|].
      constructor; [exact E|].
      rewrite Forall_forall in *. intros y Hy. specialize (Hx y Hy). lia.
    + apply Z.leb_gt in E. constructor; [exact IH|].
      apply Forall_forall. intros y Hy.
      apply (Permutation_in _ (insert_season_perm s l)) in Hy.
      destruct Hy as [<- | Hy]; [lia|].
      rewrite Forall_forall in Hx. now apply Hx.
Qed.

Lemma sort_seasons_sorted l : StronglySorted Z.le (sort_seasons l).
Proof.
  unfold sort_seasons. induction l as [|x l IH]; cbn [fold_right]; [constructor|].
  now apply insert_season_sorted.
Qed.

Lemma sorted_strict l : StronglySorted Z.le l -> NoDup l -> StronglySorted Z.lt l.
Proof.
  induction 1 as [|x l Hl IH Hx]; intros Hnd; [constructor|].
  inversion Hnd as [|? ? Hnot Hnd']; subst.
  constructor; [now apply IH|].
  rewrite Forall_forall in *. intros y Hy. specialize (Hx y Hy).
  assert (x <> y) by (intros ->; contradiction). lia.
Qed.

Lemma strict_sorted l : StronglySorted Z.lt l -> StronglySorted Z.le l /\ NoDup l.
Proof.
  induction 1 as [|x l Hl [IH1 IH2] Hx]; [split; constructor|].
  split; constructor; try assumption.
  - rewrite Forall_forall in *. intros y Hy. specialize (Hx y Hy). lia.
  - intros Hin. rewrite Forall_forall in Hx. specialize (Hx x Hin). lia.
Qed.

(** Two strictly ascending lists with the same elements are the same list. *)
Lemma strict_sorted_unique l1 : forall l2,
  StronglySorted Z.lt l1 -> StronglySorted Z.lt l2 ->
  (forall x, In x l1 <-> In x l2) -> l1 = l2.
Proof.
  induction l1 as [|x l1 IH]; intros l2 H1 H2 Hin.
  - destruct l2 as [|y l2]; [reflexivity|].
    exfalso. apply (proj2 (Hin y)). now left.
  - destruct l2 as [|y l2]; [exfalso; apply (proj1 (Hin x)); now left|].
    inversion H1 as [|? ? H1' Hx]; inversion H2 as [|? ? H2' Hy]; subst.
    rewrite Forall_forall in Hx, Hy.
    assert (x = y).
    { destruct (proj1 (Hin x) (or_introl eq_refl)) as [E | Hxin]; [now symmetry|].
      destruct (proj2 (Hin y) (or_introl eq_refl)) as [E | Hyin]; [exact E|].
      specialize (Hx y Hyin). specialize (Hy x Hxin). lia. }
    subst y. f_equal. apply IH; try assumption.
    intros z. split; intros Hz.
    + destruct (proj1 (Hin z) (or_intror Hz)) as [E | H]; [|exact H].
      subst z. specialize (Hx x Hz). lia.
    + destruct (proj2 (Hin z) (or_intror Hz)) as [E | H]; [|exact H].
      subst z. specialize (Hy x Hz). lia.
Qed.

Lemma existsb_Zeqb s l : existsb (Z.eqb s) l = true <-> In s l.
Proof.
  rewrite existsb_exists. split.
  - intros (x & Hx & E). apply Z.eqb_eq in E. now subst.
  - intros H. exists s. split; [exact H|apply Z.eqb_refl].
Qed.

Lemma existsb_eqb t l : existsb (String.eqb t) l = true <-> In t l.
Proof.
  rewrite existsb_exists. split.
  - intros (x & Hx & E). apply String.eqb_eq in E. now subst.
  - intros H. exists t. split; [exact H|apply String.eqb_refl].
Qed.

Lemma add_team_In t l x : In x (add_team t l) <-> In x l \/ x = t.
Proof.
  unfold add_team. destruct (existsb (String.eqb t) l) eqn:E.
  - apply existsb_eqb in E. split; [auto|]. intros [H | ->]; assumption.
  - rewrite in_app_iff. cbn [In]. intuition congruence.
Qed.

Lemma add_team_NoDup t l : NoDup l -> NoDup (add_team t l).
Proof.
  intros H. unfold add_team. destruct (existsb (String.eqb t) l) eqn:E; [exact H|].
  apply (Permutation_NoDup (Permutation_cons_append l t)).
  constructor; [|exact H].
  intros Hin. apply existsb_eqb in Hin. congruence.
Qed.

Lemma update_seasons_In md m x :
  In x (seasons (update_metadata md m)) <-> In x (seasons md) \/ x = season m.
Proof.
  unfold update_metadata. cbn [seasons].
  destruct (existsb (Z.eqb (season m)) (seasons md)) eqn:E.
  - apply existsb_Zeqb in E. split; [auto|]. intros [H | ->]; assumption.
  - split; intros H.
    + apply (Permutation_in _ (sort_seasons_perm _)) in H.
      apply in_app_iff in H. cbn [In] in H. intuition congruence.
    + apply (Permutation_in _ (Permutation_sym (sort_seasons_perm _))).
      apply in_app_iff. cbn [In]. intuition congruence.
Qed.

Lemma update_seasons_sorted md m :
  StronglySorted Z.lt (seasons md) ->
  StronglySorted Z.lt (seasons (update_metadata md m)).
Proof.
  intros H. unfold update_metadata. cbn [seasons].
  destruct (existsb (Z.eqb (season m)) (seasons md)) eqn:E; [exact H|].
  apply sorted_strict; [apply sort_seasons_sorted|].
  apply (Permutation_NoDup (Permutation_sym (sort_seasons_perm _))).
  apply (Permutation_NoDup (Permutation_cons_append _ _)).
  constructor; [|now apply strict_sorted].
  intros Hin. apply existsb_Zeqb in Hin. congruence.
Qed.

Lemma update_teams_In md m x :
  In x (teams (update_metadata md m))
  <-> In x (teams md) \/ x = home_team m \/ x = away_team m.
Proof.
  unfold update_metadata. cbn [teams]. rewrite !add_team_In. tauto.
Qed.

Lemma filter_sorted {A : Type} (R : A -> A -> Prop) (f : A -> bool) l :
  StronglySorted R l -> StronglySorted R (filter f l).
Proof.
  induction 1 as [|x l Hl IH Hx]; cbn [filter]; [constructor|].
  destruct (f x); [|exact IH].
  constructor; [exact IH|].
  rewrite Forall_forall in *. intros y Hy. apply filter_In in Hy. now apply Hx.
Qed.

Lemma sorted_snoc l x :
  StronglySorted Z.lt l -> Forall (fun y => y < x) l -> StronglySorted Z.lt (l ++ [x]).
Proof.
  induction 1 as [|y l Hl IH Hy]; intros Hall; cbn [app]; [repeat constructor|].
  inversion Hall as [|? ? Hyx Hall']; subst.
  constructor; [now apply IH|].
  apply Forall_app. split; [exact Hy|]. now constructor.
Qed.

Lemma insert_rows_In t m r :
  In r (rows (insert_or_replace t m))
  <-> (In r (rows t) /\ same_key (data r) m = false)
      \/ r = {| id := sequence t + 1; data := m |}.
Proof.
  unfold insert_or_replace. cbn [rows].
  rewrite in_app_iff, filter_In, negb_true_iff. cbn [In]. intuition congruence.
Qed.

(** The storage keeps its invariant under [add_match]. *)
Lemma add_match_invariant st m : invariant st -> invariant (fst (add_match st m)).
Proof.
  intros H. unfold add_match. destruct (bindable m); cbn [fst]; [|exact H].
  destruct H as [Hk Hi Hc Hs Hse Ht Hr Hu].
  constructor; cbn [store matches metadata].
  - now apply insert_unique_keys.
  - unfold insert_or_replace. cbn [rows]. rewrite map_app. cbn [map id].
    apply sorted_snoc.
    + clear -Hi. induction (rows (matches st)) as [|x l IH]; [constructor|].
      cbn [map] in Hi. inversion Hi as [|? ? Hl Hx]; subst. cbn [filter].
      destruct (negb (same_key (data x) m)); [|now apply IH].
      cbn [map]. constructor; [now apply IH|].
      rewrite Forall_forall in *. intros y Hy. apply Hx.
      apply in_map_iff in Hy. destruct Hy as (r & <- & Hy).
      apply filter_In in Hy. apply in_map. tauto.
    + rewrite Forall_forall in *. intros y Hy.
      apply in_map_iff in Hy. destruct Hy as (r & <- & Hy).
      apply filter_In in Hy. destruct Hy as [Hy _]. specialize (Hs r Hy). lia.
  - cbn [insert_or_replace sequence]. lia.
  - rewrite Forall_forall in *. intros r Hr'.
    apply insert_rows_In in Hr'. cbn [insert_or_replace sequence].
    destruct Hr' as [[Hin _] | ->]; [specialize (Hs r Hin); lia|].
    cbn [id]. lia.
  - now apply update_seasons_sorted.
  - unfold update_metadata. cbn [teams]. now apply add_team_NoDup, add_team_NoDup.
  - intros r Hr'. apply insert_rows_In in Hr'.
    rewrite update_seasons_In, !update_teams_In.
    destruct Hr' as [[Hin _] | ->]; [destruct (Hr r Hin) as (H1 & H2 & H3)|cbn [data]];
      tauto.
  - intros s Hs'. apply update_seasons_In in Hs'.
    destruct (Z.eq_dec s (season m)) as [-> | Hne].
    + exists {| id := sequence (matches st) + 1; data := m |}.
      split; [apply insert_rows_In; now right|reflexivity].
    + destruct Hs' as [Hs' | Hs']; [|contradiction].
      destruct (Hu s Hs') as (r & Hin & Hrs). exists r. split; [|exact Hrs].
      apply insert_rows_In. left. split; [exact Hin|].
      apply same_key_false. unfold key. intros E. inversion E. congruence.
Qed.

Lemma empty_invariant : invariant empty.
Proof.
  constructor; cbn; try constructor; try lia; intros x [].
Qed.

Lemma reachable_invariant st : reachable st -> invariant st.
Proof.
  induction 1 as [|st m _ IH]; [exact empty_invariant|now apply add_match_invariant].
Qed.

Lemma batch_is_fold ms : forall st,
  forallb bindable ms = true ->
  fst (add_matches_batch st ms) = fold_left (fun s m => fst (add_match s m)) ms st.
Proof.
  induction ms as [|m ms IH]; intros st H; [now destruct st|].
  cbn [forallb] in H. apply andb_prop in H. destruct H as [Hm Hms].
  cbn [fold_left]. rewrite <- (IH _ Hms).
  unfold add_matches_batch, add_match. cbn [forallb]. rewrite Hm, Hms. reflexivity.
Qed.

Lemma batch_rolled_back ms st :
  forallb bindable ms = false -> add_matches_batch st ms = (st, 0).
Proof. intros H. unfold add_matches_batch. now rewrite H. Qed.

Lemma reachable_fold ms : forall st,
  reachable st -> reachable (fold_left (fun s m => fst (add_match s m)) ms st).
Proof.
  induction ms as [|m ms IH]; intros st H; [exact H|].
  cbn [fold_left]. apply IH. now constructor.
Qed.

Lemma reachable_batch ms : forall st,
  reachable st -> reachable (fst (add_matches_batch st ms)).
Proof.
  intros st H. destruct (forallb bindable ms) eqn:E.
  - rewrite (batch_is_fold ms st E). now apply reachable_fold.
  - now rewrite (batch_rolled_back ms st E).
Qed.

Lemma one_match_reachable : reachable (fst (add_match empty clasico)).
Proof. apply reachable_add, reachable_empty. Qed.

(** X14. In every storage built by [add_match] from a fresh one the ids
    are positive, grow strictly along the rows, hence are pairwise distinct,
    and never pass the counter: the id given to the next match that
    [add_match] accepts is larger than every id in the table, so no id is
    used twice. *)
Theorem ids_grow st :
  reachable st ->
  StronglySorted Z.lt (map id (rows (matches st)))
  /\ NoDup (map id (rows (matches st)))
  /\ Forall (fun r => 0 < id r <= sequence (matches st)) (rows (matches st))
  /\ forall m r, In r (rows (matches st)) ->
       id r < sequence (matches st) + 1
       /\ (snd (add_match st m) = true ->
           In {| id := sequence (matches st) + 1; data := m |}
              (rows (matches (fst (add_match st m))))).
Proof.
  intros H. apply reachable_invariant in H.
  destruct H as [_ Hi _ Hs _ _ _ _].
  split; [exact Hi|]. split; [now apply strict_sorted|]. split; [exact Hs|].
  intros m r Hr. rewrite Forall_forall in Hs. specialize (Hs r Hr).
  split; [lia|]. unfold add_match. destruct (bindable m); cbn [fst snd]; [|discriminate].
  intros _. cbn [store matches]. apply insert_rows_In. now right.
Qed.

Lemma ids_grow_witness :
  reachable (fst (add_match empty clasico))
  /\ NoDup (map id (rows (matches (fst (add_match empty clasico)))))
  /\ In {| id := 2; data := opening_day |}
        (rows (matches (fst (add_match (fst (add_match empty clasico)) opening_day)))).
Proof.
  split; [exact one_match_reachable|].
  split; [exact (proj1 (proj2 (ids_grow _ one_match_reachable)))|].
  exact (proj2 (proj2 (proj2 (proj2 (ids_grow _ one_match_reachable)))
                  opening_day {| id := 1; data := clasico |} (or_introl eq_refl))
           eq_refl).
Defined.

(** X15. The unique constraint on (season, matchday, home team, away team)
    holds in every storage built by [add_match] from a fresh one, and still
    holds after any batch. *)
Theorem unique_constraint_kept st :
  reachable st ->
  unique_keys (matches st)
  /\ forall ms, unique_keys (matches (fst (add_matches_batch st ms))).
Proof.
  intros H. split; [exact (inv_keys _ (reachable_invariant st H))|].
  intros ms. exact (inv_keys _ (reachable_invariant _ (reachable_batch ms st H))).
Qed.

Lemma unique_constraint_kept_witness :
  reachable (fst (add_match empty clasico))
  /\ unique_keys (matches (fst (add_matches_batch (fst (add_match empty clasico))
                                  [clasico; clasico_again; clasico]))).
Proof.
  split; [exact one_match_reachable|].
  exact (proj2 (unique_constraint_kept _ one_match_reachable)
           [clasico; clasico_again; clasico]).
Defined.

(** X16. [add_match] answers [True] exactly when the integer fields of the
    match can be bound.  Under the unique constraint it then adds one row
    when no stored match has the key of the new one, and leaves the number
    of rows as it is otherwise; when it answers [False] the storage is left
    as it was. *)
Theorem add_match_growth st m :
  unique_keys (matches st) ->
  snd (add_match st m) = bindable m
  /\ total_matches (fst (add_match st m))
     = total_matches st
       + (if negb (snd (add_match st m))
             || existsb (fun r => same_key (data r) m) (rows (matches st))
          then 0 else 1)
  /\ (snd (add_match st m) = false -> fst (add_match st m) = st).
Proof.
  intros Hu. unfold add_match.
  destruct (bindable m); cbn [fst snd negb orb];
    [|split; [reflexivity|split; [lia|reflexivity]]].
  split; [reflexivity|]. split; [|discriminate].
  unfold total_matches. cbn [store matches insert_or_replace rows].
  fold (kept m (rows (matches st))). rewrite length_app. cbn [length].
  destruct (existsb (fun r => same_key (data r) m) (rows (matches st))) eqn:E.
  - apply existsb_exists in E. destruct E as (r & Hr & Hk).
    apply same_key_spec in Hk.
    rewrite (Permutation_length (kept_removes_one m _ r Hu Hr Hk)).
    cbn [length]. lia.
  - rewrite kept_all; [lia|].
    intros Hin. apply in_map_iff in Hin. destruct Hin as (r & Hk & Hr).
    assert (Ht : existsb (fun r => same_key (data r) m) (rows (matches st)) = true).
    { apply existsb_exists. exists r. split; [exact Hr|]. now apply same_key_spec. }
    congruence.
Qed.

Lemma add_match_growth_witness :
  unique_keys (matches (fst (add_match empty clasico)))
  /\ total_matches (fst (add_match (fst (add_match empty clasico)) opening_day)) = 2
  /\ total_matches (fst (add_match (fst (add_match empty clasico)) unstorable)) = 1.
Proof.
  assert (Hu : unique_keys (matches (fst (add_match empty clasico))))
    by (apply (insert_unique_keys (matches empty) clasico), empty_unique_keys).
  split; [exact Hu|]. split.
  - rewrite (proj1 (proj2 (add_match_growth _ opening_day Hu))). reflexivity.
  - rewrite (proj1 (proj2 (add_match_growth _ unstorable Hu))). reflexivity.
Defined.

(** X17. After an [add_match] that answers [True] the table holds the new
    match and no other row with its key: the row of that key is the new
    one, with the data just given, whatever was stored under the key before.
    After one that answers [False] the rows are those of before. *)
Theorem last_write_wins st m r :
  In r (rows (matches (fst (add_match st m)))) ->
  (snd (add_match st m) = true ->
   (same_key (data r) m = true <-> r = {| id := sequence (matches st) + 1; data := m |}))
  /\ (snd (add_match st m) = false -> In r (rows (matches st))).
Proof.
  unfold add_match. destruct (bindable m); cbn [fst snd]; intros H;
    [|split; [discriminate|intros _; exact H]].
  split; [intros _|discriminate].
  cbn [store matches] in H. apply insert_rows_In in H. split.
  - intros E. destruct H as [[_ H] | H]; [congruence|exact H].
  - intros ->. cbn [data]. apply same_key_spec. reflexivity.
Qed.

Lemma last_write_wins_witness :
  In {| id := 2; data := clasico |}
     (rows (matches (fst (add_match (fst (add_match empty clasico)) clasico))))
  /\ snd (add_match (fst (add_match empty clasico)) clasico) = true
  /\ same_key clasico clasico = true.
Proof.
  assert (H : In {| id := 2; data := clasico |}
                 (rows (matches (fst (add_match (fst (add_match empty clasico)) clasico)))))
    by (now left).
  split; [exact H|]. split; [reflexivity|].
  exact (proj2 (proj1 (last_write_wins (fst (add_match empty clasico)) clasico _ H)
                  eq_refl) eq_refl).
Defined.

Lemma insert_length t m :
  (length (rows (insert_or_replace t m)) <= S (length (rows t)))%nat.
Proof.
  unfold insert_or_replace. cbn [rows]. rewrite length_app. cbn [length].
  pose proof (filter_length_le (fun r => negb (same_key (data r) m)) (rows t)). lia.
Qed.

(** X18. A batch whose matches can all be bound is the matches added one by
    one, in order, and the number it returns is the length of the batch,
    replaced rows included.  A batch with a match that cannot be bound is
    rolled back as a whole: it returns 0 and leaves the storage as it was,
    the matches that could be bound included.  In both cases the table
    grows by at most the number returned. *)
Theorem batch_is_iterated_add st ms :
  (forallb bindable ms = true ->
   fst (add_matches_batch st ms) = fold_left (fun s m => fst (add_match s m)) ms st
   /\ snd (add_matches_batch st ms) = Z.of_nat (length ms))
  /\ (forallb bindable ms = false -> add_matches_batch st ms = (st, 0))
  /\ total_matches (fst (add_matches_batch st ms))
     <= total_matches st + snd (add_matches_batch st ms).
Proof.
  split; [|split; [apply batch_rolled_back|]].
  - intros H. split; [now apply batch_is_fold|].
    unfold add_matches_batch. now rewrite H.
  - unfold add_matches_batch. destruct (forallb bindable ms); cbn [fst snd]; [|lia].
    unfold total_matches. cbn [matches].
    generalize (matches st). clear st.
    induction ms as [|m ms IH]; intros t; cbn [fold_left length]; [lia|].
    specialize (IH (insert_or_replace t m)).
    pose proof (insert_length t m). lia.
Qed.

Lemma batch_is_iterated_add_witness :
  forallb bindable [clasico; opening_day] = true
  /\ forallb bindable [clasico; unstorable] = false
  /\ snd (add_matches_batch empty [clasico; opening_day]) = 2
  /\ add_matches_batch empty [clasico; unstorable] = (empty, 0).
Proof.
  split; [reflexivity|]. split; [reflexivity|]. split.
  - exact (proj2 (proj1 (batch_is_iterated_add empty [clasico; opening_day]) eq_refl)).
  - exact (proj1 (proj2 (batch_is_iterated_add empty [clasico; unstorable])) eq_refl).
Defined.

(** A batch with one match that cannot be bound stores nothing, while the
    same matches added one by one store the others. *)
Lemma batch_differs_from_adds :
  total_matches (fst (add_matches_batch empty [clasico; unstorable])) = 0
  /\ total_matches (fold_left (fun s m => fst (add_match s m)) [clasico; unstorable] empty)
     = 1.
Proof. split; reflexivity. Qed.

(** X19. In every storage built by [add_match] from a fresh one the seasons
    of the metadata are in strictly ascending order, each team is listed
    once, the seasons listed are exactly the seasons of the stored matches,
    and both teams of every stored match are listed. *)
Theorem metadata_follows_table st :
  reachable st ->
  StronglySorted Z.lt (seasons (metadata st))
  /\ NoDup (teams (metadata st))
  /\ (forall s, In s (seasons (metadata st))
                <-> exists r, In r (rows (matches st)) /\ season (data r) = s)
  /\ (forall r, In r (rows (matches st)) ->
                In (home_team (data r)) (teams (metadata st))
                /\ In (away_team (data r)) (teams (metadata st))).
Proof.
  intros H. apply reachable_invariant in H.
  destruct H as [_ _ _ _ Hse Ht Hr Hu].
  split; [exact Hse|]. split; [exact Ht|]. split.
  - intros s. split; [apply Hu|].
    intros (r & Hin & <-). now apply Hr.
  - intros r Hin. now apply Hr.
Qed.

Lemma metadata_follows_table_witness :
  reachable (fst (add_match empty clasico))
  /\ StronglySorted Z.lt (seasons (metadata (fst (add_match empty clasico)))).
Proof.
  split; [exact one_match_reachable|].
  exact (proj1 (metadata_follows_table _ one_match_reachable)).
Defined.

(** X20. Recording a match in the metadata twice is recording it once, so
    appending a match again leaves the metadata as the first append left it. *)
Theorem update_metadata_idempotent md st m :
  update_metadata (update_metadata md m) m = update_metadata md m
  /\ metadata (fst (add_match (fst (add_match st m)) m)) = metadata (fst (add_match st m)).
Proof.
  assert (H : forall md, update_metadata (update_metadata md m) m = update_metadata md m).
  { clear md. intros md.
    assert (Hs : existsb (Z.eqb (season m)) (seasons (update_metadata md m)) = true)
      by (apply existsb_Zeqb, update_seasons_In; now right).
    assert (Hh : existsb (String.eqb (home_team m)) (teams (update_metadata md m)) = true)
      by (apply existsb_eqb, update_teams_In; auto).
    assert (Ha : existsb (String.eqb (away_team m)) (teams (update_metadata md m)) = true)
      by (apply existsb_eqb, update_teams_In; auto).
    unfold update_metadata at 1. rewrite Hs.
    unfold add_team. rewrite Hh, Ha. now destruct (update_metadata md m). }
  split; [apply H|]. unfold add_match.
  destruct (bindable m) eqn:Hb; cbn [fst]; rewrite ?Hb; cbn [fst store metadata];
    [apply H|reflexivity].
Qed.

Lemma filter_none {A : Type} (f : A -> bool) (l : list A) :
  (forall x, In x l -> f x = false) -> filter f l = [].
Proof.
  induction l as [|x l IH]; intros H; [reflexivity|].
  cbn [filter]. rewrite (H x (or_introl eq_refl)).
  apply IH. intros y Hy. apply H. now right.
Qed.

Lemma group_of_one l r :
  NoDup (map (fun r => key (data r)) l) -> In r l ->
  filter (fun r' => same_key (data r') (data r)) l = [r].
Proof.
  induction l as [|x l IH]; intros Hnd Hin; [destruct Hin|].
  cbn [map] in Hnd. inversion Hnd as [|? ? Hx Hl]; subst.
  cbn [filter]. destruct Hin as [-> | Hin].
  - assert (E : same_key (data r) (data r) = true) by now apply same_key_spec.
    rewrite E. f_equal. apply filter_none. intros y Hy.
    apply same_key_false. intros Ek. apply Hx. rewrite <- Ek.
    apply in_map_iff. exists y. auto.
  - assert (E : same_key (data x) (data r) = false).
    { apply same_key_false. intros Ek. apply Hx. rewrite Ek.
      apply in_map_iff. exists r. auto. }
    rewrite E. now apply IH.
Qed.

Lemma filter_all {A : Type} (f : A -> bool) (l : list A) :
  (forall x, In x l -> f x = true) -> filter f l = l.
Proof.
  induction l as [|x l IH]; intros H; [reflexivity|].
  cbn [filter]. rewrite (H x (or_introl eq_refl)). f_equal.
  apply IH. intros y Hy. apply H. now right.
Qed.

(** X21. [clean_duplicates] deletes nothing from a table that satisfies
    the unique constraint: on every storage built by [add_match] it leaves
    the storage as it is and answers 0. *)
Theorem clean_duplicates_noop st :
  unique_keys (matches st) -> clean_duplicates st = (st, 0).
Proof.
  intros Hu. unfold clean_duplicates. cbv zeta.
  assert (E : filter (fun r => existsb (fun r' => id r =? group_max (rows (matches st)) r')
                                       (rows (matches st)))
                (rows (matches st)) = rows (matches st)).
  { apply filter_all. intros r Hr. apply existsb_exists. exists r.
    split; [exact Hr|]. unfold group_max.
    rewrite (group_of_one _ r Hu Hr). cbn [map fold_left].
    apply Z.eqb_eq. lia. }
  rewrite E, Nat.sub_diag. destruct st as [[l s] md]. reflexivity.
Qed.

Lemma clean_duplicates_noop_witness :
  unique_keys (matches (fst (add_match empty clasico)))
  /\ snd (clean_duplicates (fst (add_match empty clasico))) = 0.
Proof.
  assert (Hu : unique_keys (matches (fst (add_match empty clasico))))
    by (apply insert_unique_keys, empty_unique_keys).
  split; [exact Hu|].
  rewrite (clean_duplicates_noop _ Hu). reflexivity.
Defined.

Lemma distinct_seasons_In l s :
  In s (distinct_seasons l) <-> exists r, In r l /\ season (data r) = s.
Proof.
  induction l as [|x l IH]; cbn [distinct_seasons In].
  - split; [intros []|intros (r & [] & _)].
  - rewrite filter_In, IH, negb_true_iff, Z.eqb_neq. split.
    + intros [<- | [(r & Hr & <-) _]]; [exists x; auto|exists r; auto].
    + intros (r & [-> | Hr] & <-); [now left|].
      destruct (Z.eq_dec (season (data x)) (season (data r))) as [E | E];
        [now left|right]. split; [exists r; auto|congruence].
Qed.

Lemma distinct_seasons_NoDup l : NoDup (distinct_seasons l).
Proof.
  induction l as [|x l IH]; cbn [distinct_seasons]; constructor.
  - rewrite filter_In, Z.eqb_refl. cbn. intros [_ H]. discriminate H.
  - now apply NoDup_filter.
Qed.

Lemma season_count_cons x l s :
  season_count (x :: l) s
  = season_count l s + (if season (data x) =? s then 1 else 0).
Proof.
  unfold season_count. cbn [filter].
  destruct (season (data x) =? s); cbn [length]; lia.
Qed.

Lemma season_count_sum_cons x l ks :
  NoDup ks ->
  fold_right Z.add 0 (map (season_count (x :: l)) ks)
  = fold_right Z.add 0 (map (season_count l) ks)
    + (if existsb (Z.eqb (season (data x))) ks then 1 else 0).
Proof.
  induction ks as [|k ks IH]; intros Hnd; [reflexivity|].
  inversion Hnd as [|? ? Hk Hks]; subst.
  cbn [map fold_right existsb]. rewrite (IH Hks), season_count_cons.
  destruct (season (data x) =? k) eqn:E; cbn [orb].
  - apply Z.eqb_eq in E. subst k.
    destruct (existsb (Z.eqb (season (data x))) ks) eqn:E'; [|lia].
    apply existsb_Zeqb in E'. contradiction.
  - destruct (existsb (Z.eqb (season (data x))) ks); lia.
Qed.

(** The rows of the seasons of a duplicate-free list that covers them. *)
Lemma count_by_season (l : list Row) : forall ks,
  NoDup ks -> (forall r, In r l -> In (season (data r)) ks) ->
  fold_right Z.add 0 (map (season_count l) ks) = Z.of_nat (length l).
Proof.
  induction l as [|x l IH]; intros ks Hnd Hall.
  - clear. induction ks as [|k ks IHk]; [reflexivity|].
    cbn [map fold_right]. rewrite IHk. reflexivity.
  - rewrite (season_count_sum_cons x l ks Hnd).
    rewrite (IH ks Hnd (fun r Hr => Hall r (or_intror Hr))).
    assert (Hx : existsb (Z.eqb (season (data x))) ks = true)
      by (apply existsb_Zeqb, Hall; now left).
    rewrite Hx. cbn [length]. lia.
Qed.

(** X22. The counts of [matches_per_season] add up to the number of stored
    matches, listed by ascending season, each season once; on a storage
    built by [add_match] the seasons listed are the list of seasons the
    metadata holds. *)
Theorem matches_per_season_total st :
  fold_right Z.add 0 (map snd (matches_per_season st)) = total_matches st
  /\ StronglySorted Z.lt (map fst (matches_per_season st))
  /\ (reachable st -> map fst (matches_per_season st) = seasons (metadata st)).
Proof.
  assert (Hs : StronglySorted Z.lt (sort_seasons (distinct_seasons (rows (matches st))))).
  { apply sorted_strict; [apply sort_seasons_sorted|].
    apply (Permutation_NoDup (Permutation_sym (sort_seasons_perm _))).
    apply distinct_seasons_NoDup. }
  assert (Hf : map fst (matches_per_season st)
               = sort_seasons (distinct_seasons (rows (matches st)))).
  { unfold matches_per_season. rewrite map_map. cbn [fst]. apply map_id. }
  split; [|split].
  - unfold matches_per_season, total_matches. rewrite map_map. cbn [snd].
    apply (count_by_season (rows (matches st))); [now apply strict_sorted|].
    intros r Hr. apply (Permutation_in _ (Permutation_sym (sort_seasons_perm _))).
    apply distinct_seasons_In. exists r. auto.
  - now rewrite Hf.
  - intros Hr. rewrite Hf. apply reachable_invariant in Hr.
    apply strict_sorted_unique; [exact Hs|exact (inv_seasons _ Hr)|].
    intros s. split; intros H.
    + apply (Permutation_in _ (sort_seasons_perm _)) in H.
      apply distinct_seasons_In in H. destruct H as (r & Hin & <-).
      now apply (inv_rows _ Hr).
    + apply (Permutation_in _ (Permutation_sym (sort_seasons_perm _))).
      apply distinct_seasons_In. now apply (inv_season_used _ Hr).
Qed.

Lemma matches_per_season_total_witness :
  reachable (fst (add_match empty clasico))
  /\ map fst (matches_per_season (fst (add_match empty clasico)))
     = seasons (metadata (fst (add_match empty clasico))).
Proof.
  split; [exact one_match_reachable|].
  exact (proj2 (proj2 (matches_per_season_total _)) one_match_reachable).
Defined.

Lemma distinct_strings_In l x : In x (distinct_strings l) <-> In x l.
Proof.
  induction l as [|y l IH]; cbn [distinct_strings In]; [tauto|].
  rewrite filter_In, IH, negb_true_iff, String.eqb_neq.
  destruct (string_dec y x); [subst|]; intuition congruence.
Qed.

Lemma distinct_strings_NoDup l : NoDup (distinct_strings l).
Proof.
  induction l as [|y l IH]; cbn [distinct_strings]; constructor.
  - rewrite filter_In, String.eqb_refl. cbn. intros [_ H]. discriminate H.
  - now apply NoDup_filter.
Qed.

(** X23. [unique_teams] counts the home teams only: on a storage built by
    [add_match] it is at most the number of teams in the metadata, and a
    team that has only played away is not counted. *)
Theorem unique_teams_counts_home st :
  reachable st ->
  unique_teams st <= Z.of_nat (length (teams (metadata st)))
  /\ forall t, (forall r, In r (rows (matches st)) -> home_team (data r) <> t) ->
       ~ In t (distinct_strings (map home_team (map data (rows (matches st))))).
Proof.
  intros H. apply reachable_invariant in H. split.
  - unfold unique_teams. apply inj_le. apply NoDup_incl_length.
    + apply distinct_strings_NoDup.
    + intros t Ht. apply (proj1 (distinct_strings_In _ _)) in Ht.
      rewrite map_map in Ht. apply in_map_iff in Ht.
      destruct Ht as (r & <- & Hr). now apply (inv_rows _ H).
  - intros t Ht Hin. apply (proj1 (distinct_strings_In _ _)) in Hin.
    rewrite map_map in Hin. apply in_map_iff in Hin.
    destruct Hin as (r & E & Hr). exact (Ht r Hr E).
Qed.

Lemma unique_teams_counts_home_witness :
  reachable (fst (add_match empty clasico))
  /\ unique_teams (fst (add_match empty clasico))
     <= Z.of_nat (length (teams (metadata (fst (add_match empty clasico))))).
Proof.
  split; [exact one_match_reachable|].
  exact (proj1 (unique_teams_counts_home _ one_match_reachable)).
Defined.

End StorageInvariants.
